(** * mock-db-connector: the query engine, the collections and the database

    A shallow embedding of the classes [QueryBuilder], [MockCollection]
    and [MockDatabase] and of the part of the JavaScript host they run
    on, followed by the properties of the matcher, of the collections
    and of the database.

    The development has these layers.

    - [Eval]: the outcome of running code that may throw or ask the host
      for what ECMA-262 leaves to the implementation: the
      regular-expression engine and the source text of the built-in
      functions.  A computation records the question, and [run] answers
      it from a [RegExpHost].
    - [JS]: the values a document or a filter is made of, what reading a
      property of a document gives, and the host operations the source
      applies to them ([===], [<], [typeof], [Array.isArray],
      [Array.prototype.includes], [for ... in], property lookup, the
      conversions), after ECMA-262.
    - [QueryBuilder]: the methods of the class, in the order of the
      source file.
    - [MockCollection] and [MockDatabase]: the methods of the two
      classes, run on a heap of collection objects.

    [Spec] and [StoreSpec] hold the vocabulary of the statements and the
    sample documents; [JSFacts], [Properties], [StoreProperties],
    [DatabaseProperties] and [EngineProperties] hold the proofs.

    Modelling choices, once and for all:

    - a number is an IEEE-754 binary64 value ([float]);
    - a string is a sequence of code units; the development uses code
      units below 256, one [ascii] each;
    - documents and filters are made of data: [undefined], [null],
      booleans, numbers, strings, arrays and plain objects of data.  An
      array or an object is a reference: the value carries the address
      of the object, which is what [===] compares, together with the
      contents found at that address.  No method writes to an array
      or to an object held by a field, so these contents are those of
      the whole run; the documents of a collection, which [updateOne]
      rewrites, are kept in the heap;
    - an object is the ordered list of its own enumerable properties, in
      the order [for ... in] visits them; arrays are dense.  A plain
      object inherits the members of [Object.prototype], and an array
      those of [Array.prototype] as well, both as the host defines them:
      reading a document under the name of such a member gives the
      member ([read]), and the conversion of an object to a primitive
      goes through [valueOf] and [toString], own or inherited
      ([ToPrimitive]). *)

From Stdlib Require Import List String Ascii Bool ZArith NArith Lia.
From Stdlib Require Import Floats DecimalString.
Import ListNotations.
Local Open Scope string_scope.
Local Open Scope list_scope.
#[local] Set Warnings "-register-all".

(** * Outcomes *)

Module Eval.

(** The exceptions the matcher can end with: the [SyntaxError] of the
    [RegExp] constructor, and the [TypeError] of a conversion that finds
    no primitive for an object. *)
Inductive exn : Type :=
| SyntaxError
| TypeError.

(** A computation returns, throws, or calls the host.
    [RegExpTest pattern subject k] stands for
    [new RegExp(pattern).test(subject)] followed by [k] on its answer;
    the constructor throws on a malformed pattern, so [k] is not reached
    then.  [NativeSource member k] stands for
    [Function.prototype.toString] applied to the built-in function
    [Object.prototype[member]], followed by [k] on its answer. *)
Inductive eval (A : Type) : Type :=
| Ret (a : A)
| Throw (e : exn)
| RegExpTest (pattern subject : string) (k : bool -> eval A)
| NativeSource (member : string) (k : string -> eval A).

Arguments Ret {A} a.
Arguments Throw {A} e.
Arguments RegExpTest {A} pattern subject k.
Arguments NativeSource {A} member k.

Fixpoint bind {A B : Type} (c : eval A) (f : A -> eval B) : eval B :=
  match c with
  | Ret a => f a
  | Throw e => Throw e
  | RegExpTest p s k => RegExpTest p s (fun b => bind (k b) f)
  | NativeSource m k => NativeSource m (fun src => bind (k src) f)
  end.

Notation "x <- c ;; k" := (bind c (fun x => k))
  (at level 61, c at next level, right associativity).

(** What the host decides.  Its regular-expression engine: which
    patterns the [RegExp] constructor accepts (with no flags), and
    whether an accepted pattern matches somewhere within a string.  The
    source text it gives for a built-in function, which ECMA-262
    (20.2.3.5) fixes up to the NativeFunction syntax only. *)
Record RegExpHost : Type := {
  well_formed : string -> bool;
  test : string -> string -> bool;
  native_source : string -> string
}.

Inductive result (A : Type) : Type :=
| Returns (a : A)
| Throws (e : exn).

Arguments Returns {A} a.
Arguments Throws {A} e.

Fixpoint run {A : Type} (h : RegExpHost) (c : eval A) : result A :=
  match c with
  | Ret a => Returns a
  | Throw e => Throws e
  | RegExpTest p s k =>
      if well_formed h p then run h (k (test h p s)) else Throws SyntaxError
  | NativeSource m k => run h (k (native_source h m))
  end.

End Eval.

(** * The host *)

Module JS.
Import Eval.

(** ** Values *)

(** The data a document or a filter is made of. *)
Inductive value : Type :=
| VUndefined
| VNull
| VBool (b : bool)
| VNum (n : float)
| VStr (s : string)
| VArr (addr : nat) (elems : list value)
| VObj (addr : nat) (props : list (string * value)).

(** The members of [Object.prototype] that are functions (ECMA-262,
    20.1.3, the legacy accessor methods included, as Node.js has them);
    the remaining member, [__proto__], is an accessor.  None is
    enumerable. *)
Definition Object_prototype_functions : list string :=
  ["constructor"; "hasOwnProperty"; "isPrototypeOf"; "propertyIsEnumerable";
   "toLocaleString"; "toString"; "valueOf";
   "__defineGetter__"; "__defineSetter__"; "__lookupGetter__"; "__lookupSetter__"].

(** The name is that of a member of [Object.prototype], which a plain
    object without such an own property inherits. *)
Definition inherited (key : string) : bool :=
  existsb (String.eqb key) Object_prototype_functions || (key =? "__proto__").

(** What reading a property of a plain object gives: the data of an own
    property ([undefined] when the object neither has nor inherits the
    property); under the name of a function member of
    [Object.prototype] that the object does not redefine, that built-in
    function; under [__proto__], the prototype of the object, which is
    [Object.prototype] itself. *)
Inductive read : Type :=
| Data (v : value)
| Builtin (member : string)
| ObjectPrototype.

Coercion Data : value >-> read.

(** The result of [typeof]. *)
Inductive type_tag : Type :=
| TUndefined | TObject | TBoolean | TNumber | TString | TFunction.

Definition typeof (x : read) : type_tag :=
  match x with
  | Data VUndefined => TUndefined
  | Data VNull => TObject
  | Data (VBool _) => TBoolean
  | Data (VNum _) => TNumber
  | Data (VStr _) => TString
  | Data (VArr _ _) => TObject
  | Data (VObj _ _) => TObject
  | Builtin _ => TFunction
  | ObjectPrototype => TObject
  end.

Definition type_tag_eqb (a b : type_tag) : bool :=
  match a, b with
  | TUndefined, TUndefined | TObject, TObject | TBoolean, TBoolean
  | TNumber, TNumber | TString, TString | TFunction, TFunction => true
  | _, _ => false
  end.

Definition Array_isArray (v : value) : bool :=
  match v with
  | VArr _ _ => true
  | _ => false
  end.

(** [ToBoolean]: the falsy values are [undefined], [null], [false],
    [+0], [-0], [NaN] and the empty string. *)
Definition ToBoolean (v : value) : bool :=
  match v with
  | VUndefined | VNull => false
  | VBool b => b
  | VNum n => negb (PrimFloat.is_nan n || PrimFloat.is_zero n)
  | VStr s => negb (s =? "")
  | VArr _ _ | VObj _ _ => true
  end.

(** ** Equality *)

(** [x === y] (IsStrictlyEqual): same type and same value; numbers by
    IEEE equality, so [NaN] differs from itself and [+0] equals [-0];
    objects by identity: data objects by address, a built-in function by
    its name. *)
Definition strict_equal (x y : read) : bool :=
  match x, y with
  | Data x, Data y =>
      match x, y with
      | VUndefined, VUndefined => true
      | VNull, VNull => true
      | VBool a, VBool b => Bool.eqb a b
      | VNum a, VNum b => PrimFloat.eqb a b
      | VStr a, VStr b => String.eqb a b
      | (VArr a _ | VObj a _), (VArr b _ | VObj b _) => Nat.eqb a b
      | _, _ => false
      end
  | Builtin a, Builtin b => String.eqb a b
  | ObjectPrototype, ObjectPrototype => true
  | _, _ => false
  end.

(** SameValueZero, the comparison of [Array.prototype.includes]: as
    [===], except that [NaN] is the same value as [NaN]. *)
Definition SameValueZero (x y : read) : bool :=
  match x, y with
  | Data (VNum a), Data (VNum b) =>
      PrimFloat.eqb a b || (PrimFloat.is_nan a && PrimFloat.is_nan b)
  | _, _ => strict_equal x y
  end.

(** [arr.includes(x)] on a dense array. *)
Definition Array_includes (arr : value) (x : read) : bool :=
  match arr with
  | VArr _ elems => existsb (fun e : value => SameValueZero e x) elems
  | _ => false
  end.

Local Open Scope Z_scope.

(** ** Numbers and strings *)

(** The Number value for the real [m * 10^k], [m > 0]: the nearest
    binary64 value, ties to even. *)
Definition decimal_to_SF (neg : bool) (m : positive) (k : Z) : spec_float :=
  match k with
  | Zneg p => SFdiv prec emax (S754_finite neg m 0) (S754_finite false (Pos.pow 10 p) 0)
  | _ => binary_normalize prec emax (Z.mul (if neg then Zneg m else Zpos m) (Z.pow 10 k)) 0 false
  end.

Definition Number_of_decimal (neg : bool) (m k : Z) : float :=
  match m with
  | Zpos p => SF2Prim (decimal_to_SF neg p k)
  | _ => if neg then neg_zero else zero
  end.

(** StrWhiteSpaceChar: WhiteSpace and LineTerminator (TAB, LF, VT, FF,
    CR, SP, NBSP among the code units below 256). *)
Definition is_StrWhiteSpaceChar (c : ascii) : bool :=
  match N_of_ascii c with
  | 9 | 10 | 11 | 12 | 13 | 32 | 160 => true
  | _ => false
  end%N.

Fixpoint trim_start (s : list ascii) : list ascii :=
  match s with
  | c :: r => if is_StrWhiteSpaceChar c then trim_start r else s
  | [] => []
  end.

Definition trim (s : list ascii) : list ascii :=
  rev (trim_start (rev (trim_start s))).

(** The value of a digit in the given radix. *)
Definition digit_value (radix : Z) (c : ascii) : option Z :=
  let n := Z.of_N (N_of_ascii c) in
  let d :=
    if (48 <=? n) && (n <=? 57) then n - 48
    else if (97 <=? n) && (n <=? 102) then n - 87
    else if (65 <=? n) && (n <=? 70) then n - 55
    else 99 in
  if d <? radix then Some d else None.

(** Reads the longest run of digits: the value accumulated on top of
    [acc], how many digits were read, and the rest of the input. *)
Fixpoint read_digits (radix : Z) (s : list ascii) (acc : Z) (count : Z)
  : Z * Z * list ascii :=
  match s with
  | c :: r =>
      match digit_value radix c with
      | Some d => read_digits radix r (acc * radix + d) (count + 1)
      | None => (acc, count, s)
      end
  | [] => (acc, count, [])
  end.

(** ExponentPart, optional: [None] on a syntax error. *)
Definition read_exponent (s : list ascii) : option Z :=
  match s with
  | [] => Some 0
  | c :: r =>
      if (Ascii.eqb c "e" || Ascii.eqb c "E")%char then
        let '(neg, r') :=
          match r with
          | "+"%char :: r' => (false, r')
          | "-"%char :: r' => (true, r')
          | _ => (false, r)
          end in
        match read_digits 10 r' 0 0 with
        | (e, n, []) => if 0 <? n then Some (if neg then - e else e) else None
        | _ => None
        end
      else None
  end.

(** StrUnsignedDecimalLiteral. *)
Definition read_unsigned_decimal (neg : bool) (s : list ascii) : float :=
  if String.eqb (string_of_list_ascii s) "Infinity" then
    (if neg then neg_infinity else infinity)
  else
    let '(ip, ni, r1) := read_digits 10 s 0 0 in
    let '(m, nf, r2) :=
      match r1 with
      | "."%char :: r => let '(m, nf, r2) := read_digits 10 r ip 0 in (m, Some nf, r2)
      | _ => (ip, None, r1)
      end in
    let well_formed :=
      match nf with
      | Some nf => (0 <? ni) || (0 <? nf)
      | None => 0 <? ni
      end in
    if well_formed then
      match read_exponent r2 with
      | Some e => Number_of_decimal neg m (e - match nf with Some nf => nf | None => 0 end)
      | None => nan
      end
    else nan.

(** NonDecimalIntegerLiteral: [0x], [0o], [0b] and their digits. *)
Definition read_radix_integer (radix : Z) (s : list ascii) : float :=
  match read_digits radix s 0 0 with
  | (m, n, []) => if 0 <? n then Number_of_decimal false m 0 else nan
  | _ => nan
  end.

(** StringToNumber (ECMA-262, 7.1.4.1.1). *)
Definition StringToNumber (str : string) : float :=
  match trim (list_ascii_of_string str) with
  | [] => zero
  | "0"%char :: ("x" | "X")%char :: r => read_radix_integer 16 r
  | "0"%char :: ("o" | "O")%char :: r => read_radix_integer 8 r
  | "0"%char :: ("b" | "B")%char :: r => read_radix_integer 2 r
  | "+"%char :: r => read_unsigned_decimal false r
  | "-"%char :: r => read_unsigned_decimal true r
  | s => read_unsigned_decimal false s
  end.

(** *** Number::toString, radix 10 (ECMA-262, 6.1.6.1.20) *)

Definition decimal_digits (z : Z) : string :=
  NilZero.string_of_uint (N.to_uint (Z.to_N z)).

Fixpoint zeros (n : nat) : string :=
  match n with
  | O => ""%string
  | S n' => String "0"%char (zeros n')
  end.

(** [x = num / den], positive.  The integer [n] with
    [10^(n-1) <= x < 10^n], searched upwards from [lo <= n]. *)
Fixpoint decimal_exponent (fuel : nat) (num den : Z) (lo : Z) : Z :=
  match fuel with
  | O => lo
  | S fuel' =>
      let below :=
        if 0 <=? lo then num <? den * 10 ^ lo else num * 10 ^ (- lo) <? den in
      if below then lo else decimal_exponent fuel' num den (lo + 1)
  end.

(** A lower bound of that [n] for [2^(l-1) <= x]: [log10 2] lies between
    [0.30102] and [0.30103]. *)
Definition decimal_exponent_estimate (l : Z) : Z :=
  (if 0 <=? l - 1 then (l - 1) * 30102 / 100000 else (l - 1) * 30103 / 100000) - 1.

(** The shortest digit string: the least [k >= 1] for which some integer
    [s] of [k] digits has [s * 10^(n-k)] round to [x]; among such [s] the
    one nearest to [x].  Returns [(s, n)]. *)
Fixpoint shortest_digits (fuel : nat) (x : spec_float) (num den n : Z) (k : Z)
  : Z * Z :=
  match fuel with
  | O => (0, n)
  | S fuel' =>
      let p := if 0 <=? k - n then num * 10 ^ (k - n) else num in
      let q := if 0 <=? k - n then den else den * 10 ^ (n - k) in
      let lo := p / q in
      let r := p mod q in
      let hi := lo + 1 in
      let round_trips s :=
        match s with
        | Zpos s' =>
            match SFcompare (decimal_to_SF false s' (n - k)) x with
            | Some Eq => true
            | _ => false
            end
        | _ => false
        end in
      let pick s := if s =? 10 ^ k then (10 ^ (k - 1), n + 1) else (s, n) in
      match round_trips lo, round_trips hi with
      | true, true =>
          match 2 * r ?= q with
          | Lt => pick lo
          | Gt => pick hi
          | Eq => if Z.even lo then pick lo else pick hi
          end
      | true, false => pick lo
      | false, true => pick hi
      | false, false => shortest_digits fuel' x num den n (k + 1)
      end
  end.

Definition Number_toString_finite (x : spec_float) (m : positive) (e : Z) : string :=
  let num := if 0 <=? e then Zpos m * 2 ^ e else Zpos m in
  let den := if 0 <=? e then 1 else 2 ^ (- e) in
  let n0 :=
    decimal_exponent 8 num den
      (decimal_exponent_estimate (Zpos (digits2_pos m) + e)) in
  let '(s, n) := shortest_digits 17 x num den n0 1 in
  let digits := decimal_digits s in
  let k := Z.of_nat (String.length digits) in
  if (k <=? n) && (n <=? 21) then
    String.concat "" [digits; zeros (Z.to_nat (n - k))]
  else if (0 <? n) && (n <=? 21) then
    String.concat ""
      [substring 0 (Z.to_nat n) digits; ".";
       substring (Z.to_nat n) (Z.to_nat (k - n)) digits]
  else if (-6 <? n) && (n <=? 0) then
    String.concat "" ["0."; zeros (Z.to_nat (- n)); digits]
  else
    let exponent :=
      String.append (if 0 <? n - 1 then "e+" else "e-")
                    (decimal_digits (Z.abs (n - 1))) in
    if k =? 1 then String.append digits exponent
    else String.concat ""
           [substring 0 1 digits; "."; substring 1 (Z.to_nat (k - 1)) digits;
            exponent].

Definition Number_toString (x : float) : string :=
  match Prim2SF x with
  | S754_nan => "NaN"
  | S754_zero _ => "0"
  | S754_infinity s => if s then "-Infinity" else "Infinity"
  | S754_finite s m e =>
      String.append (if s then "-" else "")
                    (Number_toString_finite (S754_finite false m e) m e)
  end.


Local Close Scope Z_scope.

(** ** Own properties *)

(** The own property of that name among the properties of an object,
    if there is one. *)
Fixpoint own_property {A : Type} (key : string) (props : list (string * A))
  : option A :=
  match props with
  | [] => None
  | (k, v) :: rest => if String.eqb k key then Some v else own_property key rest
  end.

(** ** Conversions *)

Inductive hint : Type :=
| hint_string
| hint_number.

(** One step of OrdinaryToPrimitive (ECMA-262, 7.1.1.1) on a plain
    object: [Get(O, name)] for [name] one of [toString] and [valueOf],
    and the result of calling it when it is callable and the result is
    a primitive; [None] when the step yields nothing.  An own property
    is data, hence not callable.  Without one the method is inherited
    from [Object.prototype]: [valueOf] answers the object itself, which
    is no primitive, and [toString] answers ["[object Object]"]. *)
Definition method_primitive (props : list (string * value)) (name : string)
  : option string :=
  match own_property name props with
  | Some _ => None
  | None => if name =? "toString" then Some "[object Object]" else None
  end.

(** OrdinaryToPrimitive on a plain object: the two methods in the order
    of the hint; [None] stands for the [TypeError] thrown when neither
    yields a primitive. *)
Definition OrdinaryToPrimitive (props : list (string * value)) (h : hint)
  : option string :=
  match h with
  | hint_string =>
      match method_primitive props "toString" with
      | Some p => Some p
      | None => method_primitive props "valueOf"
      end
  | hint_number =>
      match method_primitive props "valueOf" with
      | Some p => Some p
      | None => method_primitive props "toString"
      end
  end.

(** The results of a list of conversions, when none of them throws. *)
Fixpoint all_some {A : Type} (xs : list (option A)) : option (list A) :=
  match xs with
  | [] => Some []
  | Some x :: rest =>
      match all_some rest with
      | Some ys => Some (x :: ys)
      | None => None
      end
  | None :: _ => None
  end.

(** [ToString]; [None] stands for a [TypeError].  A plain object
    converts through OrdinaryToPrimitive with the hint string.  An array
    has no own [toString] or [valueOf] (its own properties are its
    elements), so it converts through [Array.prototype.toString], that
    is, [join]: its elements converted in turn, [undefined] and [null]
    as the empty string, separated by commas. *)
Fixpoint ToString (v : value) : option string :=
  match v with
  | VUndefined => Some "undefined"
  | VNull => Some "null"
  | VBool true => Some "true"
  | VBool false => Some "false"
  | VNum n => Some (Number_toString n)
  | VStr s => Some s
  | VArr _ elems =>
      match all_some (map (fun e => match e with
                                    | VUndefined | VNull => Some ""
                                    | _ => ToString e
                                    end) elems) with
      | Some strings => Some (String.concat "," strings)
      | None => None
      end
  | VObj _ props => OrdinaryToPrimitive props hint_string
  end.

(** [ToPrimitive] with the hint number, as the relational operators
    call it.  A primitive is left as it is.  A plain object goes through
    OrdinaryToPrimitive.  For an array [valueOf] is inherited and
    answers the array itself, and [toString] is
    [Array.prototype.toString].  A built-in function inherits the same
    [valueOf], and its [toString] is [Function.prototype.toString],
    which gives the source text the host chooses.  [Object.prototype]
    has the two methods for own properties. *)
Definition ToPrimitive (x : read) : eval value :=
  match x with
  | Data (VObj _ props) =>
      match OrdinaryToPrimitive props hint_number with
      | Some s => Ret (VStr s)
      | None => Throw TypeError
      end
  | Data (VArr addr elems) =>
      match ToString (VArr addr elems) with
      | Some s => Ret (VStr s)
      | None => Throw TypeError
      end
  | Data v => Ret v
  | Builtin member => NativeSource member (fun source => Ret (VStr source))
  | ObjectPrototype => Ret (VStr "[object Object]")
  end.

(** [ToNumber] of a primitive. *)
Definition ToNumber (p : value) : float :=
  match p with
  | VUndefined => nan
  | VNull => zero
  | VBool true => one
  | VBool false => zero
  | VNum n => n
  | VStr s => StringToNumber s
  | VArr _ _ | VObj _ _ => nan (* not a primitive *)
  end.

(** ** Relational operators *)

(** The comparison of two primitives in IsLessThan (ECMA-262, 7.2.13):
    [None] stands for [undefined], the answer when an operand converts
    to [NaN].  Two strings are compared code unit by code unit, anything
    else as numbers. *)
Definition less_primitive (px py : value) : option bool :=
  match px, py with
  | VStr a, VStr b => Some (String.ltb a b)
  | _, _ =>
      let nx := ToNumber px in
      let ny := ToNumber py in
      if PrimFloat.is_nan nx || PrimFloat.is_nan ny then None
      else Some (PrimFloat.ltb nx ny)
  end.

(** IsLessThan: the operands are converted to primitives, [x] first
    when [left_first], and compared. *)
Definition IsLessThan (x y : read) (left_first : bool) : eval (option bool) :=
  if left_first then
    px <- ToPrimitive x ;;
    py <- ToPrimitive y ;;
    Ret (less_primitive px py)
  else
    py <- ToPrimitive y ;;
    px <- ToPrimitive x ;;
    Ret (less_primitive px py).

(** [x < y], [x > y], [x <= y], [x >= y] (ECMA-262, 13.10.1). *)
Definition less_than (x y : read) : eval bool :=
  r <- IsLessThan x y true ;;
  Ret (match r with
       | Some true => true
       | _ => false
       end).

Definition greater_than (x y : read) : eval bool :=
  r <- IsLessThan y x false ;;
  Ret (match r with
       | Some true => true
       | _ => false
       end).

Definition less_equal (x y : read) : eval bool :=
  r <- IsLessThan y x false ;;
  Ret (match r with
       | Some false => true
       | _ => false
       end).

Definition greater_equal (x y : read) : eval bool :=
  r <- IsLessThan x y true ;;
  Ret (match r with
       | Some false => true
       | _ => false
       end).

(** ** Properties *)

Definition index_key (i : nat) : string :=
  NilZero.string_of_uint (Nat.to_uint i).

(** The own enumerable properties of a value, in the order [for ... in]
    and [Object.keys] list them: the properties of an object, the
    elements of an array and the code units of a string under their
    indices; nothing for the other primitives.  No inherited property
    is enumerable. *)
Definition own_enumerable (v : value) : list (string * value) :=
  match v with
  | VObj _ props => props
  | VArr _ elems => combine (map index_key (seq 0 (List.length elems))) elems
  | VStr s =>
      combine (map index_key (seq 0 (String.length s)))
              (map (fun c => VStr (String c "")) (list_ascii_of_string s))
  | _ => []
  end.

Definition Object_keys (v : value) : list string :=
  map fst (own_enumerable v).

Fixpoint lookup (key : string) (props : list (string * value)) : value :=
  match props with
  | [] => VUndefined
  | (k, v) :: rest => if String.eqb k key then v else lookup key rest
  end.

(** [o[key]] for a key that [for ... in] lists for [o], one of its own
    enumerable properties. *)
Definition Get (o : value) (key : string) : value :=
  lookup key (own_enumerable o).

(** [o[key]] for a plain object [o] with the own properties [props] and
    any key: an own property, else a member of [Object.prototype], else
    [undefined]. *)
Definition Get_plain (props : list (string * value)) (key : string) : read :=
  match own_property key props with
  | Some v => Data v
  | None =>
      if existsb (String.eqb key) Object_prototype_functions then Builtin key
      else if key =? "__proto__" then ObjectPrototype
      else Data VUndefined
  end.

End JS.

(** * The class [QueryBuilder] *)

Module QueryBuilder.
Import Eval JS.

(** A document is a plain object: its address and its own fields. *)
Record document : Type := Doc {
  doc_addr : nat;
  doc_fields : list (string * value)
}.

(** [doc[key]]. *)
Definition field (doc : document) (key : string) : read :=
  Get_plain (doc_fields doc) key.

Record QueryBuilder : Type := {
  documents : list document
}.

(** [this.documents = documents || []]: an array is truthy, so only an
    absent argument is replaced. *)
Definition constructor (documents : option (list document)) : QueryBuilder :=
  {| documents := match documents with
                  | Some documents => documents
                  | None => []
                  end |}.

(** The pattern the [RegExp] constructor compiles for an argument that is
    not itself a regular expression: the empty pattern for [undefined],
    the argument converted to a string otherwise; [None] when that
    conversion throws its [TypeError]. *)
Definition RegExp_pattern (v : value) : option string :=
  match v with
  | VUndefined => Some ""
  | _ => ToString v
  end.

Definition _matchesOperator (fieldValue : read) (operator : string) (value : value)
  : eval bool :=
  if operator =? "$eq" then Ret (strict_equal fieldValue value)
  else if operator =? "$ne" then Ret (negb (strict_equal fieldValue value))
  else if operator =? "$gt" then greater_than fieldValue value
  else if operator =? "$gte" then greater_equal fieldValue value
  else if operator =? "$lt" then less_than fieldValue value
  else if operator =? "$lte" then less_equal fieldValue value
  else if operator =? "$in" then
    Ret (Array_isArray value && Array_includes value fieldValue)
  else if operator =? "$regex" then
    match fieldValue with
    | Data (VStr s) =>
        match RegExp_pattern value with
        | Some pattern => RegExpTest pattern s Ret
        | None => Throw TypeError
        end
    | _ => Ret false
    end
  else Ret false.

(** [for (const key in ...) { if (!body(key)) return false; } return true;]
    the shape of both loops of [_matchesQuery]. *)
Fixpoint for_in_all (keys : list string) (body : string -> eval bool) : eval bool :=
  match keys with
  | [] => Ret true
  | key :: rest =>
      ok <- body key ;;
      if ok then for_in_all rest body else Ret false
  end.

Definition _matchesQuery (doc : document) (query : value) : eval bool :=
  for_in_all (Object_keys query) (fun key =>
    let queryValue := Get query key in
    let docValue := field doc key in
    if ToBoolean queryValue
       && type_tag_eqb (typeof queryValue) TObject
       && negb (Array_isArray queryValue)
    then
      for_in_all (Object_keys queryValue) (fun operator =>
        _matchesOperator docValue operator (Get queryValue operator))
    else
      _matchesOperator docValue "$eq" queryValue).

(** [Array.prototype.filter] with a callback that may throw. *)
Fixpoint Array_filter {A : Type} (callback : A -> eval bool) (xs : list A)
  : eval (list A) :=
  match xs with
  | [] => Ret []
  | x :: rest =>
      keep <- callback x ;;
      kept <- Array_filter callback rest ;;
      Ret (if keep then x :: kept else kept)
  end.

(** The method [match]; the name is a reserved word of Rocq, hence the
    underscore. *)
Definition match_ (this : QueryBuilder) (query : value) : eval QueryBuilder :=
  if negb (ToBoolean query) || Nat.eqb (List.length (Object_keys query)) 0 then
    Ret this
  else
    kept <- Array_filter (fun doc => _matchesQuery doc query) (documents this) ;;
    Ret {| documents := kept |}.

Definition execute (this : QueryBuilder) : list document :=
  documents this.

(** [new QueryBuilder(documents).match(filter).execute()], the
    [matchAll] of the specification; its [matches] is [_matchesQuery]. *)
Definition matchAll (documents : list document) (filter : value)
  : eval (list document) :=
  this <- match_ (constructor (Some documents)) filter ;;
  Ret (execute this).

End QueryBuilder.

(** * Vocabulary of the statements *)

Module Spec.
Import Eval JS QueryBuilder.

(** The filter [{f: v}], the filter [{a: X, b: Y}] and the operator
    object [{op: v}], allocated at [addr]. *)
Definition filter1 (addr : nat) (f : string) (v : value) : value :=
  VObj addr [(f, v)].

Definition filter2 (addr : nat) (a : string) (X : value) (b : string) (Y : value)
  : value :=
  VObj addr [(a, X); (b, Y)].

Definition operator1 (addr : nat) (op : string) (v : value) : value :=
  VObj addr [(op, v)].

(** The operator names [_matchesOperator] has a case for. *)
Definition known_operators : list string :=
  ["$eq"; "$ne"; "$gt"; "$gte"; "$lt"; "$lte"; "$in"; "$regex"].

Definition ordering_operators : list string :=
  ["$gt"; "$gte"; "$lt"; "$lte"].

(** The document has no field [f]. *)
Definition lacks (doc : document) (f : string) : Prop :=
  ~ In f (map fst (doc_fields doc)).

(** A filter value that [_matchesQuery] takes for an operator object. *)
Definition operator_shaped (v : value) : Prop :=
  exists addr props, v = VObj addr props.

(** The value is the object at [addr]. *)
Definition same_object (x : read) (addr : nat) : bool :=
  match x with
  | Data (VArr a _ | VObj a _) => Nat.eqb a addr
  | _ => false
  end.

Definition is_NaN (x : read) : bool :=
  match x with
  | Data (VNum n) => PrimFloat.is_nan n
  | _ => false
  end.

(** The values that no conversion turns into a primitive: a plain
    object with an own property [toString], and an array that holds such
    a value. *)
Inductive unconvertible : value -> Prop :=
| unconvertible_object (addr : nat) (props : list (string * value)) :
    In "toString" (map fst props) -> unconvertible (VObj addr props)
| unconvertible_array (addr : nat) (elems : list value) (e : value) :
    In e elems -> unconvertible e -> unconvertible (VArr addr elems).

(** The same of what a property read gives: built-in functions and
    [Object.prototype] convert. *)
Definition stuck (x : read) : Prop :=
  exists v, x = Data v /\ unconvertible v.

(** An ordering test on two primitives as the host decides it: two
    strings by [on_strings], anything else by [on_numbers] after
    [ToNumber]. *)
Definition ordering (on_strings : string -> string -> bool)
    (on_numbers : float -> float -> bool) (px py : value) : bool :=
  match px, py with
  | VStr a, VStr b => on_strings a b
  | _, _ => on_numbers (ToNumber px) (ToNumber py)
  end.

(** The outcome of a test on the primitives the two operands convert
    to: the [TypeError] of a conversion that throws, the test
    otherwise. *)
Definition converted (h : RegExpHost) (test : value -> value -> bool) (x y : read)
  : result bool :=
  match run h (ToPrimitive x), run h (ToPrimitive y) with
  | Returns px, Returns py => Returns (test px py)
  | Throws e, _ => Throws e
  | Returns _, Throws e => Throws e
  end.

Definition returns_true (r : result bool) : bool :=
  match r with
  | Returns true => true
  | _ => false
  end.

(** Documents of [xs] that are, as objects, among [ys]; in the order of
    [xs]. *)
Definition intersection (xs ys : list document) : list document :=
  filter (fun d => existsb (fun d' => Nat.eqb (doc_addr d) (doc_addr d')) ys) xs.

(** An address names one object. *)
Definition store_consistent (docs : list document) : Prop :=
  forall d d', In d docs -> In d' docs -> doc_addr d = doc_addr d' -> d = d'.

(** The test [_matchesQuery] makes for one key of the filter: the body
    of its outer loop. *)
Definition field_condition (doc : document) (key : string) (queryValue : value)
  : eval bool :=
  let docValue := field doc key in
  if ToBoolean queryValue
     && type_tag_eqb (typeof queryValue) TObject
     && negb (Array_isArray queryValue)
  then
    for_in_all (Object_keys queryValue) (fun operator =>
      _matchesOperator docValue operator (Get queryValue operator))
  else
    _matchesOperator docValue "$eq" queryValue.

(** ** Sample data *)

Definition alice : document :=
  Doc 1 [("name", VStr "Alice"); ("age", VNum 30)].
Definition bob : document :=
  Doc 2 [("name", VStr "Bob"); ("age", VNum 25)].
Definition charlie : document :=
  Doc 3 [("name", VStr "Charlie"); ("age", VNum 35)].

(** [{tags: ['admin', 'user']}], the array at address 5. *)
Definition tagged : document :=
  Doc 4 [("tags", VArr 5 [VStr "admin"; VStr "user"])].

(** [{a: 2, b: 's'}]. *)
Definition two_fields : document :=
  Doc 6 [("a", VNum 2); ("b", VStr "s")].

(** [{toString: 1}], an object that no conversion turns into a
    primitive. *)
Definition no_primitive : value :=
  VObj 20 [("toString", VNum 1)].

(** A host that rejects the unterminated group [(], matches nothing,
    and prints a built-in function the way V8 does. *)
Definition strict_host : RegExpHost :=
  {| well_formed := fun p => negb (p =? "(");
     test := fun _ _ => false;
     native_source := fun member =>
       String.concat ""
         ["function ";
          if member =? "constructor" then "Object" else member;
          "() { [native code] }"] |}.

End Spec.

(** * The class [MockCollection] *)

Module MockCollection.
Import JS.

(** ** Writing to an object *)

(** The property key is an array index: the canonical decimal form of
    an integer from 0 to 2^32 - 2.  [for ... in] and [Object.keys] list
    such keys first, in ascending order, and the other keys after them in
    the order of their creation. *)
Definition array_index (key : string) : option Z :=
  match read_digits 10 (list_ascii_of_string key) 0 0 with
  | (i, n, []) =>
      if (0 <? n)%Z && (decimal_digits i =? key) && (i <=? 4294967294)%Z
      then Some i else None
  | _ => None
  end.

(** [o.hasOwnProperty(key)]. *)
Definition has_own {A : Type} (key : string) (props : list (string * A)) : bool :=
  match own_property key props with
  | Some _ => true
  | None => false
  end.

(** [key in o], for a plain object [o]: an own property, or a member
    inherited from [Object.prototype]. *)
Definition has_property {A : Type} (key : string) (props : list (string * A)) : bool :=
  has_own key props || inherited key.

Fixpoint replace_value {A : Type} (key : string) (v : A) (props : list (string * A))
  : list (string * A) :=
  match props with
  | [] => []
  | (k, w) :: rest =>
      if k =? key then (key, v) :: rest else (k, w) :: replace_value key v rest
  end.

Fixpoint insert_index {A : Type} (i : Z) (key : string) (v : A)
    (props : list (string * A)) : list (string * A) :=
  match props with
  | [] => [(key, v)]
  | (k, w) :: rest =>
      match array_index k with
      | Some j =>
          if (j <? i)%Z then (k, w) :: insert_index i key v rest
          else (key, v) :: props
      | None => (key, v) :: props
      end
  end.

(** [o[key] = v]: an existing property keeps its place; a new one goes
    where the enumeration order puts it. *)
Definition set_property {A : Type} (key : string) (v : A) (props : list (string * A))
  : list (string * A) :=
  if has_own key props then replace_value key v props
  else
    match array_index key with
    | Some i => insert_index i key v props
    | None => props ++ [(key, v)]
    end.

(** [delete o[key]]. *)
Definition delete_property {A : Type} (key : string) (props : list (string * A))
  : list (string * A) :=
  filter (fun kv => negb (fst kv =? key)) props.

(** [o[key] = v] on a plain object.  The key [__proto__], unless the
    object has it as an own property, reaches the setter inherited from
    [Object.prototype], which creates no property.  (That setter
    replaces the prototype of the object; prototypes are not part of the
    model, see [updateOne].) *)
Definition assign_property {A : Type} (key : string) (v : A)
    (target : list (string * A)) : list (string * A) :=
  if (key =? "__proto__") && negb (has_own key target) then target
  else set_property key v target.

(** [Object.assign(target, source)]: every own enumerable property of
    the source is assigned to the target, in order. *)
Definition Object_assign (target : list (string * value)) (source : value)
  : list (string * value) :=
  fold_left (fun t key => assign_property key (Get source key) t)
            (Object_keys source) target.

(** [Array.prototype.findIndex]; [None] stands for -1. *)
Fixpoint findIndex {A : Type} (p : A -> bool) (xs : list A) : option nat :=
  match xs with
  | [] => None
  | x :: rest =>
      if p x then Some 0
      else match findIndex p rest with
           | Some i => Some (S i)
           | None => None
           end
  end.

(** [xs.splice(i, 1)]. *)
Fixpoint splice1 {A : Type} (i : nat) (xs : list A) : list A :=
  match xs, i with
  | [], _ => []
  | _ :: rest, O => rest
  | x :: rest, S i' => x :: splice1 i' rest
  end.

(** [xs[i] = y], within bounds. *)
Fixpoint store_at {A : Type} (i : nat) (y : A) (xs : list A) : list A :=
  match xs, i with
  | [], _ => []
  | _ :: rest, O => y :: rest
  | x :: rest, S i' => x :: store_at i' y rest
  end.

(** ** State *)

Record MockCollection : Type := {
  name : value;
  documents : list QueryBuilder.document
}.

(** What a method can throw: an [Error] with its message, or an error
    of the host, the [TypeError] of a property read on [undefined] or
    [null] and what the query engine throws. *)
Inductive thrown : Type :=
| Error (message : string)
| Raised (e : Eval.exn).

(** The heap: the [MockCollection] object at each address, the next free
    address, and how many random numbers were drawn. *)
Record state : Type := {
  collection_at : nat -> MockCollection;
  next_addr : nat;
  drawn : nat
}.

(** The host: its regular-expression engine and its random source.
    [random_base36 n] is what the [n]-th evaluation of
    [Math.random().toString(36).substring(2, 15)] gives. *)
Record Host : Type := {
  regexp : Eval.RegExpHost;
  random_base36 : nat -> string
}.

(** A method runs to completion from a state: it returns or it throws
    (an [async] method resolves or rejects), and leaves a state either
    way.  The promises a method awaits are those of the class itself,
    which settle without outside code; no other call is taken to run
    between them. *)
Inductive outcome (A : Type) : Type :=
| Done (a : A) (s : state)
| Failed (e : thrown) (s : state).

Arguments Done {A} a s.
Arguments Failed {A} e s.

Definition M (A : Type) : Type := state -> outcome A.

Definition ret {A : Type} (a : A) : M A := fun s => Done a s.

Definition throw {A : Type} (e : thrown) : M A := fun s => Failed e s.

Definition bind {A B : Type} (m : M A) (f : A -> M B) : M B :=
  fun s =>
    match m s with
    | Done a s' => f a s'
    | Failed e s' => Failed e s'
    end.

Notation "x <- c ;; k" := (bind c (fun x => k))
  (at level 61, c at next level, right associativity).
Notation "c ;;; k" := (bind c (fun _ => k))
  (at level 61, right associativity).

(** A fresh address, for an object or array literal. *)
Definition alloc : M nat :=
  fun s =>
    Done (next_addr s)
         {| collection_at := collection_at s;
            next_addr := S (next_addr s);
            drawn := drawn s |}.

Definition get_documents (this : nat) : M (list QueryBuilder.document) :=
  fun s => Done (documents (collection_at s this)) s.

(** [this.documents = docs], also the outcome of a [push] or a [splice]
    on that array. *)
Definition set_documents (this : nat) (docs : list QueryBuilder.document) : M unit :=
  fun s =>
    Done tt
         {| collection_at := fun a =>
              if Nat.eqb a this
              then {| name := name (collection_at s this); documents := docs |}
              else collection_at s a;
            next_addr := next_addr s;
            drawn := drawn s |}.

(** A parameter with the default [{}]. *)
Definition default_object (v : value) : M value :=
  match v with
  | VUndefined => addr <- alloc ;; ret (VObj addr [])
  | _ => ret v
  end.

(** [o.key] for one of the keys [upsert], [$set] and [$unset], which
    no prototype defines: the own property, [undefined] without one,
    and a [TypeError] on [undefined] and [null]. *)
Definition get_property (o : value) (key : string) : M value :=
  match o with
  | VUndefined | VNull => throw (Raised Eval.TypeError)
  | _ => ret (Get o key)
  end.

(** The response objects of the methods: a key that a response does not
    have is [None]. *)
Record response : Type := {
  acknowledged : bool;
  insertedId : option value;
  deletedCount : option nat;
  matchedCount : option nat;
  modifiedCount : option nat;
  upsertedCount : option nat;
  upsertedId : option value
}.

Definition inserted (id : value) : response :=
  {| acknowledged := true; insertedId := Some id; deletedCount := None;
     matchedCount := None; modifiedCount := None; upsertedCount := None;
     upsertedId := None |}.

Definition deleted (count : nat) : response :=
  {| acknowledged := true; insertedId := None; deletedCount := Some count;
     matchedCount := None; modifiedCount := None; upsertedCount := None;
     upsertedId := None |}.

Definition updated (matched modified : nat) : response :=
  {| acknowledged := true; insertedId := None; deletedCount := None;
     matchedCount := Some matched; modifiedCount := Some modified;
     upsertedCount := None; upsertedId := None |}.

Definition upserted (id : option value) : response :=
  {| acknowledged := true; insertedId := None; deletedCount := None;
     matchedCount := Some 0; modifiedCount := Some 0;
     upsertedCount := Some 1; upsertedId := id |}.

Section Methods.

Variable host : Host.

(** The query engine, run on the host's regular expressions. *)
Definition query {A : Type} (c : Eval.eval A) : M A :=
  fun s =>
    match Eval.run (regexp host) c with
    | Eval.Returns a => Done a s
    | Eval.Throws e => Failed (Raised e) s
    end.

Definition Math_random_base36 : M string :=
  fun s =>
    Done (random_base36 host (drawn s))
         {| collection_at := collection_at s;
            next_addr := next_addr s;
            drawn := S (drawn s) |}.

(** [new MockCollection(name)]. *)
Definition constructor (name : value) : M nat :=
  this <- alloc ;;
  (fun s =>
     Done tt
          {| collection_at := fun a =>
               if Nat.eqb a this then {| name := name; documents := [] |}
               else collection_at s a;
             next_addr := next_addr s;
             drawn := drawn s |}) ;;;
  ret this.

Definition _generateId : M string :=
  left <- Math_random_base36 ;;
  right <- Math_random_base36 ;;
  ret (left ++ right)%string.

Definition insertOne (this : nat) (document : value) : M response :=
  if negb (ToBoolean document) || negb (type_tag_eqb (typeof document) TObject)
  then throw (Error "Document must be an object")
  else
    addr <- alloc ;;
    let docToInsert := own_enumerable document in
    docToInsert <-
      (if negb (ToBoolean (lookup "_id" docToInsert)) then
         id <- _generateId ;;
         ret (set_property "_id" (VStr id) docToInsert)
       else ret docToInsert) ;;
    docs <- get_documents this ;;
    set_documents this (docs ++ [QueryBuilder.Doc addr docToInsert]) ;;;
    ret (inserted (lookup "_id" docToInsert)).

(** [result.map(doc => ({ ...doc }))]. *)
Fixpoint copies (docs : list QueryBuilder.document) : M (list QueryBuilder.document) :=
  match docs with
  | [] => ret []
  | doc :: rest =>
      addr <- alloc ;;
      rest' <- copies rest ;;
      ret (QueryBuilder.Doc addr (QueryBuilder.doc_fields doc) :: rest')
  end.

Definition find (this : nat) (query_ : value) : M (list QueryBuilder.document) :=
  query_ <- default_object query_ ;;
  docs <- get_documents this ;;
  result <- query (QueryBuilder.matchAll docs query_) ;;
  copies result.

(** [null] is [None]. *)
Definition findOne (this : nat) (query_ : value) : M (option QueryBuilder.document) :=
  query_ <- default_object query_ ;;
  results <- find this query_ ;;
  ret (match results with
       | first :: _ => Some first
       | [] => None
       end).

Definition same_id (a b : QueryBuilder.document) : bool :=
  strict_equal (QueryBuilder.field a "_id") (QueryBuilder.field b "_id").

Definition deleteOne (this : nat) (query_ : value) : M response :=
  query_ <- default_object query_ ;;
  docs <- get_documents this ;;
  matchingDocs <- query (QueryBuilder.matchAll docs query_) ;;
  match matchingDocs with
  | [] => ret (deleted 0)
  | docToDelete :: _ =>
      docs <- get_documents this ;;
      match findIndex (fun doc => same_id doc docToDelete) docs with
      | Some indexToDelete =>
          set_documents this (splice1 indexToDelete docs) ;;;
          ret (deleted 1)
      | None => ret (deleted 0)
      end
  end.

(** The loop over [update.$unset]: the fields left and the flag
    [modified].  The test is [key in docToUpdate], which an inherited
    member passes too; [delete] removes own properties only. *)
Fixpoint unset_all (keys : list string) (fields : list (string * value))
    (modified : bool) : list (string * value) * bool :=
  match keys with
  | [] => (fields, modified)
  | key :: rest =>
      if has_property key fields
      then unset_all rest (delete_property key fields) true
      else unset_all rest fields modified
  end.

(** A stored document is a plain object, made by a spread, and is taken
    to keep [Object.prototype] for prototype.  The one way the class has
    of changing that is a [$set] with an own key [__proto__]. *)
Definition updateOne (this : nat) (filter update options : value) : M response :=
  options <- default_object options ;;
  if negb (ToBoolean update) || negb (type_tag_eqb (typeof update) TObject)
  then throw (Error "Update must be an object")
  else
    existingDoc <- findOne this filter ;;
    match existingDoc with
    | None =>
        upsert <- get_property options "upsert" ;;
        if ToBoolean upsert then
          addr <- alloc ;;
          let newDoc := own_enumerable filter in
          let newDoc :=
            if ToBoolean (Get update "$set")
            then Object_assign newDoc (Get update "$set")
            else newDoc in
          insertResult <- insertOne this (VObj addr newDoc) ;;
          ret (upserted (insertedId insertResult))
        else ret (updated 0 0)
    | Some existingDoc =>
        docs <- get_documents this ;;
        match findIndex (fun doc => same_id doc existingDoc) docs with
        | None => ret (updated 0 0)
        | Some docIndex =>
            match nth_error docs docIndex with
            | None => throw (Raised Eval.TypeError) (* not reached: the index is in bounds *)
            | Some docToUpdate =>
                let fields := QueryBuilder.doc_fields docToUpdate in
                let '(fields, modified) :=
                  if ToBoolean (Get update "$set")
                  then (Object_assign fields (Get update "$set"), true)
                  else (fields, false) in
                let '(fields, modified) :=
                  if ToBoolean (Get update "$unset")
                  then unset_all (Object_keys (Get update "$unset")) fields modified
                  else (fields, modified) in
                set_documents this
                  (store_at docIndex
                     (QueryBuilder.Doc (QueryBuilder.doc_addr docToUpdate) fields)
                     docs) ;;;
                ret (updated 1 (if modified then 1 else 0))
            end
        end
    end.

Definition clear (this : nat) : M unit :=
  set_documents this [].

Definition count (this : nat) : M nat :=
  docs <- get_documents this ;;
  ret (List.length docs).

End Methods.

End MockCollection.

(** * The class [MockDatabase] *)

Module MockDatabase.
Import JS MockCollection.

(** [collections] maps a name to the address of its [MockCollection]. *)
Record MockDatabase : Type := {
  collections : list (string * nat)
}.

(** What [this.collections[name]] can be besides [undefined]: a
    collection of the database, or the member of [Object.prototype] that
    the object [collections], a plain object, inherits under that
    name. *)
Inductive entry : Type :=
| Instance (c : nat)
| Inherited (member : string).

(** [this.collections[name]]; [None] is [undefined], and every entry is
    truthy. *)
Definition Get_entry (this : MockDatabase) (name : string) : option entry :=
  match own_property name (collections this) with
  | Some c => Some (Instance c)
  | None => if inherited name then Some (Inherited name) else None
  end.

Definition constructor : MockDatabase :=
  {| collections := [] |}.

(** [String.prototype.trim]. *)
Definition String_trim (s : string) : string :=
  string_of_list_ascii (trim (list_ascii_of_string s)).

(** The test [typeof name !== 'string' || name.trim() === ''] lets
    through the strings that are not made of white space only. *)
Definition collection (this : MockDatabase) (name : value) : M (entry * MockDatabase) :=
  match name with
  | VStr name =>
      if String_trim name =? ""
      then throw (Error "Collection name must be a non-empty string")
      else
        match Get_entry this name with
        | Some existing => ret (existing, this)
        | None =>
            created <- MockCollection.constructor (VStr name) ;;
            ret (Instance created,
                 {| collections := assign_property name created (collections this) |})
        end
  | _ => throw (Error "Collection name must be a non-empty string")
  end.

(** The argument is used as a property key, that is, converted to a
    string, which throws a [TypeError] for a value without
    conversion. *)
Definition dropCollection (this : MockDatabase) (name : value)
  : Eval.result (bool * MockDatabase) :=
  match ToString name with
  | None => Eval.Throws Eval.TypeError
  | Some key =>
      Eval.Returns
        match Get_entry this key with
        | Some _ => (true, {| collections := delete_property key (collections this) |})
        | None => (false, this)
        end
  end.

Definition listCollections (this : MockDatabase) : list string :=
  map fst (collections this).

(** [name in this.collections], the name converted as above. *)
Definition hasCollection (this : MockDatabase) (name : value) : Eval.result bool :=
  match ToString name with
  | None => Eval.Throws Eval.TypeError
  | Some key => Eval.Returns (has_property key (collections this))
  end.

Definition clear (this : MockDatabase) : MockDatabase :=
  {| collections := [] |}.

(** The loop of [clearAllData] over the names [for ... in] lists, the
    own ones.  Calling [clear] on what is not a collection would be a
    [TypeError]. *)
Fixpoint clear_each (names : list string) (this : MockDatabase) : M unit :=
  match names with
  | [] => ret tt
  | collectionName :: rest =>
      match Get_entry this collectionName with
      | Some (Instance c) => MockCollection.clear c ;;; clear_each rest this
      | _ => throw (Raised Eval.TypeError)
      end
  end.

Definition clearAllData (this : MockDatabase) : M unit :=
  clear_each (map fst (collections this)) this.

(** The object [stats] returns; [collectionStats] gives the value of
    [documents] under each name. *)
Module Stats.
Record t : Type := {
  collections : nat;
  totalDocuments : nat;
  collectionStats : list (string * nat)
}.
End Stats.

(** The loop over [Object.entries(this.collections)]. *)
Fixpoint stats_loop (entries : list (string * nat)) (stats : Stats.t) : M Stats.t :=
  match entries with
  | [] => ret stats
  | (name, c) :: rest =>
      docCount <- MockCollection.count c ;;
      stats_loop rest
        {| Stats.collections := Stats.collections stats;
           Stats.totalDocuments := Stats.totalDocuments stats + docCount;
           Stats.collectionStats :=
             assign_property name docCount (Stats.collectionStats stats) |}
  end.

Definition stats (this : MockDatabase) : M Stats.t :=
  stats_loop (collections this)
    {| Stats.collections := List.length (listCollections this);
       Stats.totalDocuments := 0;
       Stats.collectionStats := [] |}.

End MockDatabase.


(** * Vocabulary of the statements on collections *)

Module StoreSpec.
Import JS MockCollection.

(** The documents of the collection at [this]. *)
Definition docs_of (s : state) (this : nat) : list QueryBuilder.document :=
  documents (collection_at s this).

(** The own field of the document under [key], [undefined] when it
    has none. *)
Definition own_field (doc : QueryBuilder.document) (key : string) : value :=
  lookup key (QueryBuilder.doc_fields doc).

(** What [insertOne] and [updateOne] accept: a truthy value of type
    object. *)
Definition is_object (v : value) : bool :=
  ToBoolean v && type_tag_eqb (typeof v) TObject.

(** The verdict of the query engine on one document, once the host has
    answered; a throw counts as no match. *)
Definition matches (host : Host) (query_ : value) (doc : QueryBuilder.document) : bool :=
  Spec.returns_true (Eval.run (regexp host) (QueryBuilder._matchesQuery doc query_)).

(** The query engine throws on no document of the list. *)
Definition query_returns (host : Host) (query_ : value)
    (docs : list QueryBuilder.document) : Prop :=
  Forall (fun d => exists b,
            Eval.run (regexp host) (QueryBuilder._matchesQuery d query_) = Eval.Returns b)
         docs.

(** No two documents of the list have strictly equal [_id]s, and each
    [_id] is strictly equal to itself. *)
Definition unique_ids (docs : list QueryBuilder.document) : Prop :=
  forall i j di dj,
    nth_error docs i = Some di -> nth_error docs j = Some dj ->
    (same_id di dj = true <-> i = j).

(** The state after [n] more allocations. *)
Definition advance (s : state) (n : nat) : state :=
  {| collection_at := collection_at s;
     next_addr := n + next_addr s;
     drawn := drawn s |}.

(** The state after [n] more random draws. *)
Definition draw (s : state) (n : nat) : state :=
  {| collection_at := collection_at s;
     next_addr := next_addr s;
     drawn := n + drawn s |}.

(** The state in which the collection at [this] holds [docs]. *)
Definition with_documents (s : state) (this : nat)
    (docs : list QueryBuilder.document) : state :=
  {| collection_at := fun a =>
       if Nat.eqb a this
       then {| name := name (collection_at s this); documents := docs |}
       else collection_at s a;
     next_addr := next_addr s;
     drawn := drawn s |}.

(** Copies of the documents at consecutive addresses from [addr] on. *)
Fixpoint copied_at (addr : nat) (docs : list QueryBuilder.document)
  : list QueryBuilder.document :=
  match docs with
  | [] => []
  | doc :: rest =>
      QueryBuilder.Doc addr (QueryBuilder.doc_fields doc) :: copied_at (S addr) rest
  end.

(** [xs[0]], [None] when there is none. *)
Definition first {A : Type} (xs : list A) : option A :=
  match xs with
  | x :: _ => Some x
  | [] => None
  end.

(** What [updateOne] does to the fields of the document it updates:
    the fields after [$set] and [$unset], and whether it counts the
    document as modified. *)
Definition applied (update : value) (fields : list (string * value))
  : list (string * value) * bool :=
  let '(fields, modified) :=
    if ToBoolean (Get update "$set")
    then (Object_assign fields (Get update "$set"), true)
    else (fields, false) in
  if ToBoolean (Get update "$unset")
  then unset_all (Object_keys (Get update "$unset")) fields modified
  else (fields, modified).

(** The key is among the own enumerable keys of the value. *)
Definition has_key (v : value) (key : string) : bool :=
  existsb (String.eqb key) (Object_keys v).

(** The state a run ends in. *)
Definition final {A : Type} (o : outcome A) : state :=
  match o with
  | Done _ s => s
  | Failed _ s => s
  end.

(** The method changes no collection object but the one at [this]. *)
Definition only_touches {A : Type} (this : nat) (m : M A) : Prop :=
  forall s c, c <> this -> collection_at (final (m s)) c = collection_at s c.

(** The sum of the document counts of the collections at the given
    addresses. *)
Definition total_documents (s : state) (refs : list nat) : nat :=
  list_sum (map (fun c => List.length (docs_of s c)) refs).

(** What a database built by the methods of the class satisfies: its
    names are distinct and none is the name of a member of
    [Object.prototype]. *)
Definition distinct_names (db : MockDatabase.MockDatabase) : Prop :=
  NoDup (MockDatabase.listCollections db)
  /\ Forall (fun n => inherited n = false) (MockDatabase.listCollections db).

(** Every code unit of the string is white space. *)
Definition blank (s : string) : bool :=
  forallb is_StrWhiteSpaceChar (list_ascii_of_string s).

(** ** Sample data *)

Definition sample_host : Host :=
  {| regexp := Spec.strict_host;
     random_base36 := fun n => String.append "r" (index_key n) |}.

(** A heap with an empty collection [users] at address 0. *)
Definition sample_state : state :=
  {| collection_at := fun _ => {| name := VStr "users"; documents := [] |};
     next_addr := 1;
     drawn := 0 |}.

(** [{name: 'Alice', age: 30}] as a caller builds it, at address 100. *)
Definition alice_literal : value :=
  VObj 100 [("name", VStr "Alice"); ("age", VNum 30)].

(** A collection holding three documents with identifiers. *)
Definition stored_alice : QueryBuilder.document :=
  QueryBuilder.Doc 1 [("name", VStr "Alice"); ("age", VNum 30); ("_id", VStr "a")].
Definition stored_bob : QueryBuilder.document :=
  QueryBuilder.Doc 2 [("name", VStr "Bob"); ("age", VNum 25); ("_id", VStr "b")].
Definition stored_charlie : QueryBuilder.document :=
  QueryBuilder.Doc 3 [("name", VStr "Charlie"); ("age", VNum 30); ("_id", VStr "c")].

Definition three_users : state :=
  {| collection_at := fun _ =>
       {| name := VStr "users";
          documents := [stored_alice; stored_bob; stored_charlie] |};
     next_addr := 4;
     drawn := 0 |}.

End StoreSpec.

(** * Properties of the host operations *)

Module JSFacts.
Import Eval JS QueryBuilder Spec.

(** ** Binary64 comparisons *)

Lemma SFcompare_nan_r (x : spec_float) : SFcompare x S754_nan = None.
Proof. destruct x; reflexivity. Qed.

Lemma SFcompare_refl (x : spec_float) :
  x <> S754_nan -> SFcompare x x = Some Eq.
Proof.
  destruct x as [s|s| |s m e]; intros H; try congruence.
  - reflexivity.
  - destruct s; reflexivity.
  - simpl. rewrite Z.compare_refl, Pos.compare_cont_refl.
    destruct s; reflexivity.
Qed.

Lemma SFcompare_antisym (x y : spec_float) (c : comparison) :
  SFcompare x y = Some c -> SFcompare y x = Some (CompOpp c).
Proof.
  destruct x as [sx|sx| |sx mx ex], y as [sy|sy| |sy my ey]; simpl;
    intros H; try discriminate;
    try (injection H as <-; repeat match goal with
                                   | s : bool |- _ => destruct s
                                   end; reflexivity).
  injection H as <-.
  assert (Hm : Pos.compare_cont Eq my mx = CompOpp (Pos.compare_cont Eq mx my))
    by (symmetry; exact (Pos.compare_cont_antisym mx my Eq)).
  rewrite (Z.compare_antisym ex ey), Hm.
  destruct sx, sy, (ex ?= ey)%Z; simpl; try reflexivity;
    destruct (Pos.compare_cont Eq mx my); reflexivity.
Qed.

Lemma is_nan_spec (x : float) :
  PrimFloat.is_nan x = true <-> Prim2SF x = S754_nan.
Proof.
  unfold PrimFloat.is_nan. rewrite FloatAxioms.eqb_spec. unfold SFeqb.
  split.
  - destruct (Prim2SF x) eqn:E; try reflexivity; intros H;
      rewrite SFcompare_refl in H by congruence; discriminate.
  - intros ->. reflexivity.
Qed.

(** On numbers, [!(x < y)] with [undefined] counted as a failure is
    [y <= x]. *)
Lemma not_less_is_leb (x y : float) :
  match (if PrimFloat.is_nan x || PrimFloat.is_nan y then None
         else Some (PrimFloat.ltb x y)) with
  | Some false => true
  | _ => false
  end = PrimFloat.leb y x.
Proof.
  destruct (PrimFloat.is_nan x) eqn:Nx.
  - apply is_nan_spec in Nx. simpl.
    rewrite leb_spec, Nx. unfold SFleb. now rewrite SFcompare_nan_r.
  - destruct (PrimFloat.is_nan y) eqn:Ny.
    + apply is_nan_spec in Ny. simpl. rewrite leb_spec, Ny. reflexivity.
    + simpl. rewrite ltb_spec, leb_spec. unfold SFltb, SFleb.
      destruct (SFcompare (Prim2SF x) (Prim2SF y)) as [c|] eqn:E.
      * rewrite (SFcompare_antisym _ _ _ E). destruct c; reflexivity.
      * exfalso.
        assert (Hx : Prim2SF x <> S754_nan).
        { intros H. apply is_nan_spec in H. congruence. }
        assert (Hy : Prim2SF y <> S754_nan).
        { intros H. apply is_nan_spec in H. congruence. }
        destruct (Prim2SF x), (Prim2SF y); simpl in E; congruence.
Qed.

(** [x < y] with [undefined] counted as a failure is the IEEE [<]. *)
Lemma less_is_ltb (x y : float) :
  match (if PrimFloat.is_nan x || PrimFloat.is_nan y then None
         else Some (PrimFloat.ltb x y)) with
  | Some true => true
  | _ => false
  end = PrimFloat.ltb x y.
Proof.
  destruct (PrimFloat.is_nan x) eqn:Nx.
  - apply is_nan_spec in Nx. simpl. rewrite ltb_spec, Nx. reflexivity.
  - destruct (PrimFloat.is_nan y) eqn:Ny.
    + apply is_nan_spec in Ny. simpl. rewrite ltb_spec, Ny.
      unfold SFltb. now rewrite SFcompare_nan_r.
    + simpl. destruct (PrimFloat.ltb x y); reflexivity.
Qed.

(** ** Strings *)

Lemma string_not_less_is_leb (a b : string) :
  negb (String.ltb a b) = String.leb b a.
Proof.
  unfold String.ltb, String.leb. rewrite (String.compare_antisym a b).
  destruct (String.compare b a); reflexivity.
Qed.

(** ** Conversions *)

(** Induction on data, through the elements of arrays and the
    properties of objects. *)
Lemma value_induction (P : value -> Prop) :
  P VUndefined -> P VNull -> (forall b, P (VBool b)) -> (forall n, P (VNum n)) ->
  (forall s, P (VStr s)) ->
  (forall addr elems, Forall P elems -> P (VArr addr elems)) ->
  (forall addr props, Forall (fun kv => P (snd kv)) props -> P (VObj addr props)) ->
  forall v, P v.
Proof.
  intros Hu Hn Hb Hf Hs Ha Ho.
  fix IH 1. intros [| |b|n|s|addr elems|addr props].
  - exact Hu.
  - exact Hn.
  - apply Hb.
  - apply Hf.
  - apply Hs.
  - apply Ha. induction elems as [|e elems IHe]; constructor; [apply IH | exact IHe].
  - apply Ho. induction props as [|[k v] props IHp]; constructor;
      [apply IH | exact IHp].
Qed.

Lemma own_property_None {A : Type} (key : string) (props : list (string * A)) :
  own_property key props = None <-> ~ In key (map fst props).
Proof.
  induction props as [|[k v] rest IH]; simpl; [tauto|].
  destruct (String.eqb_spec k key) as [->|N].
  - split; [discriminate | intros H; exfalso; apply H; now left].
  - rewrite IH. split; [intros H [E|I]; [contradiction | now apply H] | tauto].
Qed.

(** Both hints give a plain object the same primitive: the one the
    inherited [toString] gives, when the object does not hide it. *)
Lemma OrdinaryToPrimitive_spec (props : list (string * value)) (h : hint) :
  OrdinaryToPrimitive props h =
  match own_property "toString" props with
  | Some _ => None
  | None => Some "[object Object]"
  end.
Proof.
  unfold OrdinaryToPrimitive, method_primitive. simpl.
  destruct h, (own_property "toString" props), (own_property "valueOf" props);
    reflexivity.
Qed.

Lemma OrdinaryToPrimitive_None (props : list (string * value)) (h : hint) :
  OrdinaryToPrimitive props h = None <-> In "toString" (map fst props).
Proof.
  rewrite OrdinaryToPrimitive_spec.
  destruct (own_property "toString" props) eqn:O.
  - split; [intros _ | reflexivity].
    destruct (in_dec string_dec "toString" (map fst props)) as [I|N]; [exact I|].
    apply own_property_None in N. congruence.
  - apply own_property_None in O. split; [discriminate | contradiction].
Qed.

Lemma all_some_None {A : Type} (xs : list (option A)) :
  all_some xs = None <-> In None xs.
Proof.
  induction xs as [|[x|] xs IH]; simpl.
  - split; [discriminate | contradiction].
  - destruct (all_some xs).
    + split; [discriminate|]. intros [H|H]; [discriminate|].
      apply IH in H. discriminate H.
    + split; [intros _; right; now apply IH | reflexivity].
  - split; [now left | reflexivity].
Qed.

(** [ToString] throws exactly on the values that hold, at some depth of
    arrays, an object with an own [toString]. *)
Lemma ToString_None (v : value) : ToString v = None <-> unconvertible v.
Proof.
  induction v as [| |b|n|s|addr elems IH|addr props _] using value_induction.
  - split; [discriminate | intros H; inversion H].
  - split; [discriminate | intros H; inversion H].
  - destruct b; (split; [discriminate | intros H; inversion H]).
  - split; [discriminate | intros H; inversion H].
  - split; [discriminate | intros H; inversion H].
  - cbn [ToString].
    set (conv := fun e => match e with
                          | VUndefined | VNull => Some ""
                          | _ => ToString e
                          end).
    assert (C : forall e, In e elems -> (conv e = None <-> unconvertible e)).
    { intros e He. rewrite Forall_forall in IH. specialize (IH e He).
      destruct e; try exact IH; simpl;
        (split; [discriminate | intros H; inversion H]). }
    split.
    + intros H. destruct (all_some (map conv elems)) eqn:E; [discriminate|].
      apply all_some_None, in_map_iff in E as [e [Ee He]].
      apply (unconvertible_array addr elems e He). now apply C.
    + intros H. inversion H as [|a els e He Hu]; subst.
      assert (E : all_some (map conv elems) = None).
      { apply all_some_None, in_map_iff. exists e. split; [now apply C | exact He]. }
      now rewrite E.
  - cbn [ToString]. rewrite OrdinaryToPrimitive_None. split.
    + intros H. now constructor.
    + intros H. now inversion H.
Qed.

(** A conversion to a primitive throws a [TypeError], and exactly on
    the values that have no primitive. *)
Lemma ToPrimitive_throws (h : RegExpHost) (x : read) (e : exn) :
  run h (ToPrimitive x) = Throws e <-> e = TypeError /\ stuck x.
Proof.
  unfold stuck. destruct x as [v| |]; unfold ToPrimitive.
  - destruct v as [| |b|n|s|addr elems|addr props];
      try (cbn [run]; split;
           [discriminate | intros [_ [v [E H]]]; injection E as <-; inversion H]).
    + destruct (ToString (VArr addr elems)) eqn:T; cbn [run].
      * split; [discriminate|]. intros [_ [v [E H]]]. injection E as <-.
        apply ToString_None in H. congruence.
      * apply ToString_None in T. split.
        -- intros H. injection H as <-. split; [reflexivity|].
           now exists (VArr addr elems).
        -- now intros [-> _].
    + destruct (OrdinaryToPrimitive props hint_number) eqn:T; cbn [run].
      * split; [discriminate|]. intros [_ [v [E H]]]. injection E as <-.
        inversion H as [a p I|]; subst.
        apply (OrdinaryToPrimitive_None props hint_number) in I. congruence.
      * apply OrdinaryToPrimitive_None in T. split.
        -- intros H. injection H as <-. split; [reflexivity|].
           exists (VObj addr props). split; [reflexivity | now constructor].
        -- now intros [-> _].
  - cbn [run]. split; [discriminate | intros [_ [v [E _]]]; discriminate E].
  - cbn [run]. split; [discriminate | intros [_ [v [E _]]]; discriminate E].
Qed.

(** A conversion that returns gives a primitive. *)
Lemma ToPrimitive_returns (h : RegExpHost) (x : read) (p : value) :
  run h (ToPrimitive x) = Returns p ->
  match p with
  | VArr _ _ | VObj _ _ => False
  | _ => True
  end.
Proof.
  destruct x as [v|m|]; unfold ToPrimitive.
  - destruct v as [| |b|n|s|addr elems|addr props];
      try (cbn [run]; intros H; injection H as <-; exact I).
    + destruct (ToString (VArr addr elems)); cbn [run]; [|discriminate].
      intros H. now injection H as <-.
    + destruct (OrdinaryToPrimitive props hint_number); cbn [run]; [|discriminate].
      intros H. now injection H as <-.
  - cbn [run]. intros H. now injection H as <-.
  - cbn [run]. intros H. now injection H as <-.
Qed.

End JSFacts.

(** * Properties of the matcher *)

Module Properties.
Import Eval JS QueryBuilder Spec JSFacts.

#[local] Arguments typeof : simpl nomatch.
#[local] Arguments strict_equal : simpl nomatch.
#[local] Arguments SameValueZero : simpl nomatch.
#[local] Arguments same_object : simpl nomatch.
#[local] Arguments is_NaN : simpl nomatch.

(** ** Running computations *)

Lemma run_bind {A B : Type} (h : RegExpHost) (c : eval A) (f : A -> eval B) :
  run h (bind c f) =
  match run h c with
  | Returns a => run h (f a)
  | Throws e => Throws e
  end.
Proof.
  induction c as [a|e|p s k IH|m k IH]; simpl; try reflexivity.
  - destruct (well_formed h p); [apply IH | reflexivity].
  - apply IH.
Qed.

Lemma bind_Ret_bool (b : bool) :
  (ok <- Ret b ;; if ok then Ret true else Ret false) = Ret b.
Proof. destruct b; reflexivity. Qed.

Lemma Array_filter_pure {A : Type} (callback : A -> eval bool) (p : A -> bool)
    (xs : list A) :
  (forall x, In x xs -> callback x = Ret (p x)) ->
  Array_filter callback xs = Ret (filter p xs).
Proof.
  induction xs as [|x xs IH]; intros H; simpl; [reflexivity|].
  rewrite (H x (or_introl eq_refl)). simpl.
  rewrite IH by (intros y Hy; apply H; now right). reflexivity.
Qed.

(** What [filter] does once the host answers: it stops at the first
    callback that throws. *)
Lemma run_Array_filter {A : Type} (h : RegExpHost) (callback : A -> eval bool)
    (xs : list A) :
  match run h (Array_filter callback xs) with
  | Returns kept =>
      kept = filter (fun x => returns_true (run h (callback x))) xs
      /\ Forall (fun x => exists b, run h (callback x) = Returns b) xs
  | Throws e => Exists (fun x => run h (callback x) = Throws e) xs
  end.
Proof.
  induction xs as [|x xs IH]; simpl.
  - split; [reflexivity | constructor].
  - rewrite run_bind. destruct (run h (callback x)) as [keep|e] eqn:Hx.
    + rewrite run_bind.
      destruct (run h (Array_filter callback xs)) as [kept|e]; simpl.
      * destruct IH as [-> IH]. split.
        -- destruct keep; reflexivity.
        -- constructor; [now exists keep | exact IH].
      * now apply Exists_cons_tl.
    + now apply Exists_cons_hd.
Qed.

(** ** The guard of [match] *)

(** A filter that [match] lets through unfiltered has no key for
    [_matchesQuery] to visit either. *)
Lemma guard_no_keys (query : value) :
  negb (ToBoolean query) || Nat.eqb (List.length (Object_keys query)) 0 = true ->
  Object_keys query = [].
Proof.
  intros H. apply orb_true_iff in H as [H|H].
  - destruct query as [| |b|n|s|a xs|a ps]; simpl in H; try reflexivity;
      try discriminate.
    apply negb_true_iff, negb_false_iff, String.eqb_eq in H. now subst.
  - apply Nat.eqb_eq in H. now apply length_zero_iff_nil.
Qed.

Lemma filter_all {A : Type} (p : A -> bool) (xs : list A) :
  (forall x, In x xs -> p x = true) -> filter p xs = xs.
Proof.
  induction xs as [|x xs IH]; intros H; simpl; [reflexivity|].
  rewrite (H x (or_introl eq_refl)), IH; [reflexivity|].
  intros y Hy. apply H. now right.
Qed.

Lemma matchesQuery_no_keys (doc : document) (query : value) :
  Object_keys query = [] -> _matchesQuery doc query = Ret true.
Proof. intros H. unfold _matchesQuery. now rewrite H. Qed.

(** [matchAll] is [filter] with [_matchesQuery] for callback, whatever
    the guard of [match] decides. *)
Lemma run_matchAll (h : RegExpHost) (docs : list document) (query : value) :
  run h (matchAll docs query) =
  run h (Array_filter (fun doc => _matchesQuery doc query) docs).
Proof.
  unfold matchAll, match_, constructor, execute. simpl.
  destruct (negb (ToBoolean query) || Nat.eqb (List.length (Object_keys query)) 0)
    eqn:G.
  - apply guard_no_keys in G. simpl.
    rewrite (Array_filter_pure _ (fun _ => true))
      by (intros d _; now apply matchesQuery_no_keys).
    simpl. now rewrite filter_all.
  - rewrite !run_bind.
    now destruct (run h (Array_filter (fun doc => _matchesQuery doc query) docs)).
Qed.

(** The same when no callback calls the host. *)
Lemma matchAll_pure (docs : list document) (query : value) (p : document -> bool) :
  (forall d, In d docs -> _matchesQuery d query = Ret (p d)) ->
  matchAll docs query = Ret (filter p docs).
Proof.
  intros H. unfold matchAll, match_, constructor, execute. simpl.
  destruct (negb (ToBoolean query) || Nat.eqb (List.length (Object_keys query)) 0)
    eqn:G.
  - apply guard_no_keys in G. simpl. rewrite filter_all; [reflexivity|].
    intros d Hd. specialize (H d Hd).
    rewrite matchesQuery_no_keys in H by assumption. now injection H.
  - now rewrite (Array_filter_pure _ p) by assumption.
Qed.

(** ** Filters of one field *)

Lemma Get_filter1 (addr : nat) (f : string) (v : value) :
  Get (filter1 addr f v) f = v.
Proof. unfold Get, filter1. simpl. now rewrite String.eqb_refl. Qed.

(** [{f: v}] for a [v] that is not an object to look operators up in:
    the field must be strictly equal to [v]. *)
Lemma matchesQuery_literal (doc : document) (addr : nat) (f : string) (v : value) :
  ~ operator_shaped v ->
  _matchesQuery doc (filter1 addr f v) = Ret (strict_equal (field doc f) v).
Proof.
  intros Hv. unfold _matchesQuery. simpl.
  change (VObj addr [(f, v)]) with (filter1 addr f v). rewrite Get_filter1.
  assert (G : ToBoolean v && type_tag_eqb (typeof v) TObject
              && negb (Array_isArray v) = false).
  { destruct v; simpl; rewrite ?andb_false_r; try reflexivity.
    exfalso. apply Hv. now eexists _, _. }
  rewrite G. unfold _matchesOperator. simpl. apply bind_Ret_bool.
Qed.

(** [{f: {op: v}}]: the one operator decides. *)
Lemma matchesQuery_operator1_pure (doc : document) (a0 a1 : nat)
    (f op : string) (v : value) (b : bool) :
  _matchesOperator (field doc f) op v = Ret b ->
  _matchesQuery doc (filter1 a0 f (operator1 a1 op v)) = Ret b.
Proof.
  intros H. unfold _matchesQuery. simpl.
  change (VObj a0 [(f, operator1 a1 op v)]) with (filter1 a0 f (operator1 a1 op v)).
  rewrite Get_filter1. simpl. unfold Get. simpl. rewrite String.eqb_refl.
  rewrite H. now destruct b.
Qed.

(** ** Filtering *)

(** C5.  For every sequence of documents and every filter, [matchAll]
    returns, in the original relative order, exactly the documents for
    which [matches] is true: whenever it returns, its result is the input
    filtered by [_matchesQuery], and it returns unless [_matchesQuery]
    throws on one of the documents, in which case it throws the same.
    With a filter that has no keys every document is returned. *)
Theorem C5_matchAll_is_filter (h : RegExpHost) (docs : list document)
    (query : value) :
  match run h (matchAll docs query) with
  | Returns kept =>
      kept = filter (fun d => returns_true (run h (_matchesQuery d query))) docs
      /\ Forall (fun d => exists b, run h (_matchesQuery d query) = Returns b) docs
  | Throws e => Exists (fun d => run h (_matchesQuery d query) = Throws e) docs
  end
  /\ forall addr, matchAll docs (VObj addr []) = Ret docs.
Proof.
  split.
  - rewrite run_matchAll.
    exact (run_Array_filter h (fun doc => _matchesQuery doc query) docs).
  - intros addr. reflexivity.
Qed.

(** The scenarios of the documentation. *)
Example scenario_gte :
  matchAll [alice; bob; charlie] (filter1 10 "age" (operator1 11 "$gte" (VNum 28)))
  = Ret [alice; charlie].
Proof. reflexivity. Qed.

Example scenario_in :
  matchAll [alice; bob; charlie]
    (filter1 10 "age" (operator1 11 "$in" (VArr 12 [VNum 25; VNum 35])))
  = Ret [bob; charlie].
Proof. reflexivity. Qed.

Example scenario_regex (h : RegExpHost) :
  well_formed h "^A" = true ->
  run h (matchAll [alice; bob; charlie]
           (filter1 10 "name" (operator1 11 "$regex" (VStr "^A"))))
  = Returns (filter (fun d => match field d "name" with
                              | Data (VStr s) => test h "^A" s
                              | _ => false
                              end) [alice; bob; charlie]).
Proof.
  intros W. rewrite run_matchAll. simpl. rewrite W.
  destruct (test h "^A" "Alice"); simpl; rewrite W;
    destruct (test h "^A" "Bob"); simpl; rewrite W;
    destruct (test h "^A" "Charlie"); reflexivity.
Qed.

(** C10.  A filter field whose value is an operator object with no keys
    is vacuously satisfied: the loop over the operators runs zero times,
    and [matchAll(docs, {f: {}})] returns every document. *)
Theorem C10_empty_operator_object (docs : list document) (f : string)
    (a0 a1 : nat) :
  (forall doc, _matchesQuery doc (filter1 a0 f (VObj a1 [])) = Ret true)
  /\ matchAll docs (filter1 a0 f (VObj a1 [])) = Ret docs.
Proof.
  assert (H : forall doc, _matchesQuery doc (filter1 a0 f (VObj a1 [])) = Ret true).
  { intros doc. unfold _matchesQuery. simpl.
    change (VObj a0 [(f, VObj a1 [])]) with (filter1 a0 f (VObj a1 [])).
    now rewrite Get_filter1. }
  split; [exact H|].
  rewrite (matchAll_pure docs _ (fun _ => true)) by (intros d _; apply H).
  now rewrite filter_all.
Qed.

(** C6.  For every document set and every value [v] that is not an
    operator object, arrays and [null] included, [matchAll(docs, {f: v})]
    equals [matchAll(docs, {f: {$eq: v}})]: both keep the documents whose
    field [f] is strictly equal to [v]. *)
Theorem C6_implicit_equality (docs : list document) (f : string) (v : value)
    (a0 a1 a2 : nat) :
  ~ operator_shaped v ->
  matchAll docs (filter1 a0 f v)
  = matchAll docs (filter1 a1 f (operator1 a2 "$eq" v))
  /\ matchAll docs (filter1 a0 f v)
     = Ret (filter (fun d => strict_equal (field d f) v) docs).
Proof.
  intros Hv.
  assert (L : matchAll docs (filter1 a0 f v)
              = Ret (filter (fun d => strict_equal (field d f) v) docs)).
  { apply matchAll_pure. intros d _. now apply matchesQuery_literal. }
  split; [|exact L].
  rewrite L. symmetry. apply matchAll_pure. intros d _.
  now apply matchesQuery_operator1_pure.
Qed.

Lemma C6_witness :
  matchAll [alice; bob; charlie] (filter1 10 "age" (VNum 30))
  = matchAll [alice; bob; charlie] (filter1 11 "age" (operator1 12 "$eq" (VNum 30)))
  /\ matchAll [alice; bob; charlie] (filter1 10 "age" (VNum 30))
     = Ret (filter (fun d => strict_equal (field d "age") (VNum 30))
                   [alice; bob; charlie]).
Proof.
  apply (C6_implicit_equality [alice; bob; charlie] "age" (VNum 30) 10 11 12).
  intros [addr [props H]]. discriminate H.
Defined.

(** ** Unknown operators *)

Lemma unknown_operator_eqb (op : string) :
  ~ In op known_operators ->
  Forall (fun known => (op =? known) = false) known_operators.
Proof.
  intros H. apply Forall_forall. intros known Hk.
  apply String.eqb_neq. intros ->. now apply H.
Qed.

Lemma matchesOperator_unknown (op : string) (fieldValue : read) (v : value) :
  ~ In op known_operators -> _matchesOperator fieldValue op v = Ret false.
Proof.
  intros H. apply unknown_operator_eqb in H.
  unfold known_operators in H.
  repeat match goal with
         | H : Forall _ (_ :: _) |- _ =>
             let E := fresh "E" in
             apply Forall_cons_iff in H; destruct H as [E H]
         end.
  unfold _matchesOperator.
  repeat match goal with
         | E : (op =? _) = false |- _ => rewrite E; clear E
         end.
  reflexivity.
Qed.

(** C8.  For every field value and operand, an operator name outside
    [$eq], [$ne], [$gt], [$gte], [$lt], [$lte], [$in], [$regex] evaluates
    to false; consequently [matchAll(docs, {f: {op: v}})] is the empty
    sequence for every document set (for instance with [op = $bogus] and
    [v = 1]). *)
Theorem C8_unknown_operator (op : string) :
  ~ In op known_operators ->
  (forall fieldValue v, _matchesOperator fieldValue op v = Ret false)
  /\ (forall docs f v a0 a1,
        matchAll docs (filter1 a0 f (operator1 a1 op v)) = Ret []).
Proof.
  intros H. split.
  - intros fieldValue v. now apply matchesOperator_unknown.
  - intros docs f v a0 a1.
    rewrite (matchAll_pure docs _ (fun _ => false)).
    + f_equal. induction docs as [|d docs IH]; simpl; congruence.
    + intros d _. now apply matchesQuery_operator1_pure, matchesOperator_unknown.
Qed.

Lemma C8_witness :
  (forall fieldValue v, _matchesOperator fieldValue "$bogus" v = Ret false)
  /\ (forall docs f v a0 a1,
        matchAll docs (filter1 a0 f (operator1 a1 "$bogus" v)) = Ret []).
Proof.
  apply (C8_unknown_operator "$bogus").
  unfold known_operators. simpl.
  intros [H|[H|[H|[H|[H|[H|[H|[H|[]]]]]]]]]; discriminate H.
Defined.

(** ** The cases of [_matchesOperator] *)

Lemma matchesOperator_eq (x : read) (v : value) :
  _matchesOperator x "$eq" v = Ret (strict_equal x v).
Proof. reflexivity. Qed.

Lemma matchesOperator_ne (x : read) (v : value) :
  _matchesOperator x "$ne" v = Ret (negb (strict_equal x v)).
Proof. reflexivity. Qed.

Lemma matchesOperator_gt (x : read) (v : value) :
  _matchesOperator x "$gt" v = greater_than x v.
Proof. reflexivity. Qed.

Lemma matchesOperator_gte (x : read) (v : value) :
  _matchesOperator x "$gte" v = greater_equal x v.
Proof. reflexivity. Qed.

Lemma matchesOperator_lt (x : read) (v : value) :
  _matchesOperator x "$lt" v = less_than x v.
Proof. reflexivity. Qed.

Lemma matchesOperator_lte (x : read) (v : value) :
  _matchesOperator x "$lte" v = less_equal x v.
Proof. reflexivity. Qed.

Lemma matchesOperator_in (x : read) (v : value) :
  _matchesOperator x "$in" v = Ret (Array_isArray v && Array_includes v x).
Proof. reflexivity. Qed.


(** ** Membership *)

Lemma SameValueZero_spec (e : value) (x : read) :
  SameValueZero e x = true <->
  strict_equal e x = true \/ (is_NaN e = true /\ is_NaN x = true).
Proof.
  destruct x as [x| |].
  - destruct e, x; cbn; try tauto;
      try (split; [now left | intros [H|[H _]]; [exact H | discriminate H]]).
    rewrite orb_true_iff, andb_true_iff. tauto.
  - destruct e; cbn;
      (split; [discriminate | intros [H|[_ H]]; discriminate H]).
  - destruct e; cbn;
      (split; [discriminate | intros [H|[_ H]]; discriminate H]).
Qed.

(** C3, amended.  [$in] never throws.  It is true if and only if the
    operand is an array with an element that is strictly equal to the
    field value or that is [NaN] like the field value
    ([Array.prototype.includes] compares by SameValueZero); for an
    operand that is not an array it is false. *)
Theorem C3_in_operator (fieldValue : read) (operand : value) :
  (exists b, _matchesOperator fieldValue "$in" operand = Ret b)
  /\ (_matchesOperator fieldValue "$in" operand = Ret true <->
      exists addr elems e,
        operand = VArr addr elems /\ In e elems
        /\ (strict_equal e fieldValue = true
            \/ (is_NaN e = true /\ is_NaN fieldValue = true)))
  /\ (Array_isArray operand = false ->
      _matchesOperator fieldValue "$in" operand = Ret false).
Proof.
  rewrite matchesOperator_in. split; [eauto|]. split.
  - split.
    + intros H. injection H as H. apply andb_true_iff in H as [Ha Hi].
      destruct operand as [| | | | |addr elems|]; try discriminate.
      simpl in Hi. apply existsb_exists in Hi as [e [He Hs]].
      exists addr, elems, e. repeat split; try assumption.
      now apply SameValueZero_spec.
    + intros [addr [elems [e [-> [He Hs]]]]]. simpl. f_equal.
      apply existsb_exists. exists e. split; [assumption|].
      now apply SameValueZero_spec.
  - intros ->. reflexivity.
Qed.

(** The claim as written fails on [NaN]: [[NaN].includes(NaN)] holds
    although [NaN === NaN] does not. *)
Lemma C3_counterexample :
  _matchesOperator (VNum nan) "$in" (VArr 0 [VNum nan]) = Ret true
  /\ existsb (fun e : value => strict_equal e (VNum nan)) [VNum nan] = false.
Proof. split; reflexivity. Qed.

(** ** Arrays as filter values *)

Lemma strict_equal_array (x : read) (addr : nat) (elems : list value) :
  strict_equal x (VArr addr elems) = same_object x addr.
Proof. destruct x as [[]| |]; reflexivity. Qed.

(** C2, amended.  An array given as a filter value is compared as a
    whole by [===], that is, by the identity of the array object:
    [matchAll(docs, {f: A})] keeps the documents whose field [f] holds the
    array [A] itself, whatever its elements, and an array built apart
    from the document's does not match it.  A string filter value keeps
    the documents whose field is that string, never a document whose
    field is an array containing it. *)
Theorem C2_array_filter_by_identity (docs : list document) (f : string) (a0 : nat) :
  (forall addr elems,
     matchAll docs (filter1 a0 f (VArr addr elems))
     = Ret (filter (fun d => same_object (field d f) addr) docs))
  /\ (forall s,
       matchAll docs (filter1 a0 f (VStr s))
       = Ret (filter (fun d => match field d f with
                               | Data (VStr s') => String.eqb s' s
                               | _ => false
                               end) docs)).
Proof.
  split.
  - intros addr elems.
    rewrite (matchAll_pure docs _ (fun d => same_object (field d f) addr));
      [reflexivity|].
    intros d _. rewrite matchesQuery_literal, strict_equal_array; [reflexivity|].
    intros [a [p H]]. discriminate H.
  - intros s. apply matchAll_pure. intros d _.
    rewrite matchesQuery_literal by (intros [a [p H]]; discriminate H).
    now destruct (field d f) as [[]| |].
Qed.

(** The scenario of the claim: the filter's array literal is a second
    array (address 7), equal element by element to the document's
    (address 5), and the document is not returned. *)
Lemma C2_counterexample :
  matchAll [tagged] (filter1 6 "tags" (VArr 7 [VStr "admin"; VStr "user"]))
  = Ret [].
Proof. reflexivity. Qed.

Example tagged_matches_its_own_array :
  matchAll [tagged] (filter1 6 "tags" (VArr 5 [VStr "admin"; VStr "user"]))
  = Ret [tagged].
Proof. reflexivity. Qed.

Example tagged_is_not_admin :
  matchAll [tagged] (filter1 6 "tags" (VStr "admin")) = Ret [].
Proof. reflexivity. Qed.

(** ** Ordering operators *)

(** The four operators convert the left operand first, then the right
    one, and compare the primitives. *)
Lemma run_less_than (h : RegExpHost) (x y : read) :
  run h (less_than x y) = converted h (ordering String.ltb PrimFloat.ltb) x y.
Proof.
  unfold less_than, IsLessThan, converted. rewrite !run_bind.
  destruct (run h (ToPrimitive x)) as [px|e]; [|reflexivity].
  rewrite run_bind. destruct (run h (ToPrimitive y)) as [py|e]; [|reflexivity].
  cbn [run]. f_equal. unfold less_primitive, ordering.
  destruct px, py; cbv zeta; try apply less_is_ltb.
  now destruct (String.ltb s s0).
Qed.

Lemma run_greater_equal (h : RegExpHost) (x y : read) :
  run h (greater_equal x y)
  = converted h (ordering (fun a b => String.leb b a)
                          (fun n m => PrimFloat.leb m n)) x y.
Proof.
  unfold greater_equal, IsLessThan, converted. rewrite !run_bind.
  destruct (run h (ToPrimitive x)) as [px|e]; [|reflexivity].
  rewrite run_bind. destruct (run h (ToPrimitive y)) as [py|e]; [|reflexivity].
  cbn [run]. f_equal. unfold less_primitive, ordering.
  destruct px, py; cbv zeta; try apply not_less_is_leb.
  rewrite <- string_not_less_is_leb. now destruct (String.ltb s s0).
Qed.

Lemma run_greater_than (h : RegExpHost) (x y : read) :
  run h (greater_than x y)
  = converted h (ordering (fun a b => String.ltb b a)
                          (fun n m => PrimFloat.ltb m n)) x y.
Proof.
  unfold greater_than, IsLessThan, converted. rewrite !run_bind.
  destruct (run h (ToPrimitive x)) as [px|e]; [|reflexivity].
  rewrite run_bind. destruct (run h (ToPrimitive y)) as [py|e]; [|reflexivity].
  cbn [run]. f_equal. unfold less_primitive, ordering.
  destruct px, py; cbv zeta; try apply less_is_ltb.
  now destruct (String.ltb s0 s).
Qed.

Lemma run_less_equal (h : RegExpHost) (x y : read) :
  run h (less_equal x y) = converted h (ordering String.leb PrimFloat.leb) x y.
Proof.
  unfold less_equal, IsLessThan, converted. rewrite !run_bind.
  destruct (run h (ToPrimitive x)) as [px|e]; [|reflexivity].
  rewrite run_bind. destruct (run h (ToPrimitive y)) as [py|e]; [|reflexivity].
  cbn [run]. f_equal. unfold less_primitive, ordering.
  destruct px, py; cbv zeta; try apply not_less_is_leb.
  rewrite <- string_not_less_is_leb. now destruct (String.ltb s0 s).
Qed.

Lemma stuck_Data (v : value) : stuck (Data v) <-> unconvertible v.
Proof.
  unfold stuck. split.
  - intros [w [E H]]. now injection E as <-.
  - intros H. now exists v.
Qed.

(** When a comparison throws. *)
Lemma converted_throws (h : RegExpHost) (test : value -> value -> bool)
    (x : read) (v : value) (e : exn) :
  converted h test x v = Throws e <->
  e = TypeError /\ (stuck x \/ unconvertible v).
Proof.
  unfold converted.
  destruct (run h (ToPrimitive x)) as [px|ex] eqn:X.
  - assert (Nx : ~ stuck x).
    { intros S. assert (T : run h (ToPrimitive x) = Throws TypeError)
        by (apply ToPrimitive_throws; now split).
      congruence. }
    destruct (run h (ToPrimitive v)) as [pv|ev] eqn:V.
    + split; [discriminate|]. intros [_ [S|U]]; [contradiction|].
      assert (T : run h (ToPrimitive v) = Throws TypeError)
        by (apply ToPrimitive_throws; split; [reflexivity | now apply stuck_Data]).
      congruence.
    + apply ToPrimitive_throws in V as [-> S]. apply stuck_Data in S. split.
      * intros H. injection H as <-. split; [reflexivity | now right].
      * now intros [-> _].
  - apply ToPrimitive_throws in X as [-> S]. split.
    + intros H. injection H as <-. split; [reflexivity | now left].
    + now intros [-> _].
Qed.


(** The outcome of an ordering operator. *)
Lemma run_ordering_operator (h : RegExpHost) (x : read) (op : string) (v : value) :
  In op ordering_operators ->
  exists test, run h (_matchesOperator x op v) = converted h test x v.
Proof.
  intros H. simpl in H. destruct H as [<-|[<-|[<-|[<-|[]]]]].
  - eexists. rewrite matchesOperator_gt. apply run_greater_than.
  - eexists. rewrite matchesOperator_gte. apply run_greater_equal.
  - eexists. rewrite matchesOperator_lt. apply run_less_than.
  - eexists. rewrite matchesOperator_lte. apply run_less_equal.
Qed.

(** C1, amended.  Each of [$gt], [$gte], [$lt], [$lte] evaluated by
    [_matchesOperator] converts the field value, then the operand, to a
    primitive, and throws a [TypeError] exactly when one of them has
    none: an object with an own property [toString], or an array that
    holds one.  Otherwise it returns a boolean: when both values are
    numbers the comparison is numeric, and when both are strings it is
    lexicographic; two values that convert to strings are compared as
    strings, any other pair is converted to numbers and compared
    numerically (which is false when one of them converts to [NaN]).
    It is not false for every pair of values of different types. *)
Theorem C1_ordering_operators (h : RegExpHost) :
  (forall (x : read) (v : value),
     run h (_matchesOperator x "$gt" v)
     = converted h (ordering (fun a b => String.ltb b a)
                             (fun n m => PrimFloat.ltb m n)) x v
     /\ run h (_matchesOperator x "$gte" v)
        = converted h (ordering (fun a b => String.leb b a)
                                (fun n m => PrimFloat.leb m n)) x v
     /\ run h (_matchesOperator x "$lt" v)
        = converted h (ordering String.ltb PrimFloat.ltb) x v
     /\ run h (_matchesOperator x "$lte" v)
        = converted h (ordering String.leb PrimFloat.leb) x v)
  /\ (forall (x : read) (op : string) (v : value) (e : exn),
       In op ordering_operators ->
       (run h (_matchesOperator x op v) = Throws e <->
        e = TypeError /\ (stuck x \/ unconvertible v)))
  /\ (forall (x : read) (e : exn),
       run h (ToPrimitive x) = Throws e <-> e = TypeError /\ stuck x)
  /\ (forall n m : float,
       _matchesOperator (VNum n) "$gt" (VNum m) = Ret (PrimFloat.ltb m n)
       /\ _matchesOperator (VNum n) "$gte" (VNum m) = Ret (PrimFloat.leb m n)
       /\ _matchesOperator (VNum n) "$lt" (VNum m) = Ret (PrimFloat.ltb n m)
       /\ _matchesOperator (VNum n) "$lte" (VNum m) = Ret (PrimFloat.leb n m))
  /\ (forall a b : string,
       _matchesOperator (VStr a) "$gt" (VStr b) = Ret (String.ltb b a)
       /\ _matchesOperator (VStr a) "$gte" (VStr b) = Ret (String.leb b a)
       /\ _matchesOperator (VStr a) "$lt" (VStr b) = Ret (String.ltb a b)
       /\ _matchesOperator (VStr a) "$lte" (VStr b) = Ret (String.leb a b)).
Proof.
  split; [|split; [|split; [|split]]].
  - intros x v.
    rewrite matchesOperator_gt, matchesOperator_gte, matchesOperator_lt,
      matchesOperator_lte.
    now rewrite run_greater_than, run_greater_equal, run_less_than,
      run_less_equal.
  - intros x op v e H.
    destruct (run_ordering_operator h x op v H) as [test ->].
    apply converted_throws.
  - intros x e. apply ToPrimitive_throws.
  - intros n m.
    rewrite matchesOperator_gt, matchesOperator_gte, matchesOperator_lt,
      matchesOperator_lte.
    unfold greater_than, greater_equal, less_than, less_equal, IsLessThan.
    cbn [ToPrimitive bind less_primitive ToNumber].
    rewrite !less_is_ltb, !not_less_is_leb. now repeat split.
  - intros a b.
    rewrite matchesOperator_gt, matchesOperator_gte, matchesOperator_lt,
      matchesOperator_lte.
    unfold greater_than, greater_equal, less_than, less_equal, IsLessThan.
    cbn [ToPrimitive bind less_primitive].
    rewrite <- !string_not_less_is_leb.
    repeat split; f_equal;
      try (now destruct (String.ltb a b)); now destruct (String.ltb b a).
Qed.

(** The claim as written fails on its own examples: the string ["10"]
    is greater than the number [5], and [true] is at least the empty
    string.  It also fails on raising: comparing the object
    [{toString: 1}] with a number throws a [TypeError]. *)
Lemma C1_counterexample :
  type_tag_eqb (typeof (VStr "10")) (typeof (VNum 5)) = false
  /\ _matchesOperator (VStr "10") "$gt" (VNum 5) = Ret true
  /\ type_tag_eqb (typeof (VBool true)) (typeof (VStr "")) = false
  /\ _matchesOperator (VBool true) "$gte" (VStr "") = Ret true
  /\ type_tag_eqb (typeof no_primitive) (typeof (VNum 0)) = false
  /\ _matchesOperator no_primitive "$gt" (VNum 0) = Throw TypeError.
Proof. repeat split; vm_compute; reflexivity. Qed.

(** ** Missing fields *)

(** What a document reads under a name it has no field for. *)
Lemma lacks_field_read (doc : document) (f : string) :
  lacks doc f ->
  field doc f =
  if existsb (String.eqb f) Object_prototype_functions then Builtin f
  else if f =? "__proto__" then ObjectPrototype
  else Data VUndefined.
Proof.
  unfold lacks, field, Get_plain. intros H.
  apply own_property_None in H. now rewrite H.
Qed.

Lemma lacks_field (doc : document) (f : string) :
  lacks doc f -> inherited f = false -> field doc f = Data VUndefined.
Proof.
  intros H I. rewrite (lacks_field_read doc f H). unfold inherited in I.
  apply orb_false_iff in I as [-> ->]. reflexivity.
Qed.

(** Whatever a missing field reads as, it is strictly equal to no data
    but [undefined]. *)
Lemma lacks_field_strict_equal (doc : document) (f : string) (c : value) :
  lacks doc f -> c <> VUndefined -> strict_equal (field doc f) c = false.
Proof.
  intros H Hc. rewrite (lacks_field_read doc f H).
  destruct (existsb (String.eqb f) Object_prototype_functions); [reflexivity|].
  destruct (f =? "__proto__"); [reflexivity|].
  destruct c; cbn; congruence.
Qed.

Lemma ordering_undefined_l (on_strings : string -> string -> bool)
    (on_numbers : float -> float -> bool) (p : value) :
  (forall m, on_numbers nan m = false) ->
  ordering on_strings on_numbers VUndefined p = false.
Proof. intros H. unfold ordering. apply H. Qed.

Lemma ltb_nan_l (m : float) : PrimFloat.ltb nan m = false.
Proof. rewrite ltb_spec. reflexivity. Qed.

Lemma ltb_nan_r (m : float) : PrimFloat.ltb m nan = false.
Proof. rewrite ltb_spec. unfold SFltb. simpl. now rewrite SFcompare_nan_r. Qed.

Lemma leb_nan_l (m : float) : PrimFloat.leb nan m = false.
Proof. rewrite leb_spec. reflexivity. Qed.

Lemma leb_nan_r (m : float) : PrimFloat.leb m nan = false.
Proof. rewrite leb_spec. unfold SFleb. simpl. now rewrite SFcompare_nan_r. Qed.

(** An ordering operator on [undefined]: false, once the operand has
    been converted. *)
Lemma run_ordering_undefined (h : RegExpHost) (op : string) (operand : value) :
  In op ordering_operators ->
  run h (_matchesOperator VUndefined op operand) =
  match run h (ToPrimitive operand) with
  | Returns _ => Returns false
  | Throws e => Throws e
  end.
Proof.
  intros H.
  assert (U : run h (ToPrimitive VUndefined) = Returns VUndefined) by reflexivity.
  simpl in H. destruct H as [<-|[<-|[<-|[<-|[]]]]].
  - rewrite matchesOperator_gt, run_greater_than. unfold converted. rewrite U.
    destruct (run h (ToPrimitive operand)); [|reflexivity].
    f_equal. apply ordering_undefined_l. intros m. apply ltb_nan_r.
  - rewrite matchesOperator_gte, run_greater_equal. unfold converted. rewrite U.
    destruct (run h (ToPrimitive operand)); [|reflexivity].
    f_equal. apply ordering_undefined_l. intros m. apply leb_nan_r.
  - rewrite matchesOperator_lt, run_less_than. unfold converted. rewrite U.
    destruct (run h (ToPrimitive operand)); [|reflexivity].
    f_equal. apply ordering_undefined_l. intros m. apply ltb_nan_l.
  - rewrite matchesOperator_lte, run_less_equal. unfold converted. rewrite U.
    destruct (run h (ToPrimitive operand)); [|reflexivity].
    f_equal. apply ordering_undefined_l. intros m. apply leb_nan_l.
Qed.

(** C9, amended.  For every document lacking field [f] and every
    concrete operand [c], [matches] fails the filter [{f: {$eq: c}}] and
    passes the filter [{f: {$ne: c}}].  When [f] is not the name of a
    member of [Object.prototype], each of [$gt], [$gte], [$lt], [$lte]
    applied to the missing field evaluates to false for every operand
    that has a primitive, and throws a [TypeError] for the others. *)
Theorem C9_missing_field (h : RegExpHost) (doc : document) (f : string) (c : value)
    (a0 a1 : nat) :
  lacks doc f ->
  c <> VUndefined ->
  _matchesQuery doc (filter1 a0 f (operator1 a1 "$eq" c)) = Ret false
  /\ _matchesQuery doc (filter1 a0 f (operator1 a1 "$ne" c)) = Ret true
  /\ (inherited f = false ->
      forall op operand,
        In op ordering_operators ->
        (~ unconvertible operand ->
         run h (_matchesOperator (field doc f) op operand) = Returns false)
        /\ (unconvertible operand ->
            run h (_matchesOperator (field doc f) op operand) = Throws TypeError)).
Proof.
  intros Hf Hc.
  pose proof (lacks_field_strict_equal doc f c Hf Hc) as S.
  split; [|split].
  - apply matchesQuery_operator1_pure.
    now rewrite matchesOperator_eq, S.
  - apply matchesQuery_operator1_pure.
    now rewrite matchesOperator_ne, S.
  - intros I op operand Hop. rewrite (lacks_field doc f Hf I).
    rewrite (run_ordering_undefined h op operand Hop). split.
    + intros N. destruct (run h (ToPrimitive operand)) as [p|e] eqn:T; [reflexivity|].
      apply ToPrimitive_throws in T as [_ T]. apply stuck_Data in T. contradiction.
    + intros U.
      assert (T : run h (ToPrimitive operand) = Throws TypeError)
        by (apply ToPrimitive_throws; split; [reflexivity | now apply stuck_Data]).
      now rewrite T.
Qed.

Lemma C9_witness :
  _matchesQuery alice (filter1 10 "email" (operator1 11 "$eq" (VNum 5))) = Ret false
  /\ _matchesQuery alice (filter1 10 "email" (operator1 11 "$ne" (VNum 5))) = Ret true
  /\ (inherited "email" = false ->
      forall op operand,
        In op ordering_operators ->
        (~ unconvertible operand ->
         run strict_host (_matchesOperator (field alice "email") op operand)
         = Returns false)
        /\ (unconvertible operand ->
            run strict_host (_matchesOperator (field alice "email") op operand)
            = Throws TypeError)).
Proof.
  apply (C9_missing_field strict_host alice "email" (VNum 5) 10 11).
  - unfold lacks. simpl. intros [H|[H|[]]]; discriminate H.
  - discriminate.
Defined.

(** The claim as written fails on an operand without a primitive: the
    comparison of a missing field with [{toString: 1}] throws.  It also
    fails on the names a document inherits a member under: a document
    with no field [__proto__] reads its prototype there, which is
    greater than the empty string. *)
Lemma C9_counterexample :
  lacks alice "email"
  /\ (forall h, run h (_matchesOperator (field alice "email") "$gt" no_primitive)
                = Throws TypeError)
  /\ lacks alice "__proto__"
  /\ (forall h, run h (_matchesOperator (field alice "__proto__") "$gt" (VStr ""))
                = Returns true).
Proof.
  assert (L : forall f, f <> "name" -> f <> "age" -> lacks alice f).
  { intros f H1 H2. unfold lacks. simpl. intros [H|[H|[]]]; congruence. }
  split; [apply L; discriminate|]. split; [intros h; reflexivity|].
  split; [apply L; discriminate|]. intros h. reflexivity.
Qed.

(** ** Exceptions *)

Lemma matchesQuery_fields (doc : document) (query : value) :
  _matchesQuery doc query =
  for_in_all (Object_keys query) (fun key => field_condition doc key (Get query key)).
Proof. reflexivity. Qed.







(** ** Conjunction of two fields *)

Lemma run_Array_filter_returns {A : Type} (h : RegExpHost)
    (callback : A -> eval bool) (p : A -> bool) (xs : list A) :
  (forall x, In x xs -> run h (callback x) = Returns (p x)) ->
  run h (Array_filter callback xs) = Returns (filter p xs).
Proof.
  induction xs as [|x xs IH]; intros H; simpl; [reflexivity|].
  rewrite run_bind, (H x (or_introl eq_refl)), run_bind.
  rewrite IH by (intros y Hy; apply H; now right). reflexivity.
Qed.

Lemma run_matchesQuery_filter1 (h : RegExpHost) (doc : document) (addr : nat)
    (a : string) (X : value) :
  run h (_matchesQuery doc (filter1 addr a X)) = run h (field_condition doc a X).
Proof.
  rewrite matchesQuery_fields. simpl.
  change (VObj addr [(a, X)]) with (filter1 addr a X). rewrite Get_filter1.
  rewrite run_bind. now destruct (run h (field_condition doc a X)) as [[|]|e].
Qed.

Lemma run_matchesQuery_filter2 (h : RegExpHost) (doc : document) (addr : nat)
    (a b : string) (X Y : value) :
  a <> b ->
  run h (_matchesQuery doc (filter2 addr a X b Y)) =
  match run h (field_condition doc a X) with
  | Returns true => run h (field_condition doc b Y)
  | other => other
  end.
Proof.
  intros Hab. rewrite matchesQuery_fields. simpl. unfold Get. simpl.
  rewrite !String.eqb_refl.
  destruct (String.eqb_spec a b) as [E|_]; [contradiction|].
  rewrite run_bind. destruct (run h (field_condition doc a X)) as [[|]|e];
    try reflexivity.
  rewrite run_bind. now destruct (run h (field_condition doc b Y)) as [[|]|e].
Qed.

(** Within a consistent store, filtering twice keeps what the
    intersection of the two results keeps. *)
Lemma intersection_filter (docs : list document) (p q : document -> bool) :
  store_consistent docs ->
  intersection (filter p docs) (filter q docs)
  = filter (fun d => p d && q d) docs.
Proof.
  intros Hc. unfold intersection.
  assert (M : forall d, In d docs ->
            existsb (fun d' => Nat.eqb (doc_addr d) (doc_addr d')) (filter q docs)
            = q d).
  { intros d Hd. destruct (q d) eqn:Q.
    - apply existsb_exists. exists d. split.
      + apply filter_In. now split.
      + apply Nat.eqb_refl.
    - apply not_true_is_false. intros H.
      apply existsb_exists in H as [d' [Hd' E]].
      apply filter_In in Hd' as [Hd' Q']. apply Nat.eqb_eq in E.
      rewrite (Hc d d' Hd Hd' E) in Q. congruence. }
  revert M. generalize (filter q docs) as ys. intros ys M.
  induction docs as [|d docs IH]; simpl; [reflexivity|].
  assert (IH' : filter (fun d0 => existsb (fun d' => Nat.eqb (doc_addr d0) (doc_addr d')) ys)
                       (filter p docs)
                = filter (fun d0 => p d0 && q d0) docs).
  { apply IH.
    - intros x y Hx Hy. apply Hc; now right.
    - intros x Hx. apply M. now right. }
  destruct (p d) eqn:P; simpl.
  - rewrite (M d (or_introl eq_refl)), IH'. reflexivity.
  - exact IH'.
Qed.

(** C7, amended.  For every document set of a consistent store and every
    two per-field conditions [X] and [Y] on distinct fields [a] and [b]
    such that [matchAll(docs, {a: X})] and [matchAll(docs, {b: Y})] both
    return, [matchAll(docs, {a: X, b: Y})] returns the intersection, by
    identity and in the original relative order, of the two results. *)
Theorem C7_conjunction (h : RegExpHost) (docs : list document) (a b : string)
    (X Y : value) (a0 a1 a2 : nat) (A B : list document) :
  a <> b ->
  store_consistent docs ->
  run h (matchAll docs (filter1 a1 a X)) = Returns A ->
  run h (matchAll docs (filter1 a2 b Y)) = Returns B ->
  run h (matchAll docs (filter2 a0 a X b Y)) = Returns (intersection A B).
Proof.
  intros Hab Hc HA HB.
  rewrite run_matchAll in HA, HB |- *.
  pose proof (run_Array_filter h (fun doc => _matchesQuery doc (filter1 a1 a X)) docs) as RA.
  pose proof (run_Array_filter h (fun doc => _matchesQuery doc (filter1 a2 b Y)) docs) as RB.
  rewrite HA in RA. rewrite HB in RB.
  destruct RA as [-> FA], RB as [-> FB].
  rewrite intersection_filter by assumption.
  apply run_Array_filter_returns. intros d Hd.
  rewrite Forall_forall in FA, FB.
  destruct (FA d Hd) as [ba Ea], (FB d Hd) as [bb Eb].
  rewrite Ea, Eb. rewrite run_matchesQuery_filter1 in Ea, Eb.
  rewrite run_matchesQuery_filter2, Ea, Eb by assumption.
  now destruct ba, bb.
Qed.

Lemma C7_witness :
  run strict_host
      (matchAll [alice; bob; charlie]
         (filter2 10 "age" (operator1 11 "$gte" (VNum 28))
                     "name" (operator1 12 "$ne" (VStr "Bob"))))
  = Returns (intersection [alice; charlie] [alice; charlie]).
Proof.
  apply (C7_conjunction strict_host [alice; bob; charlie] "age" "name"
           (operator1 11 "$gte" (VNum 28)) (operator1 12 "$ne" (VStr "Bob"))
           10 13 14).
  - discriminate.
  - intros d d' Hd Hd' E. simpl in Hd, Hd'.
    destruct Hd as [<-|[<-|[<-|[]]]], Hd' as [<-|[<-|[<-|[]]]];
      first [reflexivity | discriminate E].
  - reflexivity.
  - reflexivity.
Defined.

(** The claim as written fails when [Y] throws on a document that [X]
    rejects: the two-field filter stops at [a] and returns nothing, while
    the filter on [b] alone compiles the pattern [(] and throws. *)
Lemma C7_counterexample :
  matchAll [two_fields]
    (filter2 7 "a" (VNum 1) "b" (operator1 8 "$regex" (VStr "("))) = Ret []
  /\ matchAll [two_fields] (filter1 9 "a" (VNum 1)) = Ret []
  /\ (forall h, well_formed h "(" = false ->
       run h (matchAll [two_fields] (filter1 9 "b" (operator1 8 "$regex" (VStr "("))))
       = Throws SyntaxError).
Proof.
  split; [reflexivity|]. split; [reflexivity|].
  intros h W. rewrite run_matchAll. simpl. now rewrite W.
Qed.

End Properties.


(** * Properties of the collections *)

Module StoreProperties.
Import JS MockCollection StoreSpec.

#[local] Arguments typeof : simpl nomatch.
#[local] Arguments strict_equal : simpl nomatch.

(** ** Own properties *)

Lemma lookup_own_property (key : string) (props : list (string * value)) :
  lookup key props =
  match own_property key props with
  | Some v => v
  | None => VUndefined
  end.
Proof.
  induction props as [|[k v] rest IH]; simpl; [reflexivity|].
  now destruct (k =? key).
Qed.

(** Under a name that is not inherited, a read gives the own field. *)
Lemma field_own (doc : QueryBuilder.document) (key : string) :
  inherited key = false ->
  QueryBuilder.field doc key = Data (own_field doc key).
Proof.
  intros H. unfold QueryBuilder.field, Get_plain, own_field.
  rewrite lookup_own_property.
  destruct (own_property key (QueryBuilder.doc_fields doc)); [reflexivity|].
  unfold inherited in H. apply orb_false_iff in H as [-> ->]. reflexivity.
Qed.

Lemma has_own_In {A : Type} (key : string) (props : list (string * A)) :
  has_own key props = true <-> In key (map fst props).
Proof.
  unfold has_own. induction props as [|[k v] rest IH]; simpl.
  - split; [discriminate | contradiction].
  - destruct (String.eqb_spec k key) as [->|N].
    + split; auto.
    + rewrite IH. split; [now right | intros [E|H]; [contradiction | exact H]].
Qed.

Lemma own_property_replace_value {A : Type} (key k : string) (v : A)
    (props : list (string * A)) :
  own_property k (replace_value key v props) =
  if (k =? key) && has_own key props then Some v else own_property k props.
Proof.
  unfold has_own. induction props as [|[k0 w] rest IH]; simpl.
  - now rewrite andb_false_r.
  - destruct (String.eqb_spec k0 key) as [->|N]; simpl.
    + rewrite (String.eqb_sym key k).
      destruct (String.eqb_spec k key) as [->|N']; reflexivity.
    + destruct (String.eqb_spec k0 k) as [->|N'].
      * destruct (String.eqb_spec k key) as [->|_]; [contradiction | reflexivity].
      * exact IH.
Qed.

Lemma own_property_insert_index {A : Type} (i : Z) (key k : string) (v : A)
    (props : list (string * A)) :
  has_own key props = false ->
  own_property k (insert_index i key v props) =
  if k =? key then Some v else own_property k props.
Proof.
  unfold has_own. induction props as [|[k0 w] rest IH]; simpl; intros H.
  - now rewrite (String.eqb_sym key k).
  - destruct (String.eqb_spec k0 key) as [->|N]; [discriminate|].
    destruct (array_index k0) as [j|]; [destruct (j <? i)%Z|]; simpl;
      rewrite ?(String.eqb_sym key k);
      destruct (String.eqb_spec k key) as [->|N'];
      try reflexivity.
    + destruct (String.eqb_spec k0 key); [contradiction|]. auto.
    + rewrite IH by assumption.
      destruct (String.eqb_spec k key); [contradiction | reflexivity].
Qed.

Lemma own_property_app {A : Type} (k : string) (xs ys : list (string * A)) :
  own_property k (xs ++ ys) =
  match own_property k xs with
  | Some v => Some v
  | None => own_property k ys
  end.
Proof.
  induction xs as [|[k0 w] rest IH]; simpl; [reflexivity|].
  now destruct (k0 =? k).
Qed.

(** Reading after writing. *)
Lemma own_property_set_property {A : Type} (key k : string) (v : A)
    (props : list (string * A)) :
  own_property k (set_property key v props) =
  if k =? key then Some v else own_property k props.
Proof.
  unfold set_property. destruct (has_own key props) eqn:H.
  - rewrite own_property_replace_value, H, andb_true_r. reflexivity.
  - destruct (array_index key) as [i|].
    + now apply own_property_insert_index.
    + rewrite own_property_app. simpl. rewrite (String.eqb_sym key k).
      destruct (String.eqb_spec k key) as [->|N].
      * unfold has_own in H. now destruct (own_property key props).
      * now destruct (own_property k props).
Qed.

Lemma own_property_delete_property {A : Type} (key k : string)
    (props : list (string * A)) :
  own_property k (delete_property key props) =
  if k =? key then None else own_property k props.
Proof.
  unfold delete_property. induction props as [|[k0 w] rest IH]; simpl.
  - now destruct (k =? key).
  - destruct (String.eqb_spec k0 key) as [->|N]; simpl.
    + rewrite IH. rewrite (String.eqb_sym key k).
      now destruct (String.eqb_spec k key).
    + rewrite IH. destruct (String.eqb_spec k0 k) as [->|N'].
      * destruct (String.eqb_spec k key); [contradiction | reflexivity].
      * reflexivity.
Qed.

Lemma lookup_set_property (key k : string) (v : value) (props : list (string * value)) :
  lookup k (set_property key v props) = if k =? key then v else lookup k props.
Proof.
  rewrite !lookup_own_property, own_property_set_property.
  now destruct (k =? key).
Qed.


(** ** States *)

Lemma advance_0 (s : state) : advance s 0 = s.
Proof. now destruct s. Qed.

Lemma advance_advance (s : state) (a b : nat) :
  advance (advance s a) b = advance s (b + a).
Proof. unfold advance. simpl. f_equal. lia. Qed.

Lemma copies_spec (docs : list QueryBuilder.document) (s : state) :
  copies docs s = Done (copied_at (next_addr s) docs) (advance s (List.length docs)).
Proof.
  revert s. induction docs as [|d rest IH]; intros s; simpl.
  - now rewrite advance_0.
  - unfold bind, alloc. rewrite IH. unfold ret, advance. simpl.
    do 2 f_equal. lia.
Qed.

Lemma copied_at_fields (addr : nat) (docs : list QueryBuilder.document) :
  map QueryBuilder.doc_fields (copied_at addr docs) = map QueryBuilder.doc_fields docs.
Proof.
  revert addr. induction docs as [|d rest IH]; intros addr; simpl;
    [reflexivity | now rewrite IH].
Qed.

Lemma copied_at_addrs (addr : nat) (docs : list QueryBuilder.document) :
  map QueryBuilder.doc_addr (copied_at addr docs) = seq addr (List.length docs).
Proof.
  revert addr. induction docs as [|d rest IH]; intros addr; simpl;
    [reflexivity | now rewrite IH].
Qed.

(** ** The query engine inside a method *)

Lemma run_matchAll_filter (host : Host) (docs ms : list QueryBuilder.document)
    (q : value) :
  Eval.run (regexp host) (QueryBuilder.matchAll docs q) = Eval.Returns ms ->
  ms = filter (matches host q) docs.
Proof.
  intros H. rewrite Properties.run_matchAll in H.
  pose proof (Properties.run_Array_filter (regexp host)
                (fun doc => QueryBuilder._matchesQuery doc q) docs) as R.
  rewrite H in R. exact (proj1 R).
Qed.

Lemma run_matchAll_returns (host : Host) (docs : list QueryBuilder.document)
    (q : value) :
  query_returns host q docs ->
  Eval.run (regexp host) (QueryBuilder.matchAll docs q)
  = Eval.Returns (filter (matches host q) docs).
Proof.
  intros H.
  destruct (Eval.run (regexp host) (QueryBuilder.matchAll docs q)) as [ms|e] eqn:E.
  - now rewrite (run_matchAll_filter host docs ms q E).
  - exfalso. rewrite Properties.run_matchAll in E.
    pose proof (Properties.run_Array_filter (regexp host)
                  (fun doc => QueryBuilder._matchesQuery doc q) docs) as R.
    rewrite E in R. apply Exists_exists in R as [d [Hd Ht]].
    unfold query_returns in H. rewrite Forall_forall in H.
    destruct (H d Hd) as [b Hb]. congruence.
Qed.

Lemma matches_no_keys (host : Host) (q : value) (d : QueryBuilder.document) :
  Object_keys q = [] -> matches host q d = true.
Proof.
  intros H. unfold matches.
  now rewrite (Properties.matchesQuery_no_keys d q H).
Qed.

(** [find] on a query that is given. *)
Lemma find_given (host : Host) (this : nat) (q : value) (s : state) :
  q <> VUndefined ->
  find host this q s =
  match Eval.run (regexp host) (QueryBuilder.matchAll (docs_of s this) q) with
  | Eval.Returns ms => Done (copied_at (next_addr s) ms) (advance s (List.length ms))
  | Eval.Throws e => Failed (Raised e) s
  end.
Proof.
  intros Hq. unfold find, bind.
  assert (D : default_object q s = Done q s) by (destruct q; try reflexivity; congruence).
  rewrite D. unfold get_documents, query. fold (docs_of s this).
  destruct (Eval.run (regexp host) (QueryBuilder.matchAll (docs_of s this) q));
    [apply copies_spec | reflexivity].
Qed.

(** [find] with its default query. *)
Lemma find_default (host : Host) (this : nat) (s : state) :
  find host this VUndefined s =
  Done (copied_at (S (next_addr s)) (docs_of s this))
       (advance s (S (List.length (docs_of s this)))).
Proof.
  unfold find, bind. simpl. unfold bind, alloc, ret, get_documents, query. simpl.
  rewrite copies_spec. unfold advance, docs_of. simpl. do 2 f_equal. lia.
Qed.


(** ** [insertOne] *)

Lemma insertOne_rejected (host : Host) (this : nat) (d : value) (s : state) :
  is_object d = false ->
  insertOne host this d s = Failed (Error "Document must be an object") s.
Proof.
  unfold is_object, insertOne. intros H.
  rewrite <- negb_andb, H. reflexivity.
Qed.

Lemma insertOne_with_id (host : Host) (this : nat) (d : value) (s : state) :
  is_object d = true ->
  ToBoolean (Get d "_id") = true ->
  insertOne host this d s =
  Done (inserted (Get d "_id"))
       (with_documents (advance s 1) this
          (docs_of s this ++ [QueryBuilder.Doc (next_addr s) (own_enumerable d)])).
Proof.
  unfold is_object, insertOne. intros H Hid.
  rewrite <- negb_andb, H. unfold Get in Hid. cbn [negb].
  unfold bind at 1. unfold alloc. rewrite Hid. reflexivity.
Qed.

Lemma insertOne_without_id (host : Host) (this : nat) (d : value) (s : state) :
  is_object d = true ->
  ToBoolean (Get d "_id") = false ->
  insertOne host this d s =
  Done (inserted (VStr (random_base36 host (drawn s)
                        ++ random_base36 host (S (drawn s)))))
       (with_documents (draw (advance s 1) 2) this
          (docs_of s this
           ++ [QueryBuilder.Doc (next_addr s)
                 (set_property "_id"
                    (VStr (random_base36 host (drawn s)
                           ++ random_base36 host (S (drawn s))))
                    (own_enumerable d))])).
Proof.
  unfold is_object, insertOne. intros H Hid.
  rewrite <- negb_andb, H. unfold Get in Hid. cbn [negb].
  unfold bind at 1. unfold alloc. rewrite Hid. cbn [negb].
  unfold bind, _generateId, Math_random_base36, bind, ret, get_documents,
    set_documents. cbn [drawn next_addr collection_at].
  rewrite lookup_set_property. reflexivity.
Qed.

(** X1.  [insertOne] throws [Error('Document must be an object')], and
    changes nothing, when its argument is falsy or not of type object.
    Otherwise it returns an acknowledged response and appends exactly
    one document, a new object, after the documents already stored; the
    [insertedId] of the response is the [_id] of that document, and no
    other collection changes. *)
Theorem insertOne_appends_one (host : Host) (this : nat) (d : value) (s : state) :
  if is_object d then
    exists r s' new,
      insertOne host this d s = Done r s'
      /\ acknowledged r = true
      /\ docs_of s' this = docs_of s this ++ [new]
      /\ insertedId r = Some (own_field new "_id")
      /\ QueryBuilder.doc_addr new = next_addr s
      /\ next_addr s < next_addr s'
      /\ forall c, c <> this -> collection_at s' c = collection_at s c
  else
    insertOne host this d s = Failed (Error "Document must be an object") s.
Proof.
  destruct (is_object d) eqn:H; [|now apply insertOne_rejected].
  destruct (ToBoolean (Get d "_id")) eqn:Hid.
  - rewrite (insertOne_with_id host this d s H Hid).
    eexists _, _, _. split; [reflexivity|]. unfold docs_of. simpl.
    rewrite Nat.eqb_refl. simpl. repeat split; try lia.
    intros c Hc. apply Nat.eqb_neq in Hc. now rewrite Hc.
  - rewrite (insertOne_without_id host this d s H Hid).
    eexists _, _, _. split; [reflexivity|]. unfold docs_of. simpl.
    rewrite Nat.eqb_refl. simpl. repeat split; try lia.
    + unfold own_field. simpl. now rewrite lookup_set_property.
    + intros c Hc. apply Nat.eqb_neq in Hc. now rewrite Hc.
Qed.

(** X2.  [insertOne] keeps an [_id] that is truthy: the stored document
    has exactly the own enumerable properties of the argument and no
    random number is drawn.  A missing or falsy [_id] (such as [0], the
    empty string or [null]) is replaced by the concatenation of two
    random base-36 strings; every other field is stored as given. *)
Theorem insertOne_identifier (host : Host) (this : nat) (d : value) (s : state) :
  is_object d = true ->
  exists r s' new,
    insertOne host this d s = Done r s'
    /\ docs_of s' this = docs_of s this ++ [new]
    /\ (if ToBoolean (Get d "_id") then
          insertedId r = Some (Get d "_id")
          /\ QueryBuilder.doc_fields new = own_enumerable d
          /\ drawn s' = drawn s
        else
          insertedId r
          = Some (VStr (random_base36 host (drawn s)
                        ++ random_base36 host (S (drawn s))))
          /\ own_field new "_id"
             = VStr (random_base36 host (drawn s)
                     ++ random_base36 host (S (drawn s)))
          /\ (forall key, key <> "_id" -> own_field new key = Get d key)
          /\ drawn s' = 2 + drawn s).
Proof.
  intros H. destruct (ToBoolean (Get d "_id")) eqn:Hid.
  - rewrite (insertOne_with_id host this d s H Hid).
    eexists _, _, _. split; [reflexivity|]. unfold docs_of. simpl.
    rewrite Nat.eqb_refl. simpl. now repeat split.
  - rewrite (insertOne_without_id host this d s H Hid).
    eexists _, _, _. split; [reflexivity|]. unfold docs_of. simpl.
    rewrite Nat.eqb_refl. simpl. repeat split.
    + unfold own_field. simpl. now rewrite lookup_set_property.
    + intros key Hk. unfold own_field, Get. simpl.
      rewrite lookup_set_property.
      now destruct (String.eqb_spec key "_id").
Qed.

Lemma insertOne_identifier_witness :
  exists r s' new,
    insertOne sample_host 0 alice_literal sample_state = Done r s'
    /\ docs_of s' 0 = docs_of sample_state 0 ++ [new]
    /\ (if ToBoolean (Get alice_literal "_id") then
          insertedId r = Some (Get alice_literal "_id")
          /\ QueryBuilder.doc_fields new = own_enumerable alice_literal
          /\ drawn s' = drawn sample_state
        else
          insertedId r
          = Some (VStr (random_base36 sample_host (drawn sample_state)
                        ++ random_base36 sample_host (S (drawn sample_state))))
          /\ own_field new "_id"
             = VStr (random_base36 sample_host (drawn sample_state)
                     ++ random_base36 sample_host (S (drawn sample_state)))
          /\ (forall key, key <> "_id" ->
              own_field new key = Get alice_literal key)
          /\ drawn s' = 2 + drawn sample_state).
Proof.
  apply (insertOne_identifier sample_host 0 alice_literal sample_state).
  reflexivity.
Defined.


(** ** [find] and [findOne] *)

Lemma value_is_undefined (v : value) : {v = VUndefined} + {v <> VUndefined}.
Proof. destruct v; first [now left | now right]. Qed.

Lemma truthy_strict_equal_refl (v : value) :
  ToBoolean v = true -> strict_equal v v = true.
Proof.
  destruct v; simpl; try discriminate; try reflexivity.
  - now destruct b.
  - unfold PrimFloat.is_nan. intros H. apply negb_true_iff, orb_false_iff in H.
    destruct H as [H _]. now apply negb_false_iff in H.
  - intros _. apply String.eqb_refl.
  - intros _. apply Nat.eqb_refl.
  - intros _. apply Nat.eqb_refl.
Qed.

Lemma addrs_from (a n : nat) (docs : list QueryBuilder.document) :
  map QueryBuilder.doc_addr docs = seq a n ->
  Forall (fun d => a <= QueryBuilder.doc_addr d) docs
  /\ NoDup (map QueryBuilder.doc_addr docs).
Proof.
  intros H. split.
  - apply Forall_forall. intros d Hd.
    apply (in_map QueryBuilder.doc_addr) in Hd. rewrite H in Hd.
    apply in_seq in Hd. lia.
  - rewrite H. apply seq_NoDup.
Qed.

Lemma matches_everything (host : Host) (q : value)
    (docs : list QueryBuilder.document) :
  Object_keys q = [] -> filter (matches host q) docs = docs.
Proof.
  intros H. apply Properties.filter_all. intros d _. now apply matches_no_keys.
Qed.

Lemma first_filter {A : Type} (p : A -> bool) (xs : list A) :
  first (filter p xs) = List.find p xs.
Proof.
  induction xs as [|x xs IH]; simpl; [reflexivity|].
  now destruct (p x).
Qed.

Lemma first_copied_at (addr : nat) (docs : list QueryBuilder.document) :
  option_map QueryBuilder.doc_fields (first (copied_at addr docs))
  = option_map QueryBuilder.doc_fields (first docs).
Proof. now destruct docs. Qed.

(** X3.  A document comes back by its identifier: after [insertOne]
    returns [insertedId], provided the identifier is not a plain object
    (which a filter would read as operators), [find({_id: insertedId})]
    returns copies of the documents stored before under a strictly equal
    [_id], followed by a copy of the inserted document. *)
Theorem insert_then_find_by_id (host : Host) (this : nat) (d id : value)
    (s s' : state) (r : response) (a : nat) :
  is_object d = true ->
  insertOne host this d s = Done r s' ->
  insertedId r = Some id ->
  ~ Spec.operator_shaped id ->
  exists found s'' fields,
    find host this (Spec.filter1 a "_id" id) s' = Done found s''
    /\ docs_of s' this
       = docs_of s this ++ [QueryBuilder.Doc (next_addr s) fields]
    /\ map QueryBuilder.doc_fields found
       = map QueryBuilder.doc_fields
           (filter (fun x => strict_equal (QueryBuilder.field x "_id") id)
                   (docs_of s this))
         ++ [fields].
Proof.
  intros H Hr Hid Hshape.
  assert (E : exists fields,
            docs_of s' this = docs_of s this ++ [QueryBuilder.Doc (next_addr s) fields]
            /\ lookup "_id" fields = id /\ strict_equal id id = true).
  { destruct (ToBoolean (Get d "_id")) eqn:T.
    - rewrite (insertOne_with_id host this d s H T) in Hr.
      injection Hr as <- <-. injection Hid as <-.
      exists (own_enumerable d). unfold docs_of. simpl. rewrite Nat.eqb_refl.
      repeat split. now apply truthy_strict_equal_refl.
    - rewrite (insertOne_without_id host this d s H T) in Hr.
      injection Hr as <- <-. injection Hid as <-.
      eexists. unfold docs_of. simpl. rewrite Nat.eqb_refl. simpl.
      repeat split.
      + apply lookup_set_property.
      + apply String.eqb_refl. }
  destruct E as [fields [Hdocs [Hlook Hrefl]]].
  rewrite find_given by discriminate.
  rewrite (Properties.matchAll_pure (docs_of s' this) _
             (fun x => strict_equal (QueryBuilder.field x "_id") id))
    by (intros x _; now apply Properties.matchesQuery_literal).
  simpl. eexists _, _, fields. split; [reflexivity|]. split; [exact Hdocs|].
  rewrite copied_at_fields, Hdocs, filter_app, map_app. simpl.
  rewrite (field_own (QueryBuilder.Doc (next_addr s) fields) "_id") by reflexivity.
  unfold own_field. simpl. now rewrite Hlook, Hrefl.
Qed.

Lemma insert_then_find_by_id_witness :
  exists found s'' fields,
    find sample_host 0 (Spec.filter1 9 "_id" (VStr "r0r1"))
         (with_documents (draw (advance sample_state 1) 2) 0
            [QueryBuilder.Doc 1
               [("name", VStr "Alice"); ("age", VNum 30); ("_id", VStr "r0r1")]])
    = Done found s''
    /\ docs_of (with_documents (draw (advance sample_state 1) 2) 0
                  [QueryBuilder.Doc 1
                     [("name", VStr "Alice"); ("age", VNum 30);
                      ("_id", VStr "r0r1")]]) 0
       = docs_of sample_state 0
         ++ [QueryBuilder.Doc (next_addr sample_state) fields]
    /\ map QueryBuilder.doc_fields found
       = map QueryBuilder.doc_fields
           (filter (fun x => strict_equal (QueryBuilder.field x "_id") (VStr "r0r1"))
                   (docs_of sample_state 0))
         ++ [fields].
Proof.
  apply (insert_then_find_by_id sample_host 0 alice_literal (VStr "r0r1")
           sample_state _ (inserted (VStr "r0r1")) 9).
  - reflexivity.
  - reflexivity.
  - reflexivity.
  - intros [addr [props H]]. discriminate H.
Defined.

(** X4.  [find] hands out copies: when the query engine throws on no
    stored document, [find] returns, in insertion order, one new object
    per matching document with that document's fields; the new objects
    have addresses that were not in use and differ from one another, and
    no collection is changed. *)
Theorem find_returns_copies (host : Host) (this : nat) (q : value) (s : state) :
  query_returns host q (docs_of s this) ->
  exists found s',
    find host this q s = Done found s'
    /\ map QueryBuilder.doc_fields found
       = map QueryBuilder.doc_fields (filter (matches host q) (docs_of s this))
    /\ Forall (fun d => next_addr s <= QueryBuilder.doc_addr d) found
    /\ NoDup (map QueryBuilder.doc_addr found)
    /\ collection_at s' = collection_at s.
Proof.
  intros H. destruct q as [| |b|n|str|addr elems|addr props] eqn:Eq;
    try (rewrite find_given by discriminate;
         rewrite (run_matchAll_returns host _ _ H);
         eexists _, _; split; [reflexivity|];
         rewrite copied_at_fields; split; [reflexivity|];
         destruct (addrs_from _ _ _ (copied_at_addrs (next_addr s)
                     (filter (matches host q) (docs_of s this)))) as [F N];
         subst q; now repeat split).
  rewrite find_default. eexists _, _. split; [reflexivity|].
  rewrite copied_at_fields, matches_everything by reflexivity.
  split; [reflexivity|].
  destruct (addrs_from _ _ _ (copied_at_addrs (S (next_addr s)) (docs_of s this)))
    as [F N].
  repeat split; try assumption.
  eapply Forall_impl; [|exact F]. simpl. intros d Hd. lia.
Qed.

Lemma find_returns_copies_witness :
  exists found s',
    find sample_host 0 (Spec.filter1 9 "age" (VNum 30)) three_users = Done found s'
    /\ map QueryBuilder.doc_fields found
       = map QueryBuilder.doc_fields
           (filter (matches sample_host (Spec.filter1 9 "age" (VNum 30)))
                   (docs_of three_users 0))
    /\ Forall (fun d => next_addr three_users <= QueryBuilder.doc_addr d) found
    /\ NoDup (map QueryBuilder.doc_addr found)
    /\ collection_at s' = collection_at three_users.
Proof.
  apply (find_returns_copies sample_host 0 (Spec.filter1 9 "age" (VNum 30)) three_users).
  unfold query_returns, docs_of. simpl.
  repeat constructor; eexists; reflexivity.
Defined.


(** X5.  With a query that has no keys (no argument, [null], [{}]),
    [find] returns a copy of every document in insertion order, as many
    as [count] counts. *)
Theorem find_everything (host : Host) (this : nat) (q : value) (s : state) :
  Object_keys q = [] ->
  exists found s',
    find host this q s = Done found s'
    /\ map QueryBuilder.doc_fields found = map QueryBuilder.doc_fields (docs_of s this)
    /\ count this s' = Done (List.length found) s'.
Proof.
  intros H.
  assert (E : exists found s',
            find host this q s = Done found s'
            /\ map QueryBuilder.doc_fields found
               = map QueryBuilder.doc_fields (docs_of s this)
            /\ collection_at s' = collection_at s).
  { destruct (value_is_undefined q) as [->|Hq].
    - rewrite find_default. eexists _, _. split; [reflexivity|].
      now rewrite copied_at_fields.
    - rewrite find_given by assumption.
      rewrite (Properties.matchAll_pure (docs_of s this) q (fun _ => true))
        by (intros d _; now apply Properties.matchesQuery_no_keys).
      simpl. eexists _, _. split; [reflexivity|].
      rewrite copied_at_fields, Properties.filter_all by reflexivity.
      now split. }
  destruct E as [found [s' [E [F C]]]]. exists found, s'.
  split; [exact E|]. split; [exact F|].
  unfold count, bind, get_documents, ret. rewrite C. fold (docs_of s this).
  apply (f_equal (@List.length _)) in F. rewrite !length_map in F.
  now rewrite F.
Qed.

Lemma find_everything_witness :
  exists found s',
    find sample_host 0 VUndefined three_users = Done found s'
    /\ map QueryBuilder.doc_fields found
       = map QueryBuilder.doc_fields (docs_of three_users 0)
    /\ count 0 s' = Done (List.length found) s'.
Proof.
  apply (find_everything sample_host 0 VUndefined three_users). reflexivity.
Defined.



(** ** Lists *)

Lemma find_split {A : Type} (p : A -> bool) (xs : list A) (m : A) :
  List.find p xs = Some m ->
  exists pre post,
    xs = pre ++ m :: post /\ Forall (fun x => p x = false) pre /\ p m = true.
Proof.
  induction xs as [|x xs IH]; simpl; [discriminate|].
  destruct (p x) eqn:P.
  - intros H. injection H as <-. exists [], xs. now repeat split.
  - intros H. destruct (IH H) as [pre [post [-> [F Pm]]]].
    exists (x :: pre), post. repeat split; [|assumption]. now constructor.
Qed.

Lemma find_none {A : Type} (p : A -> bool) (xs : list A) :
  List.find p xs = None -> filter p xs = [].
Proof.
  induction xs as [|x xs IH]; simpl; [reflexivity|].
  destruct (p x); [discriminate | exact IH].
Qed.

Lemma find_at_split {A : Type} (p : A -> bool) (pre post : list A) (m : A) :
  Forall (fun x => p x = false) pre -> p m = true ->
  List.find p (pre ++ m :: post) = Some m.
Proof.
  intros F Pm. induction F as [|x pre Px F IH]; simpl.
  - now rewrite Pm.
  - now rewrite Px.
Qed.

Lemma findIndex_at_split {A : Type} (p : A -> bool) (pre post : list A) (x : A) :
  Forall (fun y => p y = false) pre -> p x = true ->
  findIndex p (pre ++ x :: post) = Some (List.length pre).
Proof.
  intros F Px. induction F as [|y pre Py F IH]; simpl.
  - now rewrite Px.
  - now rewrite Py, IH.
Qed.

Lemma findIndex_none {A : Type} (p : A -> bool) (xs : list A) :
  Forall (fun y => p y = false) xs -> findIndex p xs = None.
Proof.
  intros F. induction F as [|y xs Py F IH]; simpl; [reflexivity|].
  now rewrite Py, IH.
Qed.

Lemma splice1_at_split {A : Type} (pre post : list A) (x : A) :
  splice1 (List.length pre) (pre ++ x :: post) = pre ++ post.
Proof. induction pre as [|y pre IH]; simpl; [reflexivity | now rewrite IH]. Qed.

Lemma store_at_split {A : Type} (pre post : list A) (x y : A) :
  store_at (List.length pre) y (pre ++ x :: post) = pre ++ y :: post.
Proof. induction pre as [|z pre IH]; simpl; [reflexivity | now rewrite IH]. Qed.

Lemma nth_error_at_split {A : Type} (pre post : list A) (x : A) :
  nth_error (pre ++ x :: post) (List.length pre) = Some x.
Proof. induction pre as [|z pre IH]; simpl; [reflexivity | exact IH]. Qed.

(** In a list with unique identifiers, the first match is also the
    first document with its identifier. *)
Lemma unique_ids_split (pre post : list QueryBuilder.document)
    (m : QueryBuilder.document) :
  unique_ids (pre ++ m :: post) ->
  Forall (fun y => same_id y m = false) pre /\ same_id m m = true.
Proof.
  intros U. split.
  - apply Forall_forall. intros y Hy.
    apply In_nth_error in Hy as [i Hi].
    assert (Hlt : i < List.length pre).
    { apply nth_error_Some. congruence. }
    apply not_true_is_false. intros E.
    assert (Hi' : nth_error (pre ++ m :: post) i = Some y)
      by (rewrite nth_error_app1; assumption).
    pose proof (proj1 (U i (List.length pre) y m Hi' (nth_error_at_split pre post m)) E).
    lia.
  - apply (U (List.length pre) (List.length pre) m m);
      [apply nth_error_at_split | apply nth_error_at_split | reflexivity].
Qed.

(** ** Default parameters *)

(** A defaulted query allocates at most one object, and the query used
    selects the same documents. *)
Lemma default_object_query (q : value) (s : state) :
  exists q' n,
    default_object q s = Done q' (advance s n)
    /\ q' <> VUndefined
    /\ forall docs, QueryBuilder.matchAll docs q' = QueryBuilder.matchAll docs q.
Proof.
  destruct (value_is_undefined q) as [->|Hq].
  - exists (VObj (next_addr s) []), 1. repeat split. discriminate.
  - exists q, 0. rewrite advance_0. repeat split; [|assumption].
    destruct q; try reflexivity. congruence.
Qed.

Lemma default_object_idempotent (q : value) (s : state) :
  q <> VUndefined -> default_object q s = Done q s.
Proof. destruct q; try reflexivity. congruence. Qed.

(** [findOne], whatever its argument. *)
Lemma findOne_spec (host : Host) (this : nat) (q : value) (s : state) :
  exists n,
    findOne host this q s =
    match Eval.run (regexp host) (QueryBuilder.matchAll (docs_of s this) q) with
    | Eval.Returns ms =>
        Done (first (copied_at (n + next_addr s) ms))
             (advance s (List.length ms + n))
    | Eval.Throws e => Failed (Raised e) (advance s n)
    end.
Proof.
  destruct (default_object_query q s) as [q' [n [D [Hq' M]]]].
  exists n. unfold findOne, bind at 1. rewrite D.
  unfold bind. rewrite find_given by assumption.
  change (docs_of (advance s n) this) with (docs_of s this). rewrite M.
  destruct (Eval.run (regexp host) (QueryBuilder.matchAll (docs_of s this) q));
    [|reflexivity].
  unfold ret. now rewrite advance_advance.
Qed.

(** X6.  [findOne] returns a copy of the first document, in insertion
    order, that matches the query, and [null] when none matches; it
    changes no collection. *)
Theorem findOne_first_match (host : Host) (this : nat) (q : value) (s : state) :
  query_returns host q (docs_of s this) ->
  exists r s',
    findOne host this q s = Done r s'
    /\ option_map QueryBuilder.doc_fields r
       = option_map QueryBuilder.doc_fields
           (List.find (matches host q) (docs_of s this))
    /\ collection_at s' = collection_at s.
Proof.
  intros H. destruct (findOne_spec host this q s) as [n E].
  rewrite (run_matchAll_returns host _ _ H) in E. rewrite E.
  eexists _, _. split; [reflexivity|].
  now rewrite first_copied_at, first_filter.
Qed.

Lemma findOne_first_match_witness :
  exists r s',
    findOne sample_host 0 (Spec.filter1 9 "age" (VNum 30)) three_users = Done r s'
    /\ option_map QueryBuilder.doc_fields r
       = option_map QueryBuilder.doc_fields
           (List.find (matches sample_host (Spec.filter1 9 "age" (VNum 30)))
                      (docs_of three_users 0))
    /\ collection_at s' = collection_at three_users.
Proof.
  apply (findOne_first_match sample_host 0 (Spec.filter1 9 "age" (VNum 30)) three_users).
  unfold query_returns, docs_of. simpl.
  repeat constructor; eexists; reflexivity.
Defined.

(** ** [deleteOne] *)

Lemma deleteOne_spec (host : Host) (this : nat) (q : value) (s : state) :
  exists n,
    deleteOne host this q s =
    match Eval.run (regexp host) (QueryBuilder.matchAll (docs_of s this) q) with
    | Eval.Returns [] => Done (deleted 0) (advance s n)
    | Eval.Returns (m :: _) =>
        match findIndex (fun doc => same_id doc m) (docs_of s this) with
        | Some i =>
            Done (deleted 1)
                 (with_documents (advance s n) this (splice1 i (docs_of s this)))
        | None => Done (deleted 0) (advance s n)
        end
    | Eval.Throws e => Failed (Raised e) (advance s n)
    end.
Proof.
  destruct (default_object_query q s) as [q' [n [D [Hq' M]]]].
  exists n. unfold deleteOne, bind at 1. rewrite D.
  unfold bind, get_documents, query.
  change (documents (collection_at (advance s n) this)) with (docs_of s this).
  rewrite M.
  destruct (Eval.run (regexp host) (QueryBuilder.matchAll (docs_of s this) q))
    as [[|m rest]|e]; try reflexivity.
  unfold docs_of. cbn [advance collection_at].
  now destruct (findIndex (fun doc => same_id doc m) (documents (collection_at s this))).
Qed.

Lemma docs_of_with_documents (s : state) (this : nat)
    (docs : list QueryBuilder.document) :
  docs_of (with_documents s this docs) this = docs.
Proof. unfold docs_of, with_documents. simpl. now rewrite Nat.eqb_refl. Qed.

(** X7.  [deleteOne] deletes by identifier: the document removed is the
    first stored document whose [_id] is strictly equal to the [_id] of
    the first match, whether or not that document matches the query, and
    the other documents keep their order.  When no stored [_id] is
    strictly equal to it (it is [NaN]), nothing is removed and the count
    is 0 although a document matched. *)
Theorem deleteOne_by_identifier (host : Host) (this : nat) (q : value) (s : state)
    (m : QueryBuilder.document) :
  query_returns host q (docs_of s this) ->
  List.find (matches host q) (docs_of s this) = Some m ->
  exists r s',
    deleteOne host this q s = Done r s'
    /\ (forall pre x post,
          docs_of s this = pre ++ x :: post ->
          Forall (fun y => same_id y m = false) pre ->
          same_id x m = true ->
          deletedCount r = Some 1 /\ docs_of s' this = pre ++ post)
    /\ (Forall (fun y => same_id y m = false) (docs_of s this) ->
        deletedCount r = Some 0 /\ docs_of s' this = docs_of s this).
Proof.
  intros H Hm. destruct (deleteOne_spec host this q s) as [n E].
  rewrite (run_matchAll_returns host _ _ H) in E.
  rewrite <- first_filter in Hm.
  destruct (filter (matches host q) (docs_of s this)) as [|m' rest];
    [discriminate|]. injection Hm as ->.
  destruct (findIndex (fun doc => same_id doc m) (docs_of s this)) as [i|] eqn:I;
    rewrite E; eexists _, _; (split; [reflexivity|]); split.
  - intros pre x post Hd F Hx. rewrite Hd in I |- *.
    rewrite (findIndex_at_split _ pre post x F Hx) in I. injection I as <-.
    now rewrite docs_of_with_documents, splice1_at_split.
  - intros F. now rewrite (findIndex_none _ _ F) in I.
  - intros pre x post Hd F Hx. rewrite Hd in I.
    now rewrite (findIndex_at_split _ pre post x F Hx) in I.
  - intros _. now split.
Qed.

Lemma deleteOne_by_identifier_witness :
  exists r s',
    deleteOne sample_host 0 (Spec.filter1 9 "age" (VNum 30)) three_users = Done r s'
    /\ (forall pre x post,
          docs_of three_users 0 = pre ++ x :: post ->
          Forall (fun y => same_id y stored_alice = false) pre ->
          same_id x stored_alice = true ->
          deletedCount r = Some 1 /\ docs_of s' 0 = pre ++ post)
    /\ (Forall (fun y => same_id y stored_alice = false) (docs_of three_users 0) ->
        deletedCount r = Some 0 /\ docs_of s' 0 = docs_of three_users 0).
Proof.
  apply (deleteOne_by_identifier sample_host 0 (Spec.filter1 9 "age" (VNum 30))
           three_users stored_alice).
  - unfold query_returns, docs_of. simpl.
    repeat constructor; eexists; reflexivity.
  - reflexivity.
Defined.

(** X8.  In a collection whose identifiers are unique, [deleteOne]
    removes exactly the first document that matches the query and
    reports 1; when no document matches it removes nothing and
    reports 0. *)
Theorem deleteOne_first_match (host : Host) (this : nat) (q : value) (s : state) :
  unique_ids (docs_of s this) ->
  query_returns host q (docs_of s this) ->
  exists r s',
    deleteOne host this q s = Done r s'
    /\ acknowledged r = true
    /\ match List.find (matches host q) (docs_of s this) with
       | None => deletedCount r = Some 0 /\ docs_of s' this = docs_of s this
       | Some m =>
           deletedCount r = Some 1
           /\ exists pre post,
                docs_of s this = pre ++ m :: post
                /\ Forall (fun x => matches host q x = false) pre
                /\ docs_of s' this = pre ++ post
       end.
Proof.
  intros U H. destruct (deleteOne_spec host this q s) as [n E].
  rewrite (run_matchAll_returns host _ _ H) in E.
  destruct (List.find (matches host q) (docs_of s this)) as [m|] eqn:Fm.
  - destruct (find_split _ _ _ Fm) as [pre [post [Hd [Fpre Pm]]]].
    rewrite <- first_filter in Fm.
    destruct (filter (matches host q) (docs_of s this)) as [|m' rest];
      [discriminate|]. injection Fm as ->.
    rewrite Hd in U. destruct (unique_ids_split pre post m U) as [Fid Hid].
    rewrite Hd in E at 1. rewrite (findIndex_at_split _ pre post m Fid Hid) in E.
    rewrite E. eexists _, _. split; [reflexivity|]. split; [reflexivity|].
    split; [reflexivity|]. exists pre, post.
    rewrite docs_of_with_documents, Hd, splice1_at_split. now repeat split.
  - rewrite (find_none _ _ Fm) in E. rewrite E.
    eexists _, _. now repeat split.
Qed.

Lemma three_users_unique : unique_ids (docs_of three_users 0).
Proof.
  intros i j di dj Hi Hj. unfold docs_of in Hi, Hj. simpl in Hi, Hj.
  destruct i as [|[|[|i]]]; destruct j as [|[|[|j]]]; simpl in Hi, Hj;
    try (destruct i; discriminate); try (destruct j; discriminate);
    injection Hi as <-; injection Hj as <-;
    (split; [intros E; first [reflexivity | discriminate E]
            | intros E; first [reflexivity | discriminate E]]).
Defined.

Lemma deleteOne_first_match_witness :
  exists r s',
    deleteOne sample_host 0 (Spec.filter1 9 "age" (VNum 30)) three_users = Done r s'
    /\ acknowledged r = true
    /\ match List.find (matches sample_host (Spec.filter1 9 "age" (VNum 30)))
                       (docs_of three_users 0) with
       | None => deletedCount r = Some 0 /\ docs_of s' 0 = docs_of three_users 0
       | Some m =>
           deletedCount r = Some 1
           /\ exists pre post,
                docs_of three_users 0 = pre ++ m :: post
                /\ Forall (fun x => matches sample_host
                                      (Spec.filter1 9 "age" (VNum 30)) x = false) pre
                /\ docs_of s' 0 = pre ++ post
       end.
Proof.
  apply (deleteOne_first_match sample_host 0 (Spec.filter1 9 "age" (VNum 30))
           three_users).
  - exact three_users_unique.
  - unfold query_returns, docs_of. simpl.
    repeat constructor; eexists; reflexivity.
Defined.


(** ** [updateOne] *)

Lemma default_object_options (o : value) (s : state) :
  exists o' k,
    default_object o s = Done o' (advance s k)
    /\ forall s2, get_property o' "upsert" s2 =
                  match o with
                  | VNull => Failed (Raised Eval.TypeError) s2
                  | _ => Done (Get o "upsert") s2
                  end.
Proof.
  destruct o; try (eexists _, 0; rewrite advance_0; split; [reflexivity|];
                   intros s2; reflexivity).
  exists (VObj (next_addr s) []), 1. split; reflexivity.
Qed.

(** X9.  [updateOne] throws [Error('Update must be an object')] when
    the update is falsy or not of type object, before it looks at the
    collection: no document changes. *)
Theorem updateOne_rejects (host : Host) (this : nat) (filter update options : value)
    (s : state) :
  is_object update = false ->
  exists s',
    updateOne host this filter update options s
    = Failed (Error "Update must be an object") s'
    /\ collection_at s' = collection_at s.
Proof.
  intros H. destruct (default_object_options options s) as [o' [k [D _]]].
  unfold updateOne, bind at 1. rewrite D.
  unfold is_object in H. rewrite <- negb_andb, H. simpl.
  eexists. split; reflexivity.
Qed.

Lemma updateOne_rejects_witness :
  exists s',
    updateOne sample_host 0 (VObj 9 []) (VStr "string") VUndefined three_users
    = Failed (Error "Update must be an object") s'
    /\ collection_at s' = collection_at three_users.
Proof.
  apply (updateOne_rejects sample_host 0 (VObj 9 []) (VStr "string") VUndefined
           three_users).
  reflexivity.
Defined.

(** [updateOne] when no document matches: what is left to run. *)
Lemma updateOne_no_match (host : Host) (this : nat) (filter update options : value)
    (s : state) :
  is_object update = true ->
  query_returns host filter (docs_of s this) ->
  List.find (matches host filter) (docs_of s this) = None ->
  exists s1,
    collection_at s1 = collection_at s
    /\ drawn s1 = drawn s
    /\ updateOne host this filter update options s =
       match options with
       | VNull => Failed (Raised Eval.TypeError) s1
       | _ =>
           if ToBoolean (Get options "upsert") then
             bind (insertOne host this
                     (VObj (next_addr s1)
                        (if ToBoolean (Get update "$set")
                         then Object_assign (own_enumerable filter) (Get update "$set")
                         else own_enumerable filter)))
                  (fun insertResult => ret (upserted (insertedId insertResult)))
                  (advance s1 1)
           else Done (updated 0 0) s1
       end.
Proof.
  intros H Q F. destruct (default_object_options options s) as [o' [k [D G]]].
  destruct (findOne_spec host this filter (advance s k)) as [n E].
  change (docs_of (advance s k) this) with (docs_of s this) in E.
  rewrite (run_matchAll_returns host _ _ Q), (find_none _ _ F) in E. simpl in E.
  exists (advance (advance s k) n). split; [reflexivity|]. split; [reflexivity|].
  unfold updateOne, bind at 1. rewrite D.
  unfold is_object in H. rewrite <- negb_andb, H. cbn [negb].
  unfold bind at 1. rewrite E. unfold bind at 1. rewrite G.
  destruct options; try reflexivity;
    destruct (ToBoolean (Get _ "upsert")); reflexivity.
Qed.

(** X10.  When no document matches and [options.upsert] is falsy,
    [updateOne] reports no match and no modification and leaves the
    documents as they are; with [null] for options it throws a
    [TypeError] instead, the documents being left as they are too. *)
Theorem updateOne_without_match (host : Host) (this : nat)
    (filter update options : value) (s : state) :
  is_object update = true ->
  query_returns host filter (docs_of s this) ->
  List.find (matches host filter) (docs_of s this) = None ->
  ToBoolean (Get options "upsert") = false ->
  exists s',
    updateOne host this filter update options s
    = match options with
      | VNull => Failed (Raised Eval.TypeError) s'
      | _ => Done (updated 0 0) s'
      end
    /\ docs_of s' this = docs_of s this.
Proof.
  intros H Q F U.
  destruct (updateOne_no_match host this filter update options s H Q F)
    as [s1 [C [_ E]]].
  exists s1. rewrite E, U. split; [now destruct options|].
  unfold docs_of. now rewrite C.
Qed.

Lemma no_david :
  query_returns sample_host (Spec.filter1 9 "name" (VStr "David")) (docs_of three_users 0)
  /\ List.find (matches sample_host (Spec.filter1 9 "name" (VStr "David")))
               (docs_of three_users 0) = None.
Proof.
  split; [|reflexivity]. unfold query_returns, docs_of. simpl.
  repeat constructor; eexists; reflexivity.
Defined.

Lemma updateOne_without_match_witness :
  exists s',
    updateOne sample_host 0 (Spec.filter1 9 "name" (VStr "David"))
              (VObj 10 [("$set", VObj 11 [("age", VNum 28)])]) VUndefined three_users
    = Done (updated 0 0) s'
    /\ docs_of s' 0 = docs_of three_users 0.
Proof.
  apply (updateOne_without_match sample_host 0 (Spec.filter1 9 "name" (VStr "David"))
           (VObj 10 [("$set", VObj 11 [("age", VNum 28)])]) VUndefined three_users).
  - reflexivity.
  - exact (proj1 no_david).
  - exact (proj2 no_david).
  - reflexivity.
Defined.

(** Reading after an assignment, under a key other than [__proto__]. *)
Lemma lookup_assign_property (key k : string) (v : value)
    (props : list (string * value)) :
  k <> "__proto__" ->
  lookup k (assign_property key v props) = if k =? key then v else lookup k props.
Proof.
  intros Hk. unfold assign_property.
  destruct (String.eqb_spec key "__proto__") as [->|N]; simpl.
  - destruct (has_own "__proto__" props); simpl.
    + apply lookup_set_property.
    + now destruct (String.eqb_spec k "__proto__").
  - apply lookup_set_property.
Qed.

(** An assignment creates no own property [__proto__]. *)
Lemma has_own_assign_property (key : string) (v : value)
    (props : list (string * value)) :
  has_own "__proto__" (assign_property key v props) = has_own "__proto__" props.
Proof.
  unfold assign_property.
  destruct (String.eqb_spec key "__proto__") as [->|N]; simpl.
  - destruct (has_own "__proto__" props) eqn:Ho; simpl; [|exact Ho].
    unfold has_own. rewrite own_property_set_property. simpl.
    unfold has_own in Ho. now destruct (own_property "__proto__" props).
  - unfold has_own. rewrite own_property_set_property.
    destruct (String.eqb_spec "__proto__" key) as [E|_]; [congruence|reflexivity].
Qed.

Lemma has_own_Object_assign (target : list (string * value)) (source : value) :
  has_own "__proto__" (Object_assign target source) = has_own "__proto__" target.
Proof.
  unfold Object_assign. generalize (Object_keys source) as keys. intros keys.
  revert target. induction keys as [|k keys IH]; intros target; simpl; [reflexivity|].
  now rewrite IH, has_own_assign_property.
Qed.

Lemma has_own_has_key (v : value) (key : string) :
  has_own key (own_enumerable v) = has_key v key.
Proof.
  unfold has_key, Object_keys, has_own.
  induction (own_enumerable v) as [|[k w] rest IH]; simpl; [reflexivity|].
  rewrite (String.eqb_sym key k). now destruct (k =? key).
Qed.

(** Reading after [Object.assign]. *)
Lemma lookup_Object_assign (key : string) (target : list (string * value))
    (source : value) :
  key <> "__proto__" ->
  lookup key (Object_assign target source) =
  if has_key source key then Get source key else lookup key target.
Proof.
  intros Hk. unfold Object_assign, has_key.
  generalize (Object_keys source) as keys. intros keys. revert target.
  induction keys as [|k keys IH]; intros target; simpl; [reflexivity|].
  rewrite IH, lookup_assign_property by exact Hk.
  destruct (String.eqb_spec key k) as [->|N]; simpl; [|reflexivity].
  now destruct (existsb (String.eqb k) keys).
Qed.

(** X11.  When no document matches and [options.upsert] is truthy,
    [updateOne] inserts one document and reports it as upserted, with
    its [_id] as [upsertedId].  The document has the fields of the
    filter, operator objects included as they stand, overwritten by the
    fields of [$set]; only a field [__proto__] of the filter can give it
    an own property [__proto__], one of [$set] cannot. *)
Theorem updateOne_upserts (host : Host) (this : nat) (filter update options : value)
    (s : state) :
  is_object update = true ->
  query_returns host filter (docs_of s this) ->
  List.find (matches host filter) (docs_of s this) = None ->
  options <> VNull ->
  ToBoolean (Get options "upsert") = true ->
  exists r s' new,
    updateOne host this filter update options s = Done r s'
    /\ docs_of s' this = docs_of s this ++ [new]
    /\ matchedCount r = Some 0 /\ modifiedCount r = Some 0
    /\ upsertedCount r = Some 1
    /\ upsertedId r = Some (own_field new "_id")
    /\ has_own "__proto__" (QueryBuilder.doc_fields new) = has_key filter "__proto__"
    /\ forall key,
         key <> "_id" -> key <> "__proto__" ->
         own_field new key =
         if ToBoolean (Get update "$set") && has_key (Get update "$set") key
         then Get (Get update "$set") key
         else Get filter key.
Proof.
  intros H Q F N U.
  destruct (updateOne_no_match host this filter update options s H Q F)
    as [s1 [C [_ E]]].
  rewrite U in E.
  assert (E' : updateOne host this filter update options s =
               bind (insertOne host this
                       (VObj (next_addr s1)
                          (if ToBoolean (Get update "$set")
                           then Object_assign (own_enumerable filter) (Get update "$set")
                           else own_enumerable filter)))
                    (fun insertResult => ret (upserted (insertedId insertResult)))
                    (advance s1 1))
    by (destruct options; congruence).
  clear E. rewrite E'. unfold bind.
  set (newDoc := if ToBoolean (Get update "$set")
                 then Object_assign (own_enumerable filter) (Get update "$set")
                 else own_enumerable filter).
  assert (L : forall key,
            key <> "__proto__" ->
            lookup key newDoc =
            if ToBoolean (Get update "$set") && has_key (Get update "$set") key
            then Get (Get update "$set") key else Get filter key).
  { intros key Hk. unfold newDoc. destruct (ToBoolean (Get update "$set")); simpl.
    - now apply lookup_Object_assign.
    - reflexivity. }
  assert (P : has_own "__proto__" newDoc = has_key filter "__proto__").
  { unfold newDoc. destruct (ToBoolean (Get update "$set"));
      rewrite ?has_own_Object_assign; apply has_own_has_key. }
  assert (D1 : docs_of (advance s1 1) this = docs_of s this)
    by (unfold docs_of; simpl; now rewrite C).
  destruct (ToBoolean (Get (VObj (next_addr s1) newDoc) "_id")) eqn:T.
  - rewrite (insertOne_with_id host this (VObj (next_addr s1) newDoc)
               (advance s1 1) eq_refl T).
    unfold ret. eexists _, _, _. split; [reflexivity|].
    rewrite docs_of_with_documents, D1. split; [reflexivity|].
    repeat split; [exact P|]. intros key _ Hk. unfold own_field. simpl.
    now apply L.
  - rewrite (insertOne_without_id host this (VObj (next_addr s1) newDoc)
               (advance s1 1) eq_refl T).
    unfold ret. eexists _, _, _. split; [reflexivity|].
    rewrite docs_of_with_documents, D1. split; [reflexivity|].
    repeat split.
    + unfold own_field. simpl. now rewrite lookup_set_property.
    + simpl. rewrite <- P. unfold has_own. now rewrite own_property_set_property.
    + intros key Hk Hp. unfold own_field. simpl.
      rewrite lookup_set_property.
      destruct (String.eqb_spec key "_id"); [contradiction | now apply L].
Qed.

Lemma updateOne_upserts_witness :
  exists r s' new,
    updateOne sample_host 0 (Spec.filter1 9 "name" (VStr "David"))
              (VObj 10 [("$set", VObj 11 [("age", VNum 28)])])
              (VObj 12 [("upsert", VBool true)]) three_users = Done r s'
    /\ docs_of s' 0 = docs_of three_users 0 ++ [new]
    /\ matchedCount r = Some 0 /\ modifiedCount r = Some 0
    /\ upsertedCount r = Some 1
    /\ upsertedId r = Some (own_field new "_id")
    /\ has_own "__proto__" (QueryBuilder.doc_fields new)
       = has_key (Spec.filter1 9 "name" (VStr "David")) "__proto__"
    /\ forall key,
         key <> "_id" -> key <> "__proto__" ->
         own_field new key =
         if ToBoolean (Get (VObj 10 [("$set", VObj 11 [("age", VNum 28)])]) "$set")
            && has_key (Get (VObj 10 [("$set", VObj 11 [("age", VNum 28)])]) "$set") key
         then Get (Get (VObj 10 [("$set", VObj 11 [("age", VNum 28)])]) "$set") key
         else Get (Spec.filter1 9 "name" (VStr "David")) key.
Proof.
  apply (updateOne_upserts sample_host 0 (Spec.filter1 9 "name" (VStr "David"))
           (VObj 10 [("$set", VObj 11 [("age", VNum 28)])])
           (VObj 12 [("upsert", VBool true)]) three_users).
  - reflexivity.
  - exact (proj1 no_david).
  - exact (proj2 no_david).
  - discriminate.
  - reflexivity.
Defined.


Lemma filter_nothing {A : Type} (p : A -> bool) (xs : list A) :
  Forall (fun x => p x = false) xs -> List.filter p xs = [].
Proof.
  intros F. induction F as [|x xs Px F IH]; simpl; [reflexivity|].
  now rewrite Px.
Qed.

(** [updateOne] when a document matches, in a collection with unique
    identifiers: the first match is rewritten in place. *)
Lemma updateOne_on_match (host : Host) (this : nat) (filter update options : value)
    (s : state) (pre post : list QueryBuilder.document) (m : QueryBuilder.document) :
  is_object update = true ->
  unique_ids (docs_of s this) ->
  query_returns host filter (docs_of s this) ->
  docs_of s this = pre ++ m :: post ->
  Forall (fun x => matches host filter x = false) pre ->
  matches host filter m = true ->
  exists s',
    updateOne host this filter update options s
    = Done (updated 1 (if snd (applied update (QueryBuilder.doc_fields m))
                       then 1 else 0)) s'
    /\ docs_of s' this
       = pre ++ QueryBuilder.Doc (QueryBuilder.doc_addr m)
                  (fst (applied update (QueryBuilder.doc_fields m))) :: post.
Proof.
  intros H U Q Hd Fpre Pm.
  destruct (default_object_options options s) as [o' [k [D _]]].
  destruct (findOne_spec host this filter (advance s k)) as [n E].
  change (docs_of (advance s k) this) with (docs_of s this) in E.
  rewrite (run_matchAll_returns host _ _ Q) in E.
  assert (Fm : List.filter (matches host filter) (docs_of s this)
               = m :: List.filter (matches host filter) post).
  { rewrite Hd, filter_app. simpl. rewrite Pm.
    now rewrite (filter_nothing _ _ Fpre). }
  rewrite Fm in E. simpl in E.
  rewrite Hd in U. destruct (unique_ids_split pre post m U) as [Fid Hid].
  unfold updateOne, bind at 1. rewrite D.
  unfold is_object in H. rewrite <- negb_andb, H. cbn [negb].
  unfold bind at 1. rewrite E.
  unfold bind at 1. unfold get_documents at 1.
  match goal with
  | |- context [documents (collection_at ?st this)] =>
      change (documents (collection_at st this)) with (docs_of s this)
  end.
  rewrite Hd.
  assert (I : forall a,
            findIndex
              (fun doc => same_id doc
                 (QueryBuilder.Doc a (QueryBuilder.doc_fields m)))
              (pre ++ m :: post) = Some (List.length pre)).
  { intros a. apply findIndex_at_split.
    - eapply Forall_impl; [|exact Fid]. intros y Hy. exact Hy.
    - exact Hid. }
  rewrite I, nth_error_at_split.
  unfold applied.
  destruct (ToBoolean (Get update "$set")), (ToBoolean (Get update "$unset"));
    try destruct (unset_all _ _ _) as [fields modified] eqn:Un;
    unfold bind, set_documents, ret; cbn [fst snd];
    (eexists; split; [reflexivity|]);
    unfold docs_of; cbn [collection_at]; rewrite Nat.eqb_refl; cbn [documents];
    now rewrite store_at_split.
Qed.


Lemma has_own_delete_property {A : Type} (key k : string) (props : list (string * A)) :
  has_own k (delete_property key props) = negb (k =? key) && has_own k props.
Proof.
  unfold has_own. rewrite own_property_delete_property.
  now destruct (k =? key).
Qed.

(** The fields left by the loop over [$unset]. *)
Lemma unset_all_fields (keys : list string) (fields : list (string * value))
    (modified : bool) (k : string) :
  own_property k (fst (unset_all keys fields modified)) =
  if existsb (String.eqb k) keys then None else own_property k fields.
Proof.
  revert fields modified. induction keys as [|key keys IH]; intros fields modified;
    simpl; [reflexivity|].
  destruct (has_property key fields) eqn:Ho; rewrite IH.
  - rewrite own_property_delete_property.
    destruct (String.eqb_spec k key); simpl;
      now destruct (existsb (String.eqb k) keys).
  - destruct (String.eqb_spec k key) as [->|N]; simpl; [|reflexivity].
    apply orb_false_iff in Ho as [Ho _]. unfold has_own in Ho. destruct (own_property key fields); [discriminate|].
    now destruct (existsb (String.eqb key) keys).
Qed.

(** Whether the loop over [$unset] sets the flag. *)
Lemma unset_all_modified (keys : list string) (fields : list (string * value))
    (modified : bool) :
  snd (unset_all keys fields modified) =
  modified || existsb (fun key => has_property key fields) keys.
Proof.
  revert fields modified. induction keys as [|key keys IH]; intros fields modified;
    simpl; [now rewrite orb_false_r|].
  destruct (has_property key fields) eqn:Ho; rewrite IH; simpl.
  - now rewrite orb_true_r.
  - reflexivity.
Qed.

(** X12.  [$set] on a match, in a collection with unique identifiers:
    [updateOne] rewrites the first matching document in place, at the
    same position and as the same object.  Every key of [$set] other
    than [__proto__] then reads as its [$set] value and every other
    field as before; the response counts one match and one
    modification, whether or not a value changed, and whatever the
    options are. *)
Theorem updateOne_sets (host : Host) (this : nat) (filter update options : value)
    (s : state) (pre post : list QueryBuilder.document) (m : QueryBuilder.document) :
  is_object update = true ->
  unique_ids (docs_of s this) ->
  query_returns host filter (docs_of s this) ->
  docs_of s this = pre ++ m :: post ->
  Forall (fun x => matches host filter x = false) pre ->
  matches host filter m = true ->
  ToBoolean (Get update "$set") = true ->
  ToBoolean (Get update "$unset") = false ->
  exists s' m',
    updateOne host this filter update options s = Done (updated 1 1) s'
    /\ docs_of s' this = pre ++ m' :: post
    /\ QueryBuilder.doc_addr m' = QueryBuilder.doc_addr m
    /\ forall key,
         key <> "__proto__" ->
         own_field m' key =
         if has_key (Get update "$set") key
         then Get (Get update "$set") key
         else own_field m key.
Proof.
  intros H U Q Hd Fpre Pm Hset Hunset.
  destruct (updateOne_on_match host this filter update options s pre post m
              H U Q Hd Fpre Pm) as [s' [E D]].
  unfold applied in E, D. rewrite Hset, Hunset in E, D. simpl in E, D.
  eexists s', _. split; [exact E|]. split; [exact D|]. split; [reflexivity|].
  intros key Hk. unfold own_field. simpl. now apply lookup_Object_assign.
Qed.

Lemma alice_first :
  query_returns sample_host (Spec.filter1 9 "name" (VStr "Alice")) (docs_of three_users 0)
  /\ docs_of three_users 0 = [] ++ stored_alice :: [stored_bob; stored_charlie]
  /\ Forall (fun x => matches sample_host (Spec.filter1 9 "name" (VStr "Alice")) x = false) []
  /\ matches sample_host (Spec.filter1 9 "name" (VStr "Alice")) stored_alice = true.
Proof.
  split; [|now repeat split]. unfold query_returns, docs_of. simpl.
  repeat constructor; eexists; reflexivity.
Defined.

Lemma updateOne_sets_witness :
  exists s' m',
    updateOne sample_host 0 (Spec.filter1 9 "name" (VStr "Alice"))
              (VObj 10 [("$set", VObj 11 [("age", VNum 31); ("city", VStr "Boston")])])
              VUndefined three_users = Done (updated 1 1) s'
    /\ docs_of s' 0 = [] ++ m' :: [stored_bob; stored_charlie]
    /\ QueryBuilder.doc_addr m' = QueryBuilder.doc_addr stored_alice
    /\ forall key,
         key <> "__proto__" ->
         own_field m' key =
         if has_key (Get (VObj 10 [("$set", VObj 11 [("age", VNum 31);
                                                     ("city", VStr "Boston")])]) "$set") key
         then Get (Get (VObj 10 [("$set", VObj 11 [("age", VNum 31);
                                                   ("city", VStr "Boston")])]) "$set") key
         else own_field stored_alice key.
Proof.
  apply (updateOne_sets sample_host 0 (Spec.filter1 9 "name" (VStr "Alice"))
           (VObj 10 [("$set", VObj 11 [("age", VNum 31); ("city", VStr "Boston")])])
           VUndefined three_users [] [stored_bob; stored_charlie] stored_alice).
  - reflexivity.
  - exact three_users_unique.
  - exact (proj1 alice_first).
  - reflexivity.
  - constructor.
  - reflexivity.
  - reflexivity.
  - reflexivity.
Defined.

(** X13.  [$unset] on a match, in a collection with unique identifiers
    and without [$set]: the keys of [$unset] are deleted from the first
    matching document, whatever their values in [$unset], and the other
    fields stay.  The response counts the document as modified exactly
    when one of those keys is in the document, as an own property or as
    a member inherited from [Object.prototype]: unsetting [toString]
    counts as a modification of any document. *)
Theorem updateOne_unsets (host : Host) (this : nat) (filter update options : value)
    (s : state) (pre post : list QueryBuilder.document) (m : QueryBuilder.document) :
  is_object update = true ->
  unique_ids (docs_of s this) ->
  query_returns host filter (docs_of s this) ->
  docs_of s this = pre ++ m :: post ->
  Forall (fun x => matches host filter x = false) pre ->
  matches host filter m = true ->
  ToBoolean (Get update "$set") = false ->
  ToBoolean (Get update "$unset") = true ->
  exists r s' m',
    updateOne host this filter update options s = Done r s'
    /\ matchedCount r = Some 1
    /\ modifiedCount r
       = Some (if existsb (fun key => has_property key (QueryBuilder.doc_fields m))
                          (Object_keys (Get update "$unset"))
               then 1 else 0)
    /\ docs_of s' this = pre ++ m' :: post
    /\ QueryBuilder.doc_addr m' = QueryBuilder.doc_addr m
    /\ forall key,
         own_property key (QueryBuilder.doc_fields m') =
         if has_key (Get update "$unset") key
         then None
         else own_property key (QueryBuilder.doc_fields m).
Proof.
  intros H U Q Hd Fpre Pm Hset Hunset.
  destruct (updateOne_on_match host this filter update options s pre post m
              H U Q Hd Fpre Pm) as [s' [E D]].
  unfold applied in E, D. rewrite Hset, Hunset in E, D.
  rewrite unset_all_modified in E. simpl in E.
  eexists _, s', _. split; [exact E|]. split; [reflexivity|].
  split; [reflexivity|]. split; [exact D|]. split; [reflexivity|].
  intros key. simpl. apply unset_all_fields.
Qed.

Lemma updateOne_unsets_witness :
  exists r s' m',
    updateOne sample_host 0 (Spec.filter1 9 "name" (VStr "Alice"))
              (VObj 10 [("$unset", VObj 11 [("age", VNum 1)])])
              VUndefined three_users = Done r s'
    /\ matchedCount r = Some 1
    /\ modifiedCount r
       = Some (if existsb (fun key => has_property key (QueryBuilder.doc_fields stored_alice))
                          (Object_keys (Get (VObj 10 [("$unset", VObj 11 [("age", VNum 1)])])
                                            "$unset"))
               then 1 else 0)
    /\ docs_of s' 0 = [] ++ m' :: [stored_bob; stored_charlie]
    /\ QueryBuilder.doc_addr m' = QueryBuilder.doc_addr stored_alice
    /\ forall key,
         own_property key (QueryBuilder.doc_fields m') =
         if has_key (Get (VObj 10 [("$unset", VObj 11 [("age", VNum 1)])]) "$unset") key
         then None
         else own_property key (QueryBuilder.doc_fields stored_alice).
Proof.
  apply (updateOne_unsets sample_host 0 (Spec.filter1 9 "name" (VStr "Alice"))
           (VObj 10 [("$unset", VObj 11 [("age", VNum 1)])])
           VUndefined three_users [] [stored_bob; stored_charlie] stored_alice).
  - reflexivity.
  - exact three_users_unique.
  - exact (proj1 alice_first).
  - reflexivity.
  - constructor.
  - reflexivity.
  - reflexivity.
  - reflexivity.
Defined.


(** ** Isolation *)

Lemma only_touches_bind {A B : Type} (this : nat) (m : M A) (f : A -> M B) :
  only_touches this m -> (forall a, only_touches this (f a)) ->
  only_touches this (bind m f).
Proof.
  intros Hm Hf s c Hc. unfold bind. specialize (Hm s c Hc).
  destruct (m s) as [a s'|e s']; simpl in Hm |- *; [|exact Hm].
  now rewrite (Hf a s' c Hc).
Qed.

Lemma only_touches_ret {A : Type} (this : nat) (a : A) : only_touches this (ret a).
Proof. now intros s c Hc. Qed.

Lemma only_touches_throw {A : Type} (this : nat) (e : thrown) :
  only_touches this (@throw A e).
Proof. now intros s c Hc. Qed.

Lemma only_touches_alloc (this : nat) : only_touches this alloc.
Proof. now intros s c Hc. Qed.

Lemma only_touches_get_documents (this c : nat) :
  only_touches this (get_documents c).
Proof. now intros s c' Hc. Qed.

Lemma only_touches_set_documents (this : nat) (docs : list QueryBuilder.document) :
  only_touches this (set_documents this docs).
Proof.
  intros s c Hc. simpl. apply Nat.eqb_neq in Hc. now rewrite Hc.
Qed.

Lemma only_touches_query {A : Type} (host : Host) (this : nat) (c : Eval.eval A) :
  only_touches this (query host c).
Proof.
  intros s c' Hc. unfold query. now destruct (Eval.run (regexp host) c).
Qed.

Lemma only_touches_random (host : Host) (this : nat) :
  only_touches this (Math_random_base36 host).
Proof. now intros s c Hc. Qed.

Lemma only_touches_default_object (this : nat) (v : value) :
  only_touches this (default_object v).
Proof. intros s c Hc. now destruct v. Qed.

Lemma only_touches_get_property (this : nat) (o : value) (key : string) :
  only_touches this (get_property o key).
Proof. intros s c Hc. now destruct o. Qed.

Lemma only_touches_copies (this : nat) (docs : list QueryBuilder.document) :
  only_touches this (copies docs).
Proof. intros s c Hc. now rewrite copies_spec. Qed.

Ltac touches :=
  repeat first
    [ apply only_touches_ret
    | apply only_touches_throw
    | apply only_touches_alloc
    | apply only_touches_get_documents
    | apply only_touches_set_documents
    | apply only_touches_query
    | apply only_touches_random
    | apply only_touches_default_object
    | apply only_touches_get_property
    | apply only_touches_copies
    | assumption
    | apply only_touches_bind; [|intros]
    | match goal with
      | |- only_touches _ (if ?b then _ else _) => destruct b
      | |- only_touches _ (match ?x with _ => _ end) => destruct x
      end ].

Lemma only_touches_insertOne (host : Host) (this : nat) (d : value) :
  only_touches this (insertOne host this d).
Proof. unfold insertOne, _generateId. touches. Qed.

Lemma only_touches_find (host : Host) (this : nat) (q : value) :
  only_touches this (find host this q).
Proof. unfold find. touches. Qed.

Lemma only_touches_findOne (host : Host) (this : nat) (q : value) :
  only_touches this (findOne host this q).
Proof.
  unfold findOne. pose proof (only_touches_find host this) as F.
  apply only_touches_bind; [touches|]. intros q'.
  apply only_touches_bind; [apply F|]. intros. touches.
Qed.

(** X14.  The collections are isolated from one another: [insertOne],
    [find], [findOne], [deleteOne], [updateOne] and [clear] called on one
    collection leave every other collection object as it was, whether
    they return or throw. *)
Theorem collections_are_isolated (host : Host) (this : nat) :
  (forall d, only_touches this (insertOne host this d))
  /\ (forall q, only_touches this (find host this q))
  /\ (forall q, only_touches this (findOne host this q))
  /\ (forall q, only_touches this (deleteOne host this q))
  /\ (forall filter update options,
        only_touches this (updateOne host this filter update options))
  /\ only_touches this (clear this).
Proof.
  split; [exact (only_touches_insertOne host this)|].
  split; [exact (only_touches_find host this)|].
  split; [exact (only_touches_findOne host this)|].
  split; [|split].
  - intros q. unfold deleteOne. touches.
  - intros filter update options. unfold updateOne.
    pose proof (only_touches_findOne host this filter) as F.
    pose proof (only_touches_insertOne host this) as I.
    apply only_touches_bind; [touches|]. intros o.
    destruct (negb (ToBoolean update) || negb (type_tag_eqb (typeof update) TObject));
      [touches|].
    apply only_touches_bind; [exact F|]. intros [existing|].
    + clear F I. touches.
    + apply only_touches_bind; [touches|]. intros upsert.
      destruct (ToBoolean upsert); [|touches].
      apply only_touches_bind; [touches|]. intros addr.
      apply only_touches_bind; [apply I|]. intros. touches.
  - unfold clear. touches.
Qed.

(** ** Exceptions of the query engine *)

(** X15.  What the query engine throws, the [SyntaxError] of a
    malformed [$regex] pattern or the [TypeError] of a conversion, comes
    out of [find], [findOne], [deleteOne] and [updateOne] unchanged, and
    no collection is changed. *)
Theorem engine_exceptions_propagate (host : Host) (this : nat) (q : value)
    (s : state) (e : Eval.exn) :
  Eval.run (regexp host) (QueryBuilder.matchAll (docs_of s this) q) = Eval.Throws e ->
  (exists s', find host this q s = Failed (Raised e) s'
              /\ collection_at s' = collection_at s)
  /\ (exists s', findOne host this q s = Failed (Raised e) s'
                 /\ collection_at s' = collection_at s)
  /\ (exists s', deleteOne host this q s = Failed (Raised e) s'
                 /\ collection_at s' = collection_at s)
  /\ (forall update options,
        is_object update = true ->
        exists s', updateOne host this q update options s = Failed (Raised e) s'
                   /\ collection_at s' = collection_at s).
Proof.
  intros T.
  assert (Hq : q <> VUndefined) by (intros ->; discriminate T).
  split; [|split; [|split]].
  - rewrite find_given, T by assumption. now eexists.
  - destruct (findOne_spec host this q s) as [n E]. rewrite T in E.
    rewrite E. now eexists.
  - destruct (deleteOne_spec host this q s) as [n E]. rewrite T in E.
    rewrite E. now eexists.
  - intros update options H.
    destruct (default_object_options options s) as [o' [k [D _]]].
    destruct (findOne_spec host this q (advance s k)) as [n E].
    change (docs_of (advance s k) this) with (docs_of s this) in E.
    rewrite T in E.
    unfold updateOne, bind at 1. rewrite D.
    unfold is_object in H. rewrite <- negb_andb, H. cbn [negb].
    unfold bind at 1. rewrite E. now eexists.
Qed.

Lemma engine_exceptions_propagate_witness :
  (exists s', find sample_host 0 (Spec.filter1 9 "name" (Spec.operator1 10 "$regex" (VStr "(")))
                   three_users = Failed (Raised Eval.SyntaxError) s'
              /\ collection_at s' = collection_at three_users)
  /\ (exists s', findOne sample_host 0
                   (Spec.filter1 9 "name" (Spec.operator1 10 "$regex" (VStr "(")))
                   three_users = Failed (Raised Eval.SyntaxError) s'
                 /\ collection_at s' = collection_at three_users)
  /\ (exists s', deleteOne sample_host 0
                   (Spec.filter1 9 "name" (Spec.operator1 10 "$regex" (VStr "(")))
                   three_users = Failed (Raised Eval.SyntaxError) s'
                 /\ collection_at s' = collection_at three_users)
  /\ (forall update options,
        is_object update = true ->
        exists s', updateOne sample_host 0
                     (Spec.filter1 9 "name" (Spec.operator1 10 "$regex" (VStr "(")))
                     update options three_users = Failed (Raised Eval.SyntaxError) s'
                   /\ collection_at s' = collection_at three_users).
Proof.
  apply (engine_exceptions_propagate sample_host 0
           (Spec.filter1 9 "name" (Spec.operator1 10 "$regex" (VStr "(")))
           three_users Eval.SyntaxError).
  reflexivity.
Defined.


End StoreProperties.

(** * Properties of the database *)

Module DatabaseProperties.
Import JS MockCollection MockDatabase StoreSpec StoreProperties.

#[local] Arguments typeof : simpl nomatch.

(** ** Names *)

Lemma trim_start_nil (l : list ascii) :
  trim_start l = [] <-> forallb is_StrWhiteSpaceChar l = true.
Proof.
  induction l as [|c l IH]; simpl; [tauto|].
  destruct (is_StrWhiteSpaceChar c); simpl; [exact IH|].
  split; discriminate.
Qed.

Lemma trim_start_head (l r : list ascii) (c : ascii) :
  trim_start l = c :: r -> is_StrWhiteSpaceChar c = false.
Proof.
  induction l as [|c0 l IH]; simpl; [discriminate|].
  destruct (is_StrWhiteSpaceChar c0) eqn:W; [exact IH|].
  intros H. injection H as <- _. exact W.
Qed.

Lemma trim_nil (l : list ascii) :
  trim l = [] <-> forallb is_StrWhiteSpaceChar l = true.
Proof.
  unfold trim. split.
  - intros H. apply (f_equal (@rev ascii)) in H. rewrite rev_involutive in H.
    simpl in H. apply trim_start_nil in H.
    destruct (trim_start l) as [|c r] eqn:T; [now apply trim_start_nil|].
    apply trim_start_head in T.
    rewrite forallb_forall in H. specialize (H c).
    rewrite <- in_rev in H. rewrite H in T; [discriminate | now left].
  - intros H. apply trim_start_nil in H. now rewrite H.
Qed.

Lemma String_trim_empty (str : string) :
  (String_trim str =? "") = blank str.
Proof.
  unfold String_trim, blank.
  destruct (forallb is_StrWhiteSpaceChar (list_ascii_of_string str)) eqn:B.
  - apply trim_nil in B. now rewrite B.
  - destruct (trim (list_ascii_of_string str)) as [|c r] eqn:T; [|reflexivity].
    apply trim_nil in T. congruence.
Qed.

(** ** Entries *)

Lemma inherited_proto : inherited "__proto__" = true.
Proof. reflexivity. Qed.

Lemma assign_property_plain {A : Type} (key : string) (v : A)
    (props : list (string * A)) :
  inherited key = false -> assign_property key v props = set_property key v props.
Proof.
  intros H. unfold assign_property.
  destruct (String.eqb_spec key "__proto__") as [->|N]; [|reflexivity].
  rewrite inherited_proto in H. discriminate H.
Qed.

Lemma Get_entry_None (db : MockDatabase) (key : string) :
  Get_entry db key = None <->
  own_property key (collections db) = None /\ inherited key = false.
Proof.
  unfold Get_entry.
  destruct (own_property key (collections db)), (inherited key);
    split; try discriminate; try tauto; intros [? ?]; discriminate.
Qed.

Lemma Get_entry_has_property (db : MockDatabase) (key : string) :
  has_property key (collections db) =
  match Get_entry db key with
  | Some _ => true
  | None => false
  end.
Proof.
  unfold has_property, has_own, Get_entry.
  now destruct (own_property key (collections db)), (inherited key).
Qed.

Lemma delete_property_absent {A : Type} (key : string) (props : list (string * A)) :
  own_property key props = None -> delete_property key props = props.
Proof.
  unfold delete_property. induction props as [|[k v] rest IH]; simpl; [reflexivity|].
  destruct (k =? key); simpl; [discriminate|]. intros H. now rewrite IH.
Qed.

(** [collection] on a name that passes the check. *)
Lemma collection_valid (db : MockDatabase) (str : string) (s : state) :
  blank str = false ->
  collection db (VStr str) s =
  match Get_entry db str with
  | Some existing => Done (existing, db) s
  | None =>
      Done (Instance (next_addr s),
            {| collections := set_property str (next_addr s) (collections db) |})
           {| collection_at := fun a =>
                if Nat.eqb a (next_addr s) then {| name := VStr str; documents := [] |}
                else collection_at s a;
              next_addr := S (next_addr s);
              drawn := drawn s |}
  end.
Proof.
  intros B. unfold collection. rewrite String_trim_empty, B.
  destruct (Get_entry db str) eqn:G; [reflexivity|].
  apply Get_entry_None in G as [_ G].
  unfold bind, MockCollection.constructor, bind, alloc, ret. simpl.
  now rewrite assign_property_plain.
Qed.

Lemma collection_invalid (db : MockDatabase) (name_ : value) (s : state) :
  match name_ with
  | VStr str => blank str = true
  | _ => True
  end ->
  collection db name_ s
  = Failed (Error "Collection name must be a non-empty string") s.
Proof.
  destruct name_ as [| |b|n|str|addr elems|addr props]; try reflexivity.
  intros B. unfold collection. now rewrite String_trim_empty, B.
Qed.

(** X16.  [collection] throws
    [Error('Collection name must be a non-empty string')], and changes
    nothing, exactly when the name is not a string or is a string made
    of white space only, the empty string included.  For the name of a
    member of [Object.prototype] that the database does not hold, such
    as [constructor] or [toString], it returns that member, which is not
    a collection, and creates nothing.  For any other name it returns a
    collection. *)
Theorem collection_validates_name (db : MockDatabase) (name_ : value) (s : state) :
  match name_ with
  | VStr str =>
      if blank str then
        collection db name_ s
        = Failed (Error "Collection name must be a non-empty string") s
      else if inherited str && negb (has_own str (collections db)) then
        collection db name_ s = Done (Inherited str, db) s
      else
        exists c db' s', collection db name_ s = Done (Instance c, db') s'
  | _ =>
      collection db name_ s
      = Failed (Error "Collection name must be a non-empty string") s
  end.
Proof.
  destruct name_ as [| |b|n|str|addr elems|addr props];
    try (now apply collection_invalid).
  destruct (blank str) eqn:B.
  - now apply collection_invalid.
  - rewrite (collection_valid db str s B). unfold Get_entry, has_own.
    destruct (own_property str (collections db)); simpl.
    + rewrite andb_false_r. now eexists _, _, _.
    + rewrite andb_true_r. destruct (inherited str); [reflexivity|].
      now eexists _, _, _.
Qed.

(** X17.  [collection] gets or creates: once it has returned for a
    name, [hasCollection] holds of that name, and asking again returns
    the same object without changing the database or the heap. *)
Theorem collection_same_instance (db db' : MockDatabase) (name_ : value)
    (s s' : state) (e : entry) :
  collection db name_ s = Done (e, db') s' ->
  collection db' name_ s' = Done (e, db') s'
  /\ hasCollection db' name_ = Eval.Returns true.
Proof.
  intros H.
  destruct name_ as [| |b|n|str|addr elems|addr props];
    try (rewrite collection_invalid in H by exact I; discriminate H).
  destruct (blank str) eqn:B;
    [rewrite collection_invalid in H by exact B; discriminate H|].
  rewrite (collection_valid db str s B) in H.
  rewrite (collection_valid db' str s' B). unfold hasCollection.
  cbn [ToString]. rewrite Get_entry_has_property.
  destruct (Get_entry db str) as [existing|] eqn:G.
  - injection H as <- <- <-. now rewrite G.
  - injection H as <- <- <-. unfold Get_entry. simpl.
    rewrite own_property_set_property, String.eqb_refl. now split.
Qed.

Lemma collection_same_instance_witness :
  collection {| collections := set_property "users" 1 (collections constructor) |}
             (VStr "users")
             {| collection_at := fun a =>
                  if Nat.eqb a 1 then {| name := VStr "users"; documents := [] |}
                  else collection_at sample_state a;
                next_addr := 2;
                drawn := 0 |}
  = Done (Instance 1,
          {| collections := set_property "users" 1 (collections constructor) |})
         {| collection_at := fun a =>
              if Nat.eqb a 1 then {| name := VStr "users"; documents := [] |}
              else collection_at sample_state a;
            next_addr := 2;
            drawn := 0 |}
  /\ hasCollection {| collections := set_property "users" 1 (collections constructor) |}
                   (VStr "users") = Eval.Returns true.
Proof.
  apply (collection_same_instance constructor _ (VStr "users") sample_state).
  reflexivity.
Defined.

(** X18.  For a valid name that is not in the database, [collection]
    creates an empty collection of that name at a fresh address, leaves
    every other collection object and every other name as they were,
    and, unless the name is an array index, lists the name after the
    existing ones. *)
Theorem collection_creates (db : MockDatabase) (str : string) (s : state) :
  blank str = false ->
  hasCollection db (VStr str) = Eval.Returns false ->
  exists db' s',
    collection db (VStr str) s = Done (Instance (next_addr s), db') s'
    /\ docs_of s' (next_addr s) = []
    /\ name (collection_at s' (next_addr s)) = VStr str
    /\ (forall c, c <> next_addr s -> collection_at s' c = collection_at s c)
    /\ own_property str (collections db') = Some (next_addr s)
    /\ (forall n, n <> str ->
          own_property n (collections db') = own_property n (collections db))
    /\ (array_index str = None ->
        listCollections db' = listCollections db ++ [str]).
Proof.
  intros B Hn. rewrite (collection_valid db str s B).
  unfold hasCollection in Hn. cbn [ToString] in Hn.
  rewrite Get_entry_has_property in Hn.
  destruct (Get_entry db str) eqn:G; [discriminate|].
  apply Get_entry_None in G as [O _].
  eexists _, _. split; [reflexivity|]. unfold docs_of. simpl.
  rewrite Nat.eqb_refl. simpl. repeat split.
  - intros c Hc. apply Nat.eqb_neq in Hc. now rewrite Hc.
  - rewrite own_property_set_property. now rewrite String.eqb_refl.
  - intros n Hne. rewrite own_property_set_property.
    now destruct (String.eqb_spec n str).
  - intros A. unfold listCollections, set_property, has_own. simpl.
    rewrite O, A, map_app. reflexivity.
Qed.

Lemma collection_creates_witness :
  exists db' s',
    collection constructor (VStr "users") sample_state
    = Done (Instance (next_addr sample_state), db') s'
    /\ docs_of s' (next_addr sample_state) = []
    /\ name (collection_at s' (next_addr sample_state)) = VStr "users"
    /\ (forall c, c <> next_addr sample_state ->
          collection_at s' c = collection_at sample_state c)
    /\ own_property "users" (collections db') = Some (next_addr sample_state)
    /\ (forall n, n <> "users" ->
          own_property n (collections db') = own_property n (collections constructor))
    /\ (array_index "users" = None ->
        listCollections db' = listCollections constructor ++ ["users"]).
Proof.
  apply (collection_creates constructor "users" sample_state); reflexivity.
Defined.

(** What [dropCollection] returns for a name that converts to [key]. *)
Lemma dropCollection_key (db : MockDatabase) (name_ : value) (key : string) :
  ToString name_ = Some key ->
  dropCollection db name_ =
  Eval.Returns
    (has_property key (collections db),
     if has_property key (collections db)
     then {| collections := delete_property key (collections db) |}
     else db).
Proof.
  intros K. unfold dropCollection. rewrite K, Get_entry_has_property.
  now destruct (Get_entry db key).
Qed.

(** X19.  [dropCollection] and [hasCollection] use the name as a
    property key: for a name without conversion to a string both throw
    a [TypeError].  Otherwise [dropCollection] returns what
    [hasCollection] returns: whether the key is in the object
    [collections], as a name of the database or as the name of a member
    of [Object.prototype].  Afterwards the key is not listed, every
    other name maps to the collection it mapped to, and dropping a name
    that was not listed changes nothing. *)
Theorem dropCollection_drops (db : MockDatabase) (name_ : value) :
  match ToString name_ with
  | None =>
      dropCollection db name_ = Eval.Throws Eval.TypeError
      /\ hasCollection db name_ = Eval.Throws Eval.TypeError
  | Some key =>
      exists b db',
        dropCollection db name_ = Eval.Returns (b, db')
        /\ hasCollection db name_ = Eval.Returns b
        /\ ~ In key (listCollections db')
        /\ (forall n, n <> key ->
              own_property n (collections db') = own_property n (collections db))
        /\ (~ In key (listCollections db) -> db' = db)
  end.
Proof.
  destruct (ToString name_) as [key|] eqn:K.
  - rewrite (dropCollection_key db name_ key K).
    unfold hasCollection, listCollections. rewrite K.
    eexists _, _. split; [reflexivity|]. split; [reflexivity|].
    destruct (has_property key (collections db)) eqn:P.
    + cbn [collections]. split; [|split].
      * rewrite <- has_own_In, has_own_delete_property, String.eqb_refl.
        discriminate.
      * intros n Hn. rewrite own_property_delete_property.
        now destruct (String.eqb_spec n key).
      * intros Hn. rewrite <- has_own_In in Hn. unfold has_own in Hn.
        destruct (own_property key (collections db)) eqn:O;
          [now contradiction Hn|].
        rewrite (delete_property_absent _ _ O). now destruct db.
    + apply orb_false_iff in P as [P _]. split; [|now split].
      rewrite <- has_own_In. congruence.
  - unfold dropCollection, hasCollection. now rewrite K.
Qed.

(** X20.  A dropped collection is detached, not emptied: after
    [dropCollection], [collection] under the same name creates a new,
    empty collection object, and the old object still holds its
    documents. *)
Theorem drop_then_collection (db : MockDatabase) (str : string) (s : state)
    (old : nat) :
  blank str = false ->
  inherited str = false ->
  own_property str (collections db) = Some old ->
  old < next_addr s ->
  exists db1 c db' s',
    dropCollection db (VStr str) = Eval.Returns (true, db1)
    /\ collection db1 (VStr str) s = Done (Instance c, db') s'
    /\ c <> old
    /\ docs_of s' c = []
    /\ docs_of s' old = docs_of s old.
Proof.
  intros B Hi O Hlt.
  rewrite (dropCollection_key db (VStr str) str eq_refl).
  assert (P : has_property str (collections db) = true)
    by (unfold has_property, has_own; now rewrite O).
  rewrite P.
  exists {| collections := delete_property str (collections db) |}.
  rewrite (collection_valid _ str s B).
  unfold Get_entry. cbn [collections].
  rewrite own_property_delete_property, String.eqb_refl, Hi.
  eexists _, _, _. split; [reflexivity|]. split; [reflexivity|].
  unfold docs_of. simpl.
  rewrite Nat.eqb_refl. split; [lia|]. split; [reflexivity|].
  assert (N : Nat.eqb old (next_addr s) = false) by (apply Nat.eqb_neq; lia).
  now rewrite N.
Qed.

Lemma drop_then_collection_witness :
  exists db1 c db' s',
    dropCollection {| collections := [("users", 0)] |} (VStr "users")
    = Eval.Returns (true, db1)
    /\ collection db1 (VStr "users") three_users = Done (Instance c, db') s'
    /\ c <> 0
    /\ docs_of s' c = []
    /\ docs_of s' 0 = docs_of three_users 0.
Proof.
  apply (drop_then_collection {| collections := [("users", 0)] |} "users"
           three_users 0).
  - reflexivity.
  - reflexivity.
  - reflexivity.
  - simpl. lia.
Defined.


(** ** Distinct names *)

Lemma own_property_None_In {A : Type} (key : string) (props : list (string * A)) :
  own_property key props = None <-> ~ In key (map fst props).
Proof.
  rewrite <- has_own_In. unfold has_own.
  destruct (own_property key props); split; congruence.
Qed.

Lemma NoDup_replace_value {A : Type} (key : string) (v : A)
    (props : list (string * A)) :
  map fst (replace_value key v props) = map fst props.
Proof.
  induction props as [|[k w] rest IH]; simpl; [reflexivity|].
  destruct (String.eqb_spec k key) as [->|N]; simpl; [reflexivity|].
  now rewrite IH.
Qed.

Lemma In_insert_index {A : Type} (i : Z) (key k : string) (v : A)
    (props : list (string * A)) :
  In k (map fst (insert_index i key v props)) <-> k = key \/ In k (map fst props).
Proof.
  induction props as [|[k0 w] rest IH]; simpl.
  - split; intros [H|H]; auto.
  - destruct (array_index k0) as [j|]; [destruct (j <? i)%Z|]; simpl;
      rewrite ?IH; intuition auto.
Qed.

Lemma NoDup_insert_index {A : Type} (i : Z) (key : string) (v : A)
    (props : list (string * A)) :
  ~ In key (map fst props) -> NoDup (map fst props) ->
  NoDup (map fst (insert_index i key v props)).
Proof.
  induction props as [|[k0 w] rest IH]; simpl; intros Hn Hd.
  - constructor; [intros [] | constructor].
  - assert (Hcons : NoDup (key :: k0 :: map fst rest))
      by (constructor; [exact Hn | exact Hd]).
    destruct (array_index k0) as [j|]; [destruct (j <? i)%Z|]; simpl;
      try exact Hcons.
    inversion Hd as [|? ? Hk0 Hrest]; subst.
    constructor.
    + rewrite In_insert_index. intros [->|H]; [apply Hn; now left | contradiction].
    + apply IH; [|exact Hrest]. intros H. apply Hn. now right.
Qed.

Lemma NoDup_set_property {A : Type} (key : string) (v : A)
    (props : list (string * A)) :
  NoDup (map fst props) -> NoDup (map fst (set_property key v props)).
Proof.
  intros Hd. unfold set_property. destruct (has_own key props) eqn:Ho.
  - now rewrite NoDup_replace_value.
  - assert (Hn : ~ In key (map fst props)).
    { rewrite <- has_own_In. congruence. }
    destruct (array_index key) as [i|].
    + now apply NoDup_insert_index.
    + rewrite map_app. simpl. apply NoDup_app.
      * exact Hd.
      * constructor; [intros [] | constructor].
      * intros k Hk [<-|[]]. contradiction.
Qed.

Lemma NoDup_delete_property {A : Type} (key : string) (props : list (string * A)) :
  NoDup (map fst props) -> NoDup (map fst (delete_property key props)).
Proof.
  unfold delete_property. induction props as [|[k w] rest IH]; simpl; intros Hd;
    [constructor|].
  inversion Hd as [|? ? Hk Hrest]; subst.
  destruct (negb (k =? key)); simpl; [|now apply IH].
  constructor; [|now apply IH].
  intros H. apply Hk. apply in_map_iff in H as [[k' w'] [E H]].
  apply filter_In in H as [H _]. simpl in E. subst k'.
  apply in_map_iff. now exists (k, w').
Qed.

Lemma In_set_property {A : Type} (key k : string) (v : A)
    (props : list (string * A)) :
  In k (map fst (set_property key v props)) <-> k = key \/ In k (map fst props).
Proof.
  unfold set_property. destruct (has_own key props) eqn:Ho.
  - rewrite NoDup_replace_value. apply has_own_In in Ho.
    split; [now right | intros [->|H]; assumption].
  - destruct (array_index key) as [i|]; [apply In_insert_index|].
    rewrite map_app, in_app_iff. simpl. intuition auto.
Qed.

Lemma In_delete_property {A : Type} (key k : string) (props : list (string * A)) :
  In k (map fst (delete_property key props)) -> In k (map fst props).
Proof.
  rewrite <- !has_own_In, has_own_delete_property.
  intros H. now apply andb_true_iff in H as [_ H].
Qed.

(** X21.  The names of a database stay distinct, and none is the name
    of a member of [Object.prototype]: this holds of a new database,
    and [collection], [dropCollection] and [clear] maintain it.
    [hasCollection] accepts the listed names and, on any database, the
    names of the members of [Object.prototype]. *)
Theorem names_stay_distinct (db : MockDatabase) :
  distinct_names constructor
  /\ (distinct_names db ->
      (forall name_ s e db' s',
         collection db name_ s = Done (e, db') s' -> distinct_names db')
      /\ (forall name_ b db',
            dropCollection db name_ = Eval.Returns (b, db') -> distinct_names db')
      /\ distinct_names (clear db))
  /\ (forall name_ key,
        ToString name_ = Some key ->
        (hasCollection db name_ = Eval.Returns true <->
         In key (listCollections db) \/ inherited key = true)).
Proof.
  split; [split; constructor|]. split.
  - intros [Hd Hf]. split; [|split].
    + intros name_ s e db' s' H.
      destruct name_ as [| |b|n|str|addr elems|addr props];
        try (rewrite collection_invalid in H by exact I; discriminate H).
      destruct (blank str) eqn:B;
        [rewrite collection_invalid in H by exact B; discriminate H|].
      rewrite (collection_valid db str s B) in H.
      destruct (Get_entry db str) eqn:G.
      * injection H as <- <- <-. now split.
      * injection H as <- <- <-. apply Get_entry_None in G as [_ G].
        unfold distinct_names, listCollections. simpl. split.
        -- now apply NoDup_set_property.
        -- apply Forall_forall. intros k Hk.
           apply In_set_property in Hk as [->|Hk]; [exact G|].
           rewrite Forall_forall in Hf. now apply Hf.
    + intros name_ b db' H.
      destruct (ToString name_) as [key|] eqn:K;
        [|unfold dropCollection in H; rewrite K in H; discriminate H].
      rewrite (dropCollection_key db name_ key K) in H. injection H as <- <-.
      destruct (has_property key (collections db)); [|now split].
      unfold distinct_names, listCollections. simpl. split.
      * now apply NoDup_delete_property.
      * apply Forall_forall. intros k Hk. apply In_delete_property in Hk.
        rewrite Forall_forall in Hf. now apply Hf.
    + split; constructor.
  - intros name_ key K. unfold listCollections, hasCollection, has_property.
    rewrite K, <- has_own_In, <- orb_true_iff.
    split; [intros H; now injection H | intros ->; reflexivity].
Qed.

(** ** [clearAllData] and [stats] *)

Lemma clear_each_spec (db : MockDatabase) (names : list string) (s : state) :
  (forall n, In n names -> has_own n (collections db) = true) ->
  exists s',
    clear_each names db s = Done tt s'
    /\ (forall n c, In n names -> own_property n (collections db) = Some c ->
          docs_of s' c = [])
    /\ (forall c, docs_of s' c = [] \/ collection_at s' c = collection_at s c)
    /\ (forall c, name (collection_at s' c) = name (collection_at s c))
    /\ (forall c, (forall n, In n names -> own_property n (collections db) <> Some c) ->
          collection_at s' c = collection_at s c).
Proof.
  revert s. induction names as [|n0 names IH]; intros s Hall; simpl.
  - exists s. split; [reflexivity|]. split; [intros n c []|].
    split; [now right|]. now split.
  - assert (H0 : has_own n0 (collections db) = true) by (apply Hall; now left).
    unfold has_own in H0. unfold Get_entry.
    destruct (own_property n0 (collections db)) as [c0|] eqn:O0; [|discriminate].
    unfold bind, MockCollection.clear, set_documents.
    match goal with
    | |- context [clear_each names db ?st] => set (s1 := st)
    end.
    destruct (IH s1) as [s' [E [Hcl [Hinv [Hname Hframe]]]]].
    { intros n Hn. apply Hall. now right. }
    exists s'. split; [exact E|].
    assert (D1 : docs_of s1 c0 = []).
    { unfold docs_of, s1. simpl. now rewrite Nat.eqb_refl. }
    split; [|split; [|split]].
    + intros n c [<-|Hn] Hc.
      * rewrite O0 in Hc. injection Hc as <-.
        destruct (Hinv c0) as [H|H]; [exact H|]. unfold docs_of. now rewrite H.
      * now apply (Hcl n c).
    + intros c. destruct (Hinv c) as [H|H]; [now left|].
      destruct (Nat.eqb_spec c c0) as [->|N].
      * left. unfold docs_of. now rewrite H.
      * right. rewrite H. unfold s1. simpl.
        apply Nat.eqb_neq in N. now rewrite N.
    + intros c. rewrite Hname. unfold s1. simpl.
      now destruct (Nat.eqb_spec c c0) as [->|N].
    + intros c Hc. rewrite Hframe by (intros n Hn; apply Hc; now right).
      unfold s1. simpl. destruct (Nat.eqb_spec c c0) as [->|N]; [|reflexivity].
      exfalso. apply (Hc n0); [now left | exact O0].
Qed.

(** X22.  [clearAllData] always returns.  Afterwards every collection
    of the database is empty and keeps its name, and the collection
    objects that the database does not hold are as they were. *)
Theorem clearAllData_empties (db : MockDatabase) (s : state) :
  exists s',
    clearAllData db s = Done tt s'
    /\ (forall n c, own_property n (collections db) = Some c -> docs_of s' c = [])
    /\ (forall c, name (collection_at s' c) = name (collection_at s c))
    /\ (forall c, ~ In c (map snd (collections db)) ->
          collection_at s' c = collection_at s c).
Proof.
  destruct (clear_each_spec db (map fst (collections db)) s)
    as [s' [E [Hcl [_ [Hname Hframe]]]]].
  { intros n Hn. now apply has_own_In. }
  exists s'. split; [exact E|]. split; [|split; [exact Hname|]].
  - intros n c Hc. apply (Hcl n c); [|exact Hc].
    apply has_own_In. unfold has_own. now rewrite Hc.
  - intros c Hc. apply Hframe. intros n _ Hn. apply Hc.
    clear - Hn. induction (collections db) as [|[k v] rest IH]; simpl in *;
      [discriminate|].
    destruct (k =? n); [injection Hn as ->; now left | right; now apply IH].
Qed.

Lemma stats_loop_spec (entries : list (string * nat)) (st : Stats.t) (s : state) :
  NoDup (map fst entries) ->
  Forall (fun n => inherited n = false) (map fst entries) ->
  exists st',
    stats_loop entries st s = Done st' s
    /\ Stats.collections st' = Stats.collections st
    /\ Stats.totalDocuments st'
       = Stats.totalDocuments st + total_documents s (map snd entries)
    /\ forall n,
         own_property n (Stats.collectionStats st') =
         match own_property n entries with
         | Some c => Some (List.length (docs_of s c))
         | None => own_property n (Stats.collectionStats st)
         end.
Proof.
  revert st. induction entries as [|[k c] rest IH]; intros st Hd Hf; simpl.
  - exists st. unfold total_documents. simpl. repeat split. lia.
  - inversion Hd as [|? ? Hk Hrest]; subst.
    inversion Hf as [|? ? Ik Irest]; subst.
    unfold bind, count, bind, get_documents, ret.
    rewrite (assign_property_plain _ _ _ Ik).
    match goal with
    | |- context [stats_loop rest ?x s] =>
        destruct (IH x Hrest Irest) as [st' [E [C [T P]]]]
    end.
    exists st'. split; [exact E|]. split; [exact C|]. split.
    + rewrite T. unfold total_documents, docs_of. simpl. lia.
    + intros n. rewrite P. simpl. rewrite own_property_set_property.
      destruct (String.eqb_spec k n) as [->|N].
      * apply own_property_None_In in Hk. rewrite Hk.
        now rewrite String.eqb_refl.
      * destruct (own_property n rest); [reflexivity|].
        destruct (String.eqb_spec n k); [congruence | reflexivity].
Qed.

(** X23.  [stats] changes nothing.  For a database as the methods build
    it, it reports the number of names, the sum of the document counts
    of the collections, and under each name the document count of that
    collection. *)
Theorem stats_counts (db : MockDatabase) (s : state) :
  distinct_names db ->
  exists st,
    stats db s = Done st s
    /\ Stats.collections st = List.length (listCollections db)
    /\ Stats.totalDocuments st = total_documents s (map snd (collections db))
    /\ forall n,
         own_property n (Stats.collectionStats st) =
         option_map (fun c => List.length (docs_of s c))
                    (own_property n (collections db)).
Proof.
  intros [Hd Hf]. unfold stats.
  match goal with
  | |- context [stats_loop _ ?x s] =>
      destruct (stats_loop_spec (collections db) x s Hd Hf) as [st [E [C [T P]]]]
  end.
  exists st. split; [exact E|]. split; [exact C|]. split; [exact T|].
  intros n. rewrite P. now destruct (own_property n (collections db)).
Qed.

Lemma stats_counts_witness :
  exists st,
    stats {| collections := [("users", 0); ("posts", 7)] |} three_users = Done st three_users
    /\ Stats.collections st
       = List.length (listCollections {| collections := [("users", 0); ("posts", 7)] |})
    /\ Stats.totalDocuments st
       = total_documents three_users
           (map snd (collections {| collections := [("users", 0); ("posts", 7)] |}))
    /\ forall n,
         own_property n (Stats.collectionStats st) =
         option_map (fun c => List.length (docs_of three_users c))
                    (own_property n
                       (collections {| collections := [("users", 0); ("posts", 7)] |})).
Proof.
  apply (stats_counts {| collections := [("users", 0); ("posts", 7)] |} three_users).
  split.
  - unfold listCollections. simpl.
    repeat constructor; simpl; intuition discriminate.
  - repeat constructor.
Defined.

End DatabaseProperties.

(** * Further properties of the query engine *)

Module EngineProperties.
Import Eval JS QueryBuilder Spec JSFacts Properties.

(** ** Several operators on one field *)

(** X24.  The operators of one operator object are conjoined, in the
    order of the object, and evaluation stops at the first that fails:
    [{f: {op1: v1, op2: v2}}] is decided by [op1], and by [op2] only
    when [op1] holds, so what [op2] would throw is not thrown when
    [op1] fails. *)
Theorem operators_are_conjoined (h : RegExpHost) (doc : document) (f op1 op2 : string)
    (v1 v2 : value) (a0 a1 : nat) :
  op1 <> op2 ->
  run h (_matchesQuery doc (filter1 a0 f (VObj a1 [(op1, v1); (op2, v2)])))
  = match run h (_matchesOperator (field doc f) op1 v1) with
    | Returns true => run h (_matchesOperator (field doc f) op2 v2)
    | other => other
    end.
Proof.
  intros Hop. rewrite run_matchesQuery_filter1. unfold field_condition.
  cbn [ToBoolean typeof type_tag_eqb Array_isArray negb andb Object_keys
       own_enumerable map fst for_in_all].
  unfold Get. cbn [own_enumerable lookup]. rewrite !String.eqb_refl.
  destruct (String.eqb_spec op1 op2) as [E|_]; [contradiction|].
  rewrite run_bind.
  destruct (run h (_matchesOperator (field doc f) op1 v1)) as [[|]|e];
    try reflexivity.
  rewrite run_bind.
  now destruct (run h (_matchesOperator (field doc f) op2 v2)) as [[|]|e].
Qed.

Lemma operators_are_conjoined_witness :
  run strict_host
      (_matchesQuery alice
         (filter1 10 "age" (VObj 11 [("$gte", VNum 25); ("$lte", VNum 35)])))
  = match run strict_host (_matchesOperator (field alice "age") "$gte" (VNum 25)) with
    | Returns true =>
        run strict_host (_matchesOperator (field alice "age") "$lte" (VNum 35))
    | other => other
    end.
Proof.
  apply (operators_are_conjoined strict_host alice "age" "$gte" "$lte"
           (VNum 25) (VNum 35) 10 11).
  discriminate.
Defined.

(** ** Chained calls of [match] *)




End EngineProperties.

